(** * vk_raytrace, headless harness: render-target lifecycle, renderer switch
      and frame export

    A shallow embedding of [HeadlessAppVK] (headless_vk.cpp) and of
    [SampleExample] (sample_example.cpp).  The Vulkan device is an explicit
    state: tables of live objects, the work handed to the queue and the
    chronological list of API calls.  Member functions are actions of a
    state-and-fault monad over the object they mutate. *)

From Stdlib Require Import ZArith List String Ascii Bool Lia DecimalString.
From Stdlib.Strings Require Import Byte.
From stdpp Require Import base numbers option list gmap.
Import ListNotations.
Open Scope Z_scope.
Set Warnings "-clear-no-such-hyp".

(** ** Machine integers *)

Definition to_u32 (v : Z) : Z := v mod 2 ^ 32.
Definition to_i32 (v : Z) : Z := (v + 2 ^ 31) mod 2 ^ 32 - 2 ^ 31.
Definition UINT64_MAX : Z := 2 ^ 64 - 1.

(** [std::to_string] and [operator<<] on an unsigned integer: decimal digits,
    no sign, no padding. *)
Definition to_string (v : Z) : string :=
  NilZero.string_of_uint (N.to_uint (Z.to_N v)).

(** The line feed of a C string literal. *)
Definition LF : string := String (ascii_of_nat 10) EmptyString.

(** ** Outcomes

    [assert(0)] ends the process.  Indexing an array or mapped memory past
    its size, handing a dead handle to the driver, calling through a null
    pointer and dividing by zero have no defined result.  All are kept apart
    from a normal return; [OutOfFuel] is the bounded loop of the embedding
    running dry, shown below not to happen. *)

Inductive Fault : Type :=
| Abort (msg : string)
| OutOfBounds (index size : Z)
| InvalidHandle (h : Z)
| NullPointer
| DivisionByZero
| OutOfFuel.

Inductive Outcome (A : Type) : Type :=
| Ok (a : A)
| Err (f : Fault).
Arguments Ok {A} a.
Arguments Err {A} f.

Definition M (S A : Type) : Type := S -> Outcome (A * S).

#[global] Instance M_ret {S} : MRet (M S) := fun A a s => Ok (a, s).
#[global] Instance M_bind {S} : MBind (M S) := fun A B f m s =>
  match m s with
  | Ok (a, s') => f a s'
  | Err e => Err e
  end.

Definition get {S} : M S S := fun s => Ok (s, s).
Definition put {S} (s : S) : M S unit := fun _ => Ok (tt, s).
Definition modify {S} (f : S -> S) : M S unit := fun s => Ok (tt, f s).
Definition fail {S A} (e : Fault) : M S A := fun _ => Err e.
Definition when {S} (b : bool) (m : M S unit) : M S unit :=
  if b then m else mret tt.

(** Run an action for its final state. *)
Definition exec {S A} (m : M S A) (s : S) : Outcome S :=
  match m s with
  | Ok (_, s') => Ok s'
  | Err e => Err e
  end.

(** [for (int32_t i = 0; i < bound; i++) body] with [bound] a [uint32_t]: the
    comparison converts [i] to [uint32_t], the increment wraps in 32 bits.
    The recursion is bounded by [fuel]. *)
Fixpoint for_i32 {S} (fuel : nat) (i bound : Z) (body : Z -> M S unit)
    : M S unit :=
  match fuel with
  | O => fail OutOfFuel
  | S k =>
      if to_u32 i <? bound
      then body i ;; for_i32 k (to_i32 (i + 1)) bound body
      else mret tt
  end.

(** [n] consecutive calls of the same member function. *)
Fixpoint repeat_call {S} (n : nat) (m : M S unit) : M S unit :=
  match n with
  | O => mret tt
  | S k => m ;; repeat_call k m
  end.

(** ** Vulkan values (vulkan_core.h) *)

Module Vk.

Definition VK_NULL_HANDLE : Z := 0.
Definition VK_TRUE : Z := 1.

Definition VK_FORMAT_UNDEFINED : Z := 0.
Definition VK_FORMAT_R8G8B8A8_UNORM : Z := 37.
Definition VK_FORMAT_B8G8R8A8_UNORM : Z := 44.
Definition VK_FORMAT_B8G8R8A8_SNORM : Z := 45.
Definition VK_FORMAT_B8G8R8A8_SRGB : Z := 50.
Definition VK_FORMAT_D16_UNORM : Z := 124.
Definition VK_FORMAT_X8_D24_UNORM_PACK32 : Z := 125.
Definition VK_FORMAT_D32_SFLOAT : Z := 126.
Definition VK_FORMAT_S8_UINT : Z := 127.
Definition VK_FORMAT_D16_UNORM_S8_UINT : Z := 128.
Definition VK_FORMAT_D24_UNORM_S8_UINT : Z := 129.
Definition VK_FORMAT_D32_SFLOAT_S8_UINT : Z := 130.
Definition VK_FORMAT_BC1_RGB_UNORM_BLOCK : Z := 131.

Definition VK_FORMAT_FEATURE_DEPTH_STENCIL_ATTACHMENT_BIT : Z := 0x200.

Definition VK_IMAGE_ASPECT_COLOR_BIT : Z := 1.
Definition VK_IMAGE_ASPECT_DEPTH_BIT : Z := 2.
Definition VK_IMAGE_ASPECT_STENCIL_BIT : Z := 4.

Definition VK_MEMORY_PROPERTY_DEVICE_LOCAL_BIT : Z := 1.
Definition VK_MEMORY_PROPERTY_HOST_VISIBLE_BIT : Z := 2.
Definition VK_MEMORY_PROPERTY_HOST_COHERENT_BIT : Z := 4.

Definition VK_IMAGE_USAGE_TRANSFER_SRC_BIT : Z := 1.
Definition VK_IMAGE_USAGE_TRANSFER_DST_BIT : Z := 2.
Definition VK_IMAGE_USAGE_COLOR_ATTACHMENT_BIT : Z := 0x10.
Definition VK_IMAGE_USAGE_DEPTH_STENCIL_ATTACHMENT_BIT : Z := 0x20.

Definition VK_IMAGE_TYPE_2D : Z := 1.
Definition VK_IMAGE_VIEW_TYPE_2D : Z := 1.
Definition VK_SAMPLE_COUNT_1_BIT : Z := 1.
Definition VK_IMAGE_TILING_OPTIMAL : Z := 0.
Definition VK_IMAGE_TILING_LINEAR : Z := 1.
Definition VK_COMMAND_POOL_CREATE_RESET_COMMAND_BUFFER_BIT : Z := 2.
Definition VK_COMMAND_BUFFER_LEVEL_PRIMARY : Z := 0.

Record VkExtent2D := { width : Z; height : Z }.
Record VkOffset2D := { x : Z; y : Z }.
Record VkRect2D := { offset : VkOffset2D; extent : VkExtent2D }.

Record VkImageCreateInfo := {
  imageType : Z;
  format : Z;
  imageExtent : Z * Z * Z;
  mipLevels : Z;
  arrayLayers : Z;
  samples : Z;
  tiling : Z;
  usage : Z
}.

Record VkMemoryRequirements := { size : Z; memoryTypeBits : Z }.

Record VkMemoryAllocateInfo := { allocationSize : Z; memoryTypeIndex : Z }.

Record VkImageViewCreateInfo := {
  viewType : Z;
  viewFormat : Z;
  flags : Z;
  aspectMask : Z;
  baseMipLevel : Z;
  levelCount : Z;
  baseArrayLayer : Z;
  layerCount : Z;
  image : Z
}.

Record VkMemoryType := { propertyFlags : Z }.

(** What the physical device and its driver report when queried. *)
Record VkPhysicalDevice := {
  memoryTypes : list VkMemoryType;
  optimalTilingFeatures : Z -> Z;
  imageMemoryRequirements : VkImageCreateInfo -> VkMemoryRequirements;
  deviceQueue : Z -> Z -> Z
}.

(** The calls that reach the driver, and the calls into a renderer backend
    (which issues driver calls of its own), in the order they are made. *)
Inductive VkCall : Type :=
| GetDeviceQueue (family index queue : Z)
| CreateCommandPool (poolFlags pool : Z)
| CreatePipelineCache (cache : Z)
| CreateImage (info : VkImageCreateInfo) (img : Z)
| DestroyImage (img : Z)
| AllocateMemory (info : VkMemoryAllocateInfo) (mem : Z)
| FreeMemory (mem : Z)
| BindImageMemory (img mem memOffset : Z)
| CreateImageView (info : VkImageViewCreateInfo) (view : Z)
| DestroyImageView (view : Z)
| AllocateCommandBuffers (pool level cmd : Z)
| BeginCommandBuffer (cmd usageFlags : Z)
| EndCommandBuffer (cmd : Z)
| CmdRecorded (cmd : Z) (command : string)
| FreeCommandBuffers (pool cmd : Z)
| CreateFence (fence : Z)
| DestroyFence (fence : Z)
| QueueSubmit (queue : Z) (cmds : list Z) (fence : Z)
| WaitForFences (fs : list Z) (waitAll timeout : Z)
| QueueWaitIdle (queue : Z)
| DeviceWaitIdle
| RendererCreate (slot : Z)
| RendererDestroy (slot : Z)
| RendererSetPushContants (slot : Z)
| RendererRun (slot cmdBuf renderWidth renderHeight : Z).

(** The logical device: a handle counter, the live objects by kind, the
    command buffers handed to the queue and not yet known to be finished,
    those known to be finished, and every call so far. *)
Record VkDevice := {
  next_handle : Z;
  images : gmap Z VkImageCreateInfo;
  memories : gmap Z VkMemoryAllocateInfo;
  views : gmap Z VkImageViewCreateInfo;
  fences : gset Z;
  cmdbufs : gset Z;
  pending : list Z;
  completed : list Z;
  calls : list VkCall
}.

Definition new_device : VkDevice :=
  {| next_handle := 1; images := ∅; memories := ∅; views := ∅; fences := ∅;
     cmdbufs := ∅; pending := []; completed := []; calls := [] |}.

Definition record (c : VkCall) (d : VkDevice) : VkDevice :=
  {| next_handle := next_handle d; images := images d; memories := memories d;
     views := views d; fences := fences d; cmdbufs := cmdbufs d;
     pending := pending d; completed := completed d; calls := calls d ++ [c] |}.

Definition bump (d : VkDevice) : VkDevice :=
  {| next_handle := next_handle d + 1; images := images d;
     memories := memories d; views := views d; fences := fences d;
     cmdbufs := cmdbufs d; pending := pending d; completed := completed d;
     calls := calls d |}.

Definition with_images (f : gmap Z VkImageCreateInfo -> gmap Z VkImageCreateInfo)
    (d : VkDevice) : VkDevice :=
  {| next_handle := next_handle d; images := f (images d);
     memories := memories d; views := views d; fences := fences d;
     cmdbufs := cmdbufs d; pending := pending d; completed := completed d;
     calls := calls d |}.

Definition with_memories
    (f : gmap Z VkMemoryAllocateInfo -> gmap Z VkMemoryAllocateInfo)
    (d : VkDevice) : VkDevice :=
  {| next_handle := next_handle d; images := images d;
     memories := f (memories d); views := views d; fences := fences d;
     cmdbufs := cmdbufs d; pending := pending d; completed := completed d;
     calls := calls d |}.

Definition with_views
    (f : gmap Z VkImageViewCreateInfo -> gmap Z VkImageViewCreateInfo)
    (d : VkDevice) : VkDevice :=
  {| next_handle := next_handle d; images := images d;
     memories := memories d; views := f (views d); fences := fences d;
     cmdbufs := cmdbufs d; pending := pending d; completed := completed d;
     calls := calls d |}.

Definition with_fences (f : gset Z -> gset Z) (d : VkDevice) : VkDevice :=
  {| next_handle := next_handle d; images := images d;
     memories := memories d; views := views d; fences := f (fences d);
     cmdbufs := cmdbufs d; pending := pending d; completed := completed d;
     calls := calls d |}.

Definition with_cmdbufs (f : gset Z -> gset Z) (d : VkDevice) : VkDevice :=
  {| next_handle := next_handle d; images := images d;
     memories := memories d; views := views d; fences := fences d;
     cmdbufs := f (cmdbufs d); pending := pending d; completed := completed d;
     calls := calls d |}.

Definition submit (cmds : list Z) (d : VkDevice) : VkDevice :=
  {| next_handle := next_handle d; images := images d;
     memories := memories d; views := views d; fences := fences d;
     cmdbufs := cmdbufs d; pending := pending d ++ cmds;
     completed := completed d; calls := calls d |}.

(** A wait without timeout on the last fence, on the queue or on the device
    returns once everything submitted so far has run. *)
Definition drain (d : VkDevice) : VkDevice :=
  {| next_handle := next_handle d; images := images d;
     memories := memories d; views := views d; fences := fences d;
     cmdbufs := cmdbufs d; pending := [];
     completed := completed d ++ pending d; calls := calls d |}.

(** A creation call hands out the next handle; handles are never reused. *)
Definition fresh : M VkDevice Z :=
  fun d => Ok (next_handle d, bump d).

Definition vkGetDeviceQueue (p : VkPhysicalDevice) (family index : Z)
    : M VkDevice Z :=
  let q := deviceQueue p family index in
  modify (record (GetDeviceQueue family index q)) ;; mret q.

Definition vkCreateCommandPool (poolFlags : Z) : M VkDevice Z :=
  h ← fresh; modify (record (CreateCommandPool poolFlags h)) ;; mret h.

Definition vkCreatePipelineCache : M VkDevice Z :=
  h ← fresh; modify (record (CreatePipelineCache h)) ;; mret h.

Definition vkCreateImage (info : VkImageCreateInfo) : M VkDevice Z :=
  h ← fresh;
  modify (with_images (insert h info)) ;;
  modify (record (CreateImage info h)) ;;
  mret h.

Definition vkDestroyImage (img : Z) : M VkDevice unit :=
  modify (with_images (delete img)) ;; modify (record (DestroyImage img)).

Definition vkGetImageMemoryRequirements (p : VkPhysicalDevice) (img : Z)
    : M VkDevice VkMemoryRequirements :=
  d ← get;
  match images d !! img with
  | Some info => mret (imageMemoryRequirements p info)
  | None => fail (InvalidHandle img)
  end.

Definition vkAllocateMemory (info : VkMemoryAllocateInfo) : M VkDevice Z :=
  h ← fresh;
  modify (with_memories (insert h info)) ;;
  modify (record (AllocateMemory info h)) ;;
  mret h.

Definition vkFreeMemory (mem : Z) : M VkDevice unit :=
  modify (with_memories (delete mem)) ;; modify (record (FreeMemory mem)).

Definition vkBindImageMemory (img mem memOffset : Z) : M VkDevice unit :=
  d ← get;
  if bool_decide (img ∈ dom (images d)) && bool_decide (mem ∈ dom (memories d))
  then modify (record (BindImageMemory img mem memOffset))
  else fail (InvalidHandle (if bool_decide (img ∈ dom (images d)) then mem else img)).

Definition vkCreateImageView (info : VkImageViewCreateInfo) : M VkDevice Z :=
  d ← get;
  if bool_decide (image info ∈ dom (images d)) then
    h ← fresh;
    modify (with_views (insert h info)) ;;
    modify (record (CreateImageView info h)) ;;
    mret h
  else fail (InvalidHandle (image info)).

Definition vkDestroyImageView (view : Z) : M VkDevice unit :=
  modify (with_views (delete view)) ;; modify (record (DestroyImageView view)).

Definition vkAllocateCommandBuffers (pool level : Z) : M VkDevice Z :=
  h ← fresh;
  modify (with_cmdbufs (union {[h]})) ;;
  modify (record (AllocateCommandBuffers pool level h)) ;;
  mret h.

Definition vkBeginCommandBuffer (cmd usageFlags : Z) : M VkDevice unit :=
  modify (record (BeginCommandBuffer cmd usageFlags)).

Definition vkEndCommandBuffer (cmd : Z) : M VkDevice unit :=
  modify (record (EndCommandBuffer cmd)).

(** Any [vkCmd...] call: the command goes into the buffer, nothing runs. *)
Definition vkCmd (cmd : Z) (command : string) : M VkDevice unit :=
  modify (record (CmdRecorded cmd command)).

Definition vkFreeCommandBuffers (pool cmd : Z) : M VkDevice unit :=
  modify (with_cmdbufs (fun s => s ∖ {[cmd]})) ;;
  modify (record (FreeCommandBuffers pool cmd)).

Definition vkCreateFence : M VkDevice Z :=
  h ← fresh;
  modify (with_fences (union {[h]})) ;;
  modify (record (CreateFence h)) ;;
  mret h.

Definition vkDestroyFence (fence : Z) : M VkDevice unit :=
  modify (with_fences (fun s => s ∖ {[fence]})) ;;
  modify (record (DestroyFence fence)).

Definition vkQueueSubmit (queue : Z) (cmds : list Z) (fence : Z)
    : M VkDevice unit :=
  modify (submit cmds) ;; modify (record (QueueSubmit queue cmds fence)).

(** With an infinite timeout the wait returns only when the fence is
    signalled; a finite one may return early and leaves the work pending. *)
Definition vkWaitForFences (fs : list Z) (waitAll timeout : Z)
    : M VkDevice unit :=
  when (timeout =? UINT64_MAX) (modify drain) ;;
  modify (record (WaitForFences fs waitAll timeout)).

Definition vkQueueWaitIdle (queue : Z) : M VkDevice unit :=
  modify drain ;; modify (record (QueueWaitIdle queue)).

Definition vkDeviceWaitIdle : M VkDevice unit :=
  modify drain ;; modify (record DeviceWaitIdle).

End Vk.

(** ** HeadlessAppVK (headless_vk.hpp, headless_vk.cpp) *)

Module Headless.
Import Vk.

(** The members the functions below read or write.  [m_device] is the logical
    device the handle stands for, [m_physicalDevice] what that device
    reports. *)
Record HeadlessAppVK := {
  m_instance : Z;
  m_device : VkDevice;
  m_physicalDevice : VkPhysicalDevice;
  m_queue : Z;
  m_graphicsQueueIndex : Z;
  m_cmdPool : Z;
  m_colorImage : Z;
  m_colorMemory : Z;
  m_colorView : Z;
  m_depthImage : Z;
  m_depthMemory : Z;
  m_depthView : Z;
  m_size : VkExtent2D;
  m_pipelineCache : Z;
  m_colorFormat : Z;
  m_depthFormat : Z
}.

(** The member initialisers of the class; before [setup] the object is bound
    to no device, shown here as a device that reports nothing. *)
Definition no_physical_device : VkPhysicalDevice :=
  {| memoryTypes := []; optimalTilingFeatures := fun _ => 0;
     imageMemoryRequirements := fun _ => {| size := 0; memoryTypeBits := 0 |};
     deviceQueue := fun _ _ => VK_NULL_HANDLE |}.

Definition HeadlessAppVK_default : HeadlessAppVK :=
  {| m_instance := VK_NULL_HANDLE; m_device := new_device;
     m_physicalDevice := no_physical_device; m_queue := VK_NULL_HANDLE;
     m_graphicsQueueIndex := 2 ^ 32 - 1; m_cmdPool := VK_NULL_HANDLE;
     m_colorImage := VK_NULL_HANDLE; m_colorMemory := VK_NULL_HANDLE;
     m_colorView := VK_NULL_HANDLE; m_depthImage := VK_NULL_HANDLE;
     m_depthMemory := VK_NULL_HANDLE; m_depthView := VK_NULL_HANDLE;
     m_size := {| width := 0; height := 0 |};
     m_pipelineCache := VK_NULL_HANDLE;
     m_colorFormat := VK_FORMAT_B8G8R8A8_UNORM;
     m_depthFormat := VK_FORMAT_UNDEFINED |}.

Definition set_device (v : VkDevice) (a : HeadlessAppVK) : HeadlessAppVK :=
  {| m_instance := m_instance a; m_device := v;
     m_physicalDevice := m_physicalDevice a; m_queue := m_queue a;
     m_graphicsQueueIndex := m_graphicsQueueIndex a; m_cmdPool := m_cmdPool a;
     m_colorImage := m_colorImage a; m_colorMemory := m_colorMemory a;
     m_colorView := m_colorView a; m_depthImage := m_depthImage a;
     m_depthMemory := m_depthMemory a; m_depthView := m_depthView a;
     m_size := m_size a; m_pipelineCache := m_pipelineCache a;
     m_colorFormat := m_colorFormat a; m_depthFormat := m_depthFormat a |}.

Definition set_queue (v : Z) (a : HeadlessAppVK) : HeadlessAppVK :=
  {| m_instance := m_instance a; m_device := m_device a;
     m_physicalDevice := m_physicalDevice a; m_queue := v;
     m_graphicsQueueIndex := m_graphicsQueueIndex a; m_cmdPool := m_cmdPool a;
     m_colorImage := m_colorImage a; m_colorMemory := m_colorMemory a;
     m_colorView := m_colorView a; m_depthImage := m_depthImage a;
     m_depthMemory := m_depthMemory a; m_depthView := m_depthView a;
     m_size := m_size a; m_pipelineCache := m_pipelineCache a;
     m_colorFormat := m_colorFormat a; m_depthFormat := m_depthFormat a |}.

Definition set_cmdPool (v : Z) (a : HeadlessAppVK) : HeadlessAppVK :=
  {| m_instance := m_instance a; m_device := m_device a;
     m_physicalDevice := m_physicalDevice a; m_queue := m_queue a;
     m_graphicsQueueIndex := m_graphicsQueueIndex a; m_cmdPool := v;
     m_colorImage := m_colorImage a; m_colorMemory := m_colorMemory a;
     m_colorView := m_colorView a; m_depthImage := m_depthImage a;
     m_depthMemory := m_depthMemory a; m_depthView := m_depthView a;
     m_size := m_size a; m_pipelineCache := m_pipelineCache a;
     m_colorFormat := m_colorFormat a; m_depthFormat := m_depthFormat a |}.

Definition set_pipelineCache (v : Z) (a : HeadlessAppVK) : HeadlessAppVK :=
  {| m_instance := m_instance a; m_device := m_device a;
     m_physicalDevice := m_physicalDevice a; m_queue := m_queue a;
     m_graphicsQueueIndex := m_graphicsQueueIndex a; m_cmdPool := m_cmdPool a;
     m_colorImage := m_colorImage a; m_colorMemory := m_colorMemory a;
     m_colorView := m_colorView a; m_depthImage := m_depthImage a;
     m_depthMemory := m_depthMemory a; m_depthView := m_depthView a;
     m_size := m_size a; m_pipelineCache := v;
     m_colorFormat := m_colorFormat a; m_depthFormat := m_depthFormat a |}.

Definition set_depthFormat (v : Z) (a : HeadlessAppVK) : HeadlessAppVK :=
  {| m_instance := m_instance a; m_device := m_device a;
     m_physicalDevice := m_physicalDevice a; m_queue := m_queue a;
     m_graphicsQueueIndex := m_graphicsQueueIndex a; m_cmdPool := m_cmdPool a;
     m_colorImage := m_colorImage a; m_colorMemory := m_colorMemory a;
     m_colorView := m_colorView a; m_depthImage := m_depthImage a;
     m_depthMemory := m_depthMemory a; m_depthView := m_depthView a;
     m_size := m_size a; m_pipelineCache := m_pipelineCache a;
     m_colorFormat := m_colorFormat a; m_depthFormat := v |}.

Definition set_colorImage (v : Z) (a : HeadlessAppVK) : HeadlessAppVK :=
  {| m_instance := m_instance a; m_device := m_device a;
     m_physicalDevice := m_physicalDevice a; m_queue := m_queue a;
     m_graphicsQueueIndex := m_graphicsQueueIndex a; m_cmdPool := m_cmdPool a;
     m_colorImage := v; m_colorMemory := m_colorMemory a;
     m_colorView := m_colorView a; m_depthImage := m_depthImage a;
     m_depthMemory := m_depthMemory a; m_depthView := m_depthView a;
     m_size := m_size a; m_pipelineCache := m_pipelineCache a;
     m_colorFormat := m_colorFormat a; m_depthFormat := m_depthFormat a |}.

Definition set_colorMemory (v : Z) (a : HeadlessAppVK) : HeadlessAppVK :=
  {| m_instance := m_instance a; m_device := m_device a;
     m_physicalDevice := m_physicalDevice a; m_queue := m_queue a;
     m_graphicsQueueIndex := m_graphicsQueueIndex a; m_cmdPool := m_cmdPool a;
     m_colorImage := m_colorImage a; m_colorMemory := v;
     m_colorView := m_colorView a; m_depthImage := m_depthImage a;
     m_depthMemory := m_depthMemory a; m_depthView := m_depthView a;
     m_size := m_size a; m_pipelineCache := m_pipelineCache a;
     m_colorFormat := m_colorFormat a; m_depthFormat := m_depthFormat a |}.

Definition set_colorView (v : Z) (a : HeadlessAppVK) : HeadlessAppVK :=
  {| m_instance := m_instance a; m_device := m_device a;
     m_physicalDevice := m_physicalDevice a; m_queue := m_queue a;
     m_graphicsQueueIndex := m_graphicsQueueIndex a; m_cmdPool := m_cmdPool a;
     m_colorImage := m_colorImage a; m_colorMemory := m_colorMemory a;
     m_colorView := v; m_depthImage := m_depthImage a;
     m_depthMemory := m_depthMemory a; m_depthView := m_depthView a;
     m_size := m_size a; m_pipelineCache := m_pipelineCache a;
     m_colorFormat := m_colorFormat a; m_depthFormat := m_depthFormat a |}.

Definition set_depthImage (v : Z) (a : HeadlessAppVK) : HeadlessAppVK :=
  {| m_instance := m_instance a; m_device := m_device a;
     m_physicalDevice := m_physicalDevice a; m_queue := m_queue a;
     m_graphicsQueueIndex := m_graphicsQueueIndex a; m_cmdPool := m_cmdPool a;
     m_colorImage := m_colorImage a; m_colorMemory := m_colorMemory a;
     m_colorView := m_colorView a; m_depthImage := v;
     m_depthMemory := m_depthMemory a; m_depthView := m_depthView a;
     m_size := m_size a; m_pipelineCache := m_pipelineCache a;
     m_colorFormat := m_colorFormat a; m_depthFormat := m_depthFormat a |}.

Definition set_depthMemory (v : Z) (a : HeadlessAppVK) : HeadlessAppVK :=
  {| m_instance := m_instance a; m_device := m_device a;
     m_physicalDevice := m_physicalDevice a; m_queue := m_queue a;
     m_graphicsQueueIndex := m_graphicsQueueIndex a; m_cmdPool := m_cmdPool a;
     m_colorImage := m_colorImage a; m_colorMemory := m_colorMemory a;
     m_colorView := m_colorView a; m_depthImage := m_depthImage a;
     m_depthMemory := v; m_depthView := m_depthView a;
     m_size := m_size a; m_pipelineCache := m_pipelineCache a;
     m_colorFormat := m_colorFormat a; m_depthFormat := m_depthFormat a |}.

Definition set_depthView (v : Z) (a : HeadlessAppVK) : HeadlessAppVK :=
  {| m_instance := m_instance a; m_device := m_device a;
     m_physicalDevice := m_physicalDevice a; m_queue := m_queue a;
     m_graphicsQueueIndex := m_graphicsQueueIndex a; m_cmdPool := m_cmdPool a;
     m_colorImage := m_colorImage a; m_colorMemory := m_colorMemory a;
     m_colorView := m_colorView a; m_depthImage := m_depthImage a;
     m_depthMemory := m_depthMemory a; m_depthView := v;
     m_size := m_size a; m_pipelineCache := m_pipelineCache a;
     m_colorFormat := m_colorFormat a; m_depthFormat := m_depthFormat a |}.

(** A driver call made on [m_device]. *)
Definition on_device {A} (m : M VkDevice A) : M HeadlessAppVK A :=
  fun this =>
    match m (m_device this) with
    | Ok (a, d) => Ok (a, set_device d this)
    | Err e => Err e
    end.

(** [if(handle)]: a handle is true when it is not [VK_NULL_HANDLE]. *)
Definition is_set (h : Z) : bool := negb (h =? VK_NULL_HANDLE).

(** [(value & mask) == mask] *)
Definition has_all (value mask : Z) : bool := Z.land value mask =? mask.

(** *** setup *)

Definition depth_candidates : list Z :=
  [VK_FORMAT_D24_UNORM_S8_UINT; VK_FORMAT_D32_SFLOAT_S8_UINT;
   VK_FORMAT_D16_UNORM_S8_UINT].

(** The range-for over the candidates; assigning and leaving the loop at the
    first one that qualifies, falling out of it when none does. *)
Fixpoint setup_probe (feature : Z) (fs : list Z) : M HeadlessAppVK unit :=
  match fs with
  | [] => mret tt
  | f :: rest =>
      this ← get;
      let formatProp := optimalTilingFeatures (m_physicalDevice this) f in
      if has_all formatProp feature
      then modify (set_depthFormat f)
      else setup_probe feature rest
  end.

Definition setup (instance : Z) (device : VkDevice)
    (physicalDevice : VkPhysicalDevice)
    (graphicsQueueIndex width height colorFormat depthFormat : Z)
    : M HeadlessAppVK unit :=
  modify (fun a =>
    {| m_instance := instance; m_device := device;
       m_physicalDevice := physicalDevice; m_queue := m_queue a;
       m_graphicsQueueIndex := graphicsQueueIndex; m_cmdPool := m_cmdPool a;
       m_colorImage := m_colorImage a; m_colorMemory := m_colorMemory a;
       m_colorView := m_colorView a; m_depthImage := m_depthImage a;
       m_depthMemory := m_depthMemory a; m_depthView := m_depthView a;
       m_size := {| width := width; height := height |};
       m_pipelineCache := m_pipelineCache a;
       m_colorFormat := colorFormat; m_depthFormat := depthFormat |}) ;;
  this ← get;
  q ← on_device (vkGetDeviceQueue (m_physicalDevice this)
                   (m_graphicsQueueIndex this) 0);
  modify (set_queue q) ;;
  pool ← on_device
    (vkCreateCommandPool VK_COMMAND_POOL_CREATE_RESET_COMMAND_BUFFER_BIT);
  modify (set_cmdPool pool) ;;
  cache ← on_device vkCreatePipelineCache;
  modify (set_pipelineCache cache) ;;
  this ← get;
  when (m_depthFormat this =? VK_FORMAT_UNDEFINED)
    (setup_probe VK_FORMAT_FEATURE_DEPTH_STENCIL_ATTACHMENT_BIT
       depth_candidates).

(** *** getMemoryType *)

(** The scan [for(uint32_t i = 0; i < memoryTypeCount; i++)] over the entries
    from [i] on.  The table has at most [VK_MAX_MEMORY_TYPES] = 32 entries, so
    [i < 32] and [1 << i] is the single bit [i] of the 32-bit [typeBits]. *)
Fixpoint getMemoryType_loop (typeBits properties i : Z)
    (types : list VkMemoryType) : option Z :=
  match types with
  | [] => None
  | t :: rest =>
      if (0 <? Z.land typeBits (Z.shiftl 1 i))
         && has_all (propertyFlags t) properties
      then Some i
      else getMemoryType_loop typeBits properties (i + 1) rest
  end.

(** After the scan: [LOGE] of the message, then [assert(0)], which ends the
    process; the [return ~0u] behind it is not reached. *)
Definition getMemoryType (typeBits properties : Z) : M HeadlessAppVK Z :=
  this ← get;
  let memoryProperties := memoryTypes (m_physicalDevice this) in
  match getMemoryType_loop typeBits properties 0 memoryProperties with
  | Some i => mret i
  | None =>
      let err := ("Unable to find memory type " ++ to_string properties)%string in
      fail (Abort err)
  end.

(** *** createColorBuffer, createDepthBuffer *)

Definition colorImageInfo (this : HeadlessAppVK) : VkImageCreateInfo :=
  {| imageType := VK_IMAGE_TYPE_2D;
     format := m_colorFormat this;
     imageExtent := (width (m_size this), height (m_size this), 1);
     mipLevels := 1; arrayLayers := 1;
     samples := VK_SAMPLE_COUNT_1_BIT;
     tiling := VK_IMAGE_TILING_OPTIMAL;
     usage := Z.lor VK_IMAGE_USAGE_COLOR_ATTACHMENT_BIT
                    VK_IMAGE_USAGE_TRANSFER_SRC_BIT |}.

Definition colorViewInfo (this : HeadlessAppVK) : VkImageViewCreateInfo :=
  {| viewType := VK_IMAGE_VIEW_TYPE_2D;
     viewFormat := m_colorFormat this;
     flags := 0;
     aspectMask := VK_IMAGE_ASPECT_COLOR_BIT;
     baseMipLevel := 0; levelCount := 1;
     baseArrayLayer := 0; layerCount := 1;
     image := m_colorImage this |}.

Definition createColorBuffer : M HeadlessAppVK unit :=
  this ← get;
  when (is_set (m_colorView this))
    (on_device (vkDestroyImageView (m_colorView this))) ;;
  when (is_set (m_colorImage this))
    (on_device (vkDestroyImage (m_colorImage this))) ;;
  when (is_set (m_colorMemory this))
    (on_device (vkFreeMemory (m_colorMemory this))) ;;
  img ← on_device (vkCreateImage (colorImageInfo this));
  modify (set_colorImage img) ;;
  this ← get;
  memReqs ← on_device
    (vkGetImageMemoryRequirements (m_physicalDevice this) (m_colorImage this));
  idx ← getMemoryType (memoryTypeBits memReqs)
          VK_MEMORY_PROPERTY_DEVICE_LOCAL_BIT;
  mem ← on_device
    (vkAllocateMemory {| allocationSize := size memReqs;
                         memoryTypeIndex := idx |});
  modify (set_colorMemory mem) ;;
  this ← get;
  on_device (vkBindImageMemory (m_colorImage this) (m_colorMemory this) 0) ;;
  view ← on_device (vkCreateImageView (colorViewInfo this));
  modify (set_colorView view).

Definition depthImageInfo (this : HeadlessAppVK) : VkImageCreateInfo :=
  {| imageType := VK_IMAGE_TYPE_2D;
     format := m_depthFormat this;
     imageExtent := (width (m_size this), height (m_size this), 1);
     mipLevels := 1; arrayLayers := 1;
     samples := VK_SAMPLE_COUNT_1_BIT;
     tiling := 0;
     usage := Z.lor VK_IMAGE_USAGE_DEPTH_STENCIL_ATTACHMENT_BIT
                    VK_IMAGE_USAGE_TRANSFER_SRC_BIT |}.

Definition depthViewInfo (this : HeadlessAppVK) : VkImageViewCreateInfo :=
  let aspectMask0 := VK_IMAGE_ASPECT_DEPTH_BIT in
  let aspectMask1 :=
    if VK_FORMAT_D16_UNORM_S8_UINT <=? m_depthFormat this
    then Z.lor aspectMask0 VK_IMAGE_ASPECT_STENCIL_BIT
    else aspectMask0 in
  {| viewType := VK_IMAGE_VIEW_TYPE_2D;
     viewFormat := m_depthFormat this;
     flags := 0;
     aspectMask := aspectMask1;
     baseMipLevel := 0; levelCount := 1;
     baseArrayLayer := 0; layerCount := 1;
     image := m_depthImage this |}.

Definition createDepthBuffer : M HeadlessAppVK unit :=
  this ← get;
  when (is_set (m_depthView this))
    (on_device (vkDestroyImageView (m_depthView this))) ;;
  when (is_set (m_depthImage this))
    (on_device (vkDestroyImage (m_depthImage this))) ;;
  when (is_set (m_depthMemory this))
    (on_device (vkFreeMemory (m_depthMemory this))) ;;
  img ← on_device (vkCreateImage (depthImageInfo this));
  modify (set_depthImage img) ;;
  this ← get;
  memReqs ← on_device
    (vkGetImageMemoryRequirements (m_physicalDevice this) (m_depthImage this));
  idx ← getMemoryType (memoryTypeBits memReqs)
          VK_MEMORY_PROPERTY_DEVICE_LOCAL_BIT;
  mem ← on_device
    (vkAllocateMemory {| allocationSize := size memReqs;
                         memoryTypeIndex := idx |});
  modify (set_depthMemory mem) ;;
  this ← get;
  on_device (vkBindImageMemory (m_depthImage this) (m_depthMemory this) 0) ;;
  view ← on_device (vkCreateImageView (depthViewInfo this));
  modify (set_depthView view).

(** *** submitWork *)

Definition submitWork (cmdBuffer : Z) : M HeadlessAppVK unit :=
  this ← get;
  fence ← on_device vkCreateFence;
  on_device (vkQueueSubmit (m_queue this) [cmdBuffer] fence) ;;
  on_device (vkWaitForFences [fence] VK_TRUE UINT64_MAX) ;;
  on_device (vkDestroyFence fence).

(** *** createTempCmdBuffer, submitTempCmdBuffer *)

Definition createTempCmdBuffer : M HeadlessAppVK Z :=
  this ← get;
  cmdBuffer ← on_device
    (vkAllocateCommandBuffers (m_cmdPool this) VK_COMMAND_BUFFER_LEVEL_PRIMARY);
  on_device (vkBeginCommandBuffer cmdBuffer 0) ;;
  mret cmdBuffer.

Definition submitTempCmdBuffer (cmdBuffer : Z) : M HeadlessAppVK unit :=
  this ← get;
  on_device (vkEndCommandBuffer cmdBuffer) ;;
  on_device (vkQueueSubmit (m_queue this) [cmdBuffer] VK_NULL_HANDLE) ;;
  on_device (vkQueueWaitIdle (m_queue this)) ;;
  on_device (vkFreeCommandBuffers (m_cmdPool this) cmdBuffer).

(** A one-shot operation as its users write it: the buffer from
    [createTempCmdBuffer], the caller's recording, [submitTempCmdBuffer]. *)
Definition tempCmdBufferOperation (recording : Z -> M HeadlessAppVK unit)
    : M HeadlessAppVK Z :=
  cmdBuffer ← createTempCmdBuffer;
  recording cmdBuffer ;;
  submitTempCmdBuffer cmdBuffer ;;
  mret cmdBuffer.

End Headless.

(** ** SampleExample (sample_example.hpp, sample_example.cpp) *)

Module Sample.
Import Vk Headless.

Inductive RndMethod : Type := eRtxPipeline | eRayQuery | eNone.

#[global] Instance RndMethod_eq_dec : EqDecision RndMethod.
Proof. solve_decision. Defined.

(** The enumerators' values, used as array indices and array size. *)
Definition RndMethod_value (m : RndMethod) : Z :=
  match m with
  | eRtxPipeline => 0
  | eRayQuery => 1
  | eNone => 2
  end.

(** Modelled from the spec: the backend class [Renderer] (renderer.h,
    rtx_pipeline.hpp and rayquery.hpp are not among the sources).  A backend
    is constructible and destructible on its own; all that is kept of one is
    whether it is constructed at the moment. *)
Record Renderer := { constructed : bool }.

Definition Renderer_create (r : Renderer) : Renderer := {| constructed := true |}.
Definition Renderer_destroy (r : Renderer) : Renderer := {| constructed := false |}.

(** The two members of [RtxState] (shaders/host_device.h) written here. *)
Record RtxState := { frame : Z; rtx_size : Z * Z }.

(** [m_pRender] is a [std::array<Renderer*, eNone>]: [None] is [nullptr], the
    position in the list is the slot.  [log] collects the [LOGI] lines. *)
Record SampleExample := {
  base : HeadlessAppVK;
  m_pRender : list (option Renderer);
  m_rndMethod : RndMethod;
  m_renderRegion : VkRect2D;
  m_rtxState : RtxState;
  m_maxFrames : Z;
  m_descaling : bool;
  m_descalingLevel : Z;
  log : list string
}.

Definition SampleExample_default : SampleExample :=
  {| base := HeadlessAppVK_default;
     m_pRender := [None; None];
     m_rndMethod := eNone;
     m_renderRegion := {| offset := {| x := 0; y := 0 |};
                          extent := {| width := 0; height := 0 |} |};
     m_rtxState := {| frame := 0; rtx_size := (0, 0) |};
     m_maxFrames := 100000;
     m_descaling := false;
     m_descalingLevel := 1;
     log := [] |}.

Definition set_base (v : HeadlessAppVK) (a : SampleExample) : SampleExample :=
  {| base := v; m_pRender := m_pRender a; m_rndMethod := m_rndMethod a;
     m_renderRegion := m_renderRegion a; m_rtxState := m_rtxState a;
     m_maxFrames := m_maxFrames a; m_descaling := m_descaling a;
     m_descalingLevel := m_descalingLevel a;
     log := log a |}.

Definition set_pRender (v : list (option Renderer)) (a : SampleExample)
    : SampleExample :=
  {| base := base a; m_pRender := v; m_rndMethod := m_rndMethod a;
     m_renderRegion := m_renderRegion a; m_rtxState := m_rtxState a;
     m_maxFrames := m_maxFrames a; m_descaling := m_descaling a;
     m_descalingLevel := m_descalingLevel a;
     log := log a |}.

Definition set_rndMethod (v : RndMethod) (a : SampleExample) : SampleExample :=
  {| base := base a; m_pRender := m_pRender a; m_rndMethod := v;
     m_renderRegion := m_renderRegion a; m_rtxState := m_rtxState a;
     m_maxFrames := m_maxFrames a; m_descaling := m_descaling a;
     m_descalingLevel := m_descalingLevel a;
     log := log a |}.

Definition set_renderRegion (v : VkRect2D) (a : SampleExample) : SampleExample :=
  {| base := base a; m_pRender := m_pRender a; m_rndMethod := m_rndMethod a;
     m_renderRegion := v; m_rtxState := m_rtxState a;
     m_maxFrames := m_maxFrames a; m_descaling := m_descaling a;
     m_descalingLevel := m_descalingLevel a;
     log := log a |}.

Definition set_rtxState (v : RtxState) (a : SampleExample) : SampleExample :=
  {| base := base a; m_pRender := m_pRender a; m_rndMethod := m_rndMethod a;
     m_renderRegion := m_renderRegion a; m_rtxState := v;
     m_maxFrames := m_maxFrames a; m_descaling := m_descaling a;
     m_descalingLevel := m_descalingLevel a;
     log := log a |}.

Definition LOGI (line : string) : M SampleExample unit :=
  modify (fun a =>
    {| base := base a; m_pRender := m_pRender a; m_rndMethod := m_rndMethod a;
       m_renderRegion := m_renderRegion a; m_rtxState := m_rtxState a;
       m_maxFrames := m_maxFrames a; m_descaling := m_descaling a;
       m_descalingLevel := m_descalingLevel a;
       log := log a ++ [line] |}).

(** A member function of the base class called on [this]. *)
Definition on_base {A} (m : M HeadlessAppVK A) : M SampleExample A :=
  fun this =>
    match m (base this) with
    | Ok (a, b) => Ok (a, set_base b this)
    | Err e => Err e
    end.

(** [m_pRender[method]->f(...)]: unchecked [operator[]] of the array, then
    the call through the pointer found there; the call is put on record. *)
Definition pRender_call (method : RndMethod) (f : Renderer -> Renderer)
    (c : VkCall) : M SampleExample unit :=
  this ← get;
  let i := RndMethod_value method in
  match m_pRender this !! Z.to_nat i with
  | None => fail (OutOfBounds i (Z.of_nat (length (m_pRender this))))
  | Some None => fail NullPointer
  | Some (Some r) =>
      modify (set_pRender (<[Z.to_nat i := Some (f r)]> (m_pRender this))) ;;
      on_base (on_device (modify (record c)))
  end.

(** *** setup

    [queues] holds the family index of each queue; [queues[i]] is the
    unchecked [operator[]] of the vector.  The collaborators ([m_alloc],
    [m_debug], [m_picker], [m_accelStruct], [m_scene], [m_offscreen],
    [m_skydome]) and the backends' own [setup] keep their state to
    themselves: of their calls only the reads of [queues] are kept. *)
Inductive Queues : Type := eGCT0 | eGCT1 | eCompute | eTransfer.

Definition Queues_value (q : Queues) : Z :=
  match q with
  | eGCT0 => 0
  | eGCT1 => 1
  | eCompute => 2
  | eTransfer => 3
  end.

Definition queues_at (queues : list Z) (q : Queues) : M SampleExample Z :=
  match queues !! Z.to_nat (Queues_value q) with
  | Some familyIndex => mret familyIndex
  | None => fail (OutOfBounds (Queues_value q) (Z.of_nat (length queues)))
  end.

Definition setup (instance : Z) (device : VkDevice)
    (physicalDevice : VkPhysicalDevice) (queues : list Z)
    (width height colorFormat depthFormat : Z) : M SampleExample unit :=
  familyIndex ← queues_at queues eGCT0;
  on_base (Headless.setup instance device physicalDevice familyIndex
             width height colorFormat depthFormat) ;;
  queues_at queues eCompute ;;
  queues_at queues eCompute ;;
  queues_at queues eGCT1 ;;
  queues_at queues eTransfer ;;
  queues_at queues eTransfer ;;
  this ← get;
  modify (set_pRender
    (<[Z.to_nat (RndMethod_value eRtxPipeline) :=
         Some {| constructed := false |}]> (m_pRender this))) ;;
  this ← get;
  modify (set_pRender
    (<[Z.to_nat (RndMethod_value eRayQuery) :=
         Some {| constructed := false |}]> (m_pRender this))) ;;
  queues_at queues eTransfer ;;
  queues_at queues eTransfer ;;
  mret tt.

(** *** resetFrame *)

Definition resetFrame : M SampleExample unit :=
  this ← get;
  modify (set_rtxState {| frame := -1; rtx_size := rtx_size (m_rtxState this) |}).

(** *** createRender *)

Definition createRender (method : RndMethod) : M SampleExample unit :=
  this ← get;
  if bool_decide (method = m_rndMethod this) then mret tt
  else
    LOGI ("Switching renderer, from "
            ++ to_string (RndMethod_value (m_rndMethod this))
            ++ " to " ++ to_string (RndMethod_value method) ++ " " ++ LF) ;;
    when (negb (bool_decide (m_rndMethod this = eNone)))
      (on_base (on_device vkDeviceWaitIdle) ;;
       pRender_call (m_rndMethod this) Renderer_destroy
         (RendererDestroy (RndMethod_value (m_rndMethod this)))) ;;
    modify (set_rndMethod method) ;;
    this ← get;
    pRender_call (m_rndMethod this) Renderer_create
      (RendererCreate (RndMethod_value (m_rndMethod this))).

(** *** setRenderRegion *)

(** The object representation of a 32-bit integer, least significant byte
    first; a negative [int32_t] in two's complement. *)
Definition bytes_of_32 (v : Z) : list Z :=
  let u := to_u32 v in
  [u mod 256; (u / 256) mod 256; (u / 65536) mod 256; (u / 16777216) mod 256].

(** The [sizeof(VkRect2D)] = 16 bytes of a rectangle: [offset.x], [offset.y]
    ([int32_t]), [extent.width], [extent.height] ([uint32_t]), no padding. *)
Definition VkRect2D_bytes (r : VkRect2D) : list Z :=
  bytes_of_32 (x (offset r)) ++ bytes_of_32 (y (offset r))
  ++ bytes_of_32 (width (extent r)) ++ bytes_of_32 (height (extent r)).

(** [memcmp] over the first [n] bytes: the sign of the first difference,
    bytes compared as [unsigned char]. *)
Fixpoint memcmp (a b : list Z) (n : nat) : Z :=
  match n, a, b with
  | S k, c :: a', d :: b' =>
      if c <? d then -1 else if d <? c then 1 else memcmp a' b' k
  | _, _, _ => 0
  end.

Definition setRenderRegion (size : VkRect2D) : M SampleExample unit :=
  this ← get;
  when (negb (memcmp (VkRect2D_bytes (m_renderRegion this))
                     (VkRect2D_bytes size) 16 =? 0))
    resetFrame ;;
  modify (set_renderRegion size).

(** *** renderScene

    The profiler sections, the NVML refresh and the mipmap generation of the
    offscreen pass (after the backend has run) are left out. *)
Definition renderScene (cmdBuf : Z) : M SampleExample unit :=
  this ← get;
  if m_maxFrames this <=? frame (m_rtxState this) then mret tt
  else
    let render_size := extent (m_renderRegion this) in
    render_size ←
      (if m_descaling this then
         let level := to_u32 (m_descalingLevel this) in
         if level =? 0 then fail DivisionByZero
         else mret {| width := width render_size / level;
                      height := height render_size / level |}
       else mret render_size);
    modify (set_rtxState
      {| frame := frame (m_rtxState this);
         rtx_size := (width (m_size (base this)),
                      height (m_size (base this))) |}) ;;
    this ← get;
    pRender_call (m_rndMethod this) id
      (RendererSetPushContants (RndMethod_value (m_rndMethod this))) ;;
    pRender_call (m_rndMethod this) id
      (RendererRun (RndMethod_value (m_rndMethod this)) cmdBuf
         (width render_size) (height render_size)).

(** *** dumpImage

    The block of [dumpImage] that writes headless.ppm, from the mapping of
    the destination image on.  Addresses are positions in the mapped bytes
    [mapped]; [vkMapMemory] returns position 0. *)

Record VkSubresourceLayout := { layoutOffset : Z; rowPitch : Z }.

(** The locals [imagedata] and [row], and the bytes put in the file so far. *)
Record Dump := { imagedata : Z; row : Z; file : list byte }.

Definition set_imagedata (v : Z) (s : Dump) : Dump :=
  {| imagedata := v; row := row s; file := file s |}.

Definition set_row (v : Z) (s : Dump) : Dump :=
  {| imagedata := imagedata s; row := v; file := file s |}.

Definition put_file (bs : list byte) (s : Dump) : Dump :=
  {| imagedata := imagedata s; row := row s; file := file s ++ bs |}.

(** [file << text] *)
Definition file_put (text : string) : M Dump unit :=
  modify (put_file (list_byte_of_string text)).

(** [file.write(p, n)]: the [n] mapped bytes from address [p] on. *)
Definition file_write (mapped : list byte) (p : Z) (n : nat) : M Dump unit :=
  if (0 <=? p) && (p + Z.of_nat n <=? Z.of_nat (length mapped))
  then modify (put_file (take n (drop (Z.to_nat p) mapped)))
  else fail (OutOfBounds p (Z.of_nat (length mapped))).

Definition formatsBGR : list Z :=
  [VK_FORMAT_B8G8R8A8_SRGB; VK_FORMAT_B8G8R8A8_UNORM; VK_FORMAT_B8G8R8A8_SNORM].

Definition dumpImage_write (m_size : VkExtent2D)
    (subResourceLayout : VkSubresourceLayout) (mapped : list byte)
    : M Dump unit :=
  s ← get;
  modify (set_imagedata (imagedata s + layoutOffset subResourceLayout)) ;;
  file_put ("P6" ++ LF) ;; file_put (to_string (width m_size)) ;;
  file_put LF ;; file_put (to_string (height m_size)) ;;
  file_put LF ;; file_put (to_string 255) ;; file_put LF ;;
  let colorSwizzle := existsb (Z.eqb VK_FORMAT_R8G8B8A8_UNORM) formatsBGR in
  let colorSwizzle := true in
  for_i32 (S (Z.to_nat (height m_size))) 0 (height m_size) (fun y =>
    s ← get;
    modify (set_row (imagedata s)) ;;
    for_i32 (S (Z.to_nat (width m_size))) 0 (width m_size) (fun x =>
      s ← get;
      (if colorSwizzle : bool then
         file_write mapped (row s + 2) 1 ;;
         file_write mapped (row s + 1) 1 ;;
         file_write mapped (row s) 1
       else file_write mapped (row s) 3) ;;
      s ← get;
      modify (set_row (row s + 4))) ;;
    s ← get;
    modify (set_imagedata (imagedata s + rowPitch subResourceLayout))).

(** The bytes of headless.ppm, or the fault that stops the writing. *)
Definition dumpImage_file (m_size : VkExtent2D)
    (subResourceLayout : VkSubresourceLayout) (mapped : list byte)
    : Outcome (list byte) :=
  match dumpImage_write m_size subResourceLayout mapped
          {| imagedata := 0; row := 0; file := [] |} with
  | Ok (_, s) => Ok (file s)
  | Err e => Err e
  end.

End Sample.

(** ** SampleExample::dumpImage as a whole (sample_example.cpp) *)

Module Readback.
Import Vk Headless Sample.

Definition VK_IMAGE_LAYOUT_UNDEFINED : Z := 0.
Definition VK_IMAGE_LAYOUT_GENERAL : Z := 1.
Definition VK_IMAGE_LAYOUT_TRANSFER_SRC_OPTIMAL : Z := 6.
Definition VK_IMAGE_LAYOUT_TRANSFER_DST_OPTIMAL : Z := 7.

(** What the driver shows to the host: the layout it gave to an image, and
    the bytes a memory object holds once the command buffers [finished] have
    run, in that order. *)
Record VkHost := {
  imageSubresourceLayout : VkImageCreateInfo -> VkSubresourceLayout;
  memoryContents : forall (finished : list Z) (mem : Z), list byte
}.

Definition vkGetImageSubresourceLayout (host : VkHost) (img : Z)
    : M VkDevice VkSubresourceLayout :=
  d ← get;
  match images d !! img with
  | Some info => mret (imageSubresourceLayout host info)
  | None => fail (InvalidHandle img)
  end.

(** The mapping of a whole memory object; it is a read, and leaves no entry
    among the calls. *)
Definition vkMapMemory (host : VkHost) (mem : Z) : M VkDevice (list byte) :=
  d ← get;
  if bool_decide (mem ∈ dom (memories d))
  then mret (memoryContents host (completed d) mem)
  else fail (InvalidHandle mem).

(** *** insertImageMemoryBarrier

    One [vkCmdPipelineBarrier] with one image barrier; of the barrier the
    image and the two layouts are kept. *)
Definition barrier_command (image oldImageLayout newImageLayout : Z)
    : string :=
  "vkCmdPipelineBarrier " ++ to_string image ++ " "
  ++ to_string oldImageLayout ++ " " ++ to_string newImageLayout.

Definition insertImageMemoryBarrier (cmdbuffer image oldImageLayout
    newImageLayout : Z) : M VkDevice unit :=
  vkCmd cmdbuffer (barrier_command image oldImageLayout newImageLayout).

(** [vkCmdCopyImage] of one region, the whole extent. *)
Definition copy_command (srcImage srcImageLayout dstImage dstImageLayout : Z)
    : string :=
  "vkCmdCopyImage " ++ to_string srcImage ++ " "
  ++ to_string srcImageLayout ++ " " ++ to_string dstImage ++ " "
  ++ to_string dstImageLayout.

Definition vkCmdCopyImage (cmd srcImage srcImageLayout dstImage
    dstImageLayout : Z) : M VkDevice unit :=
  vkCmd cmd (copy_command srcImage srcImageLayout dstImage dstImageLayout).

(** *** dumpImage

    The result is what has been written to headless.ppm. *)
Definition dstImageInfo (this : HeadlessAppVK) : VkImageCreateInfo :=
  {| imageType := VK_IMAGE_TYPE_2D;
     format := VK_FORMAT_R8G8B8A8_UNORM;
     imageExtent := (width (m_size this), height (m_size this), 1);
     mipLevels := 1; arrayLayers := 1;
     samples := VK_SAMPLE_COUNT_1_BIT;
     tiling := VK_IMAGE_TILING_LINEAR;
     usage := VK_IMAGE_USAGE_TRANSFER_DST_BIT |}.

(** [LOGI("Framebuffer image saved to %s\n", filename)] *)
Definition saved_line : string :=
  "Framebuffer image saved to headless.ppm" ++ LF.

Definition dumpImage (host : VkHost) : M SampleExample (list byte) :=
  this ← get;
  dstImage ← on_base (on_device (vkCreateImage (dstImageInfo (base this))));
  memRequirements ← on_base (on_device
    (vkGetImageMemoryRequirements (m_physicalDevice (base this)) dstImage));
  idx ← on_base
    (getMemoryType (memoryTypeBits memRequirements)
       (Z.lor VK_MEMORY_PROPERTY_HOST_VISIBLE_BIT
              VK_MEMORY_PROPERTY_HOST_COHERENT_BIT));
  dstImageMemory ← on_base (on_device
    (vkAllocateMemory {| allocationSize := size memRequirements;
                         memoryTypeIndex := idx |}));
  on_base (on_device (vkBindImageMemory dstImage dstImageMemory 0)) ;;
  copyCmd ← on_base (on_device
    (vkAllocateCommandBuffers (m_cmdPool (base this))
       VK_COMMAND_BUFFER_LEVEL_PRIMARY));
  on_base (on_device (vkBeginCommandBuffer copyCmd 0)) ;;
  on_base (on_device
    (insertImageMemoryBarrier copyCmd dstImage VK_IMAGE_LAYOUT_UNDEFINED
       VK_IMAGE_LAYOUT_TRANSFER_DST_OPTIMAL)) ;;
  on_base (on_device
    (vkCmdCopyImage copyCmd (m_colorImage (base this))
       VK_IMAGE_LAYOUT_TRANSFER_SRC_OPTIMAL dstImage
       VK_IMAGE_LAYOUT_TRANSFER_DST_OPTIMAL)) ;;
  on_base (on_device
    (insertImageMemoryBarrier copyCmd dstImage
       VK_IMAGE_LAYOUT_TRANSFER_DST_OPTIMAL VK_IMAGE_LAYOUT_GENERAL)) ;;
  on_base (on_device (vkEndCommandBuffer copyCmd)) ;;
  on_base (submitWork copyCmd) ;;
  subResourceLayout ← on_base (on_device
    (vkGetImageSubresourceLayout host dstImage));
  mapped ← on_base (on_device (vkMapMemory host dstImageMemory));
  written ←
    match dumpImage_file (m_size (base this)) subResourceLayout mapped with
    | Ok bytes => mret bytes
    | Err e => fail e
    end;
  LOGI saved_line ;;
  on_base (on_device (vkDestroyImage dstImage)) ;;
  on_base (on_device (vkFreeMemory dstImageMemory)) ;;
  on_base (on_device
    (vkFreeCommandBuffers (m_cmdPool (base this)) copyCmd)) ;;
  mret written.

End Readback.

(** ** The rest of the life cycle (headless_vk.cpp, sample_example.cpp,
    main.cpp) *)

Module Lifecycle.
Import Vk Headless Sample Readback.

Definition VK_IMAGE_LAYOUT_DEPTH_STENCIL_ATTACHMENT_OPTIMAL : Z := 3.

(** Of a render pass: the formats and the final layouts of its attachments,
    in order. *)
Record VkRenderPassCreateInfo := {
  attachmentFormats : list Z;
  finalLayouts : list Z
}.

Record VkFramebufferCreateInfo := {
  renderPass : Z;
  attachments : list Z;
  framebufferExtent : Z * Z;
  layers : Z
}.

(** Driver calls of the kinds only these functions make. *)
Inductive VkCallMore : Type :=
| CreateRenderPass (info : VkRenderPassCreateInfo) (pass : Z)
| DestroyRenderPass (pass : Z)
| CreateFramebuffer (info : VkFramebufferCreateInfo) (framebuffer : Z)
| DestroyFramebuffer (framebuffer : Z)
| DestroyPipelineCache (cache : Z)
| CreateDescriptorPool (pool : Z)
| DestroyDescriptorPool (pool : Z)
| CreateDescriptorSetLayout (layout : Z)
| DestroyDescriptorSetLayout (layout : Z)
| DestroyCommandPool (pool : Z).

(** The sample together with the members of both classes that the functions
    above do not touch, and with what the device record leaves out: the live
    render passes and framebuffers, the live descriptor pools and set
    layouts, and the calls of the kinds above, each with the number of calls
    on the device's record made before it. *)
Record App := {
  sample : SampleExample;
  m_imguiDescPool : Z;
  m_framebuffer : Z;
  m_commandBuffer : Z;
  m_waitFence : Z;
  m_renderPass : Z;
  m_useDynamicRendering : bool;
  m_descPool : Z;
  m_descSetLayout : Z;
  renderPasses : gmap Z VkRenderPassCreateInfo;
  framebuffers : gmap Z VkFramebufferCreateInfo;
  descriptors : gset Z;
  more_calls : list (nat * VkCallMore)
}.

(** The object as [SampleExample sample;] leaves it in [main]: the members
    with an initialiser hold it; [m_framebuffer], [m_commandBuffer] and
    [m_waitFence] have none and hold whatever was there. *)
Definition App_default (framebuffer commandBuffer waitFence : Z) : App :=
  {| sample := SampleExample_default;
     m_imguiDescPool := VK_NULL_HANDLE;
     m_framebuffer := framebuffer;
     m_commandBuffer := commandBuffer;
     m_waitFence := waitFence;
     m_renderPass := VK_NULL_HANDLE;
     m_useDynamicRendering := false;
     m_descPool := VK_NULL_HANDLE;
     m_descSetLayout := VK_NULL_HANDLE;
     renderPasses := ∅; framebuffers := ∅; descriptors := ∅;
     more_calls := [] |}.

Definition set_sample (v : SampleExample) (a : App) : App :=
  {| sample := v; m_imguiDescPool := m_imguiDescPool a;
     m_framebuffer := m_framebuffer a; m_commandBuffer := m_commandBuffer a;
     m_waitFence := m_waitFence a; m_renderPass := m_renderPass a;
     m_useDynamicRendering := m_useDynamicRendering a;
     m_descPool := m_descPool a; m_descSetLayout := m_descSetLayout a;
     renderPasses := renderPasses a; framebuffers := framebuffers a;
     descriptors := descriptors a; more_calls := more_calls a |}.

Definition set_framebuffer (v : Z) (a : App) : App :=
  {| sample := sample a; m_imguiDescPool := m_imguiDescPool a;
     m_framebuffer := v; m_commandBuffer := m_commandBuffer a;
     m_waitFence := m_waitFence a; m_renderPass := m_renderPass a;
     m_useDynamicRendering := m_useDynamicRendering a;
     m_descPool := m_descPool a; m_descSetLayout := m_descSetLayout a;
     renderPasses := renderPasses a; framebuffers := framebuffers a;
     descriptors := descriptors a; more_calls := more_calls a |}.

Definition set_commandBuffer (v : Z) (a : App) : App :=
  {| sample := sample a; m_imguiDescPool := m_imguiDescPool a;
     m_framebuffer := m_framebuffer a; m_commandBuffer := v;
     m_waitFence := m_waitFence a; m_renderPass := m_renderPass a;
     m_useDynamicRendering := m_useDynamicRendering a;
     m_descPool := m_descPool a; m_descSetLayout := m_descSetLayout a;
     renderPasses := renderPasses a; framebuffers := framebuffers a;
     descriptors := descriptors a; more_calls := more_calls a |}.

Definition set_renderPass (v : Z) (a : App) : App :=
  {| sample := sample a; m_imguiDescPool := m_imguiDescPool a;
     m_framebuffer := m_framebuffer a; m_commandBuffer := m_commandBuffer a;
     m_waitFence := m_waitFence a; m_renderPass := v;
     m_useDynamicRendering := m_useDynamicRendering a;
     m_descPool := m_descPool a; m_descSetLayout := m_descSetLayout a;
     renderPasses := renderPasses a; framebuffers := framebuffers a;
     descriptors := descriptors a; more_calls := more_calls a |}.

Definition set_descPool (v : Z) (a : App) : App :=
  {| sample := sample a; m_imguiDescPool := m_imguiDescPool a;
     m_framebuffer := m_framebuffer a; m_commandBuffer := m_commandBuffer a;
     m_waitFence := m_waitFence a; m_renderPass := m_renderPass a;
     m_useDynamicRendering := m_useDynamicRendering a; m_descPool := v;
     m_descSetLayout := m_descSetLayout a; renderPasses := renderPasses a;
     framebuffers := framebuffers a; descriptors := descriptors a;
     more_calls := more_calls a |}.

Definition set_descSetLayout (v : Z) (a : App) : App :=
  {| sample := sample a; m_imguiDescPool := m_imguiDescPool a;
     m_framebuffer := m_framebuffer a; m_commandBuffer := m_commandBuffer a;
     m_waitFence := m_waitFence a; m_renderPass := m_renderPass a;
     m_useDynamicRendering := m_useDynamicRendering a;
     m_descPool := m_descPool a; m_descSetLayout := v;
     renderPasses := renderPasses a; framebuffers := framebuffers a;
     descriptors := descriptors a; more_calls := more_calls a |}.

Definition with_renderPasses (f : gmap Z VkRenderPassCreateInfo -> gmap Z VkRenderPassCreateInfo) (a : App) : App :=
  {| sample := sample a; m_imguiDescPool := m_imguiDescPool a;
     m_framebuffer := m_framebuffer a; m_commandBuffer := m_commandBuffer a;
     m_waitFence := m_waitFence a; m_renderPass := m_renderPass a;
     m_useDynamicRendering := m_useDynamicRendering a;
     m_descPool := m_descPool a; m_descSetLayout := m_descSetLayout a;
     renderPasses := f (renderPasses a); framebuffers := framebuffers a;
     descriptors := descriptors a; more_calls := more_calls a |}.

Definition with_framebuffers (f : gmap Z VkFramebufferCreateInfo -> gmap Z VkFramebufferCreateInfo) (a : App) : App :=
  {| sample := sample a; m_imguiDescPool := m_imguiDescPool a;
     m_framebuffer := m_framebuffer a; m_commandBuffer := m_commandBuffer a;
     m_waitFence := m_waitFence a; m_renderPass := m_renderPass a;
     m_useDynamicRendering := m_useDynamicRendering a;
     m_descPool := m_descPool a; m_descSetLayout := m_descSetLayout a;
     renderPasses := renderPasses a; framebuffers := f (framebuffers a);
     descriptors := descriptors a; more_calls := more_calls a |}.

Definition with_descriptors (f : gset Z -> gset Z) (a : App) : App :=
  {| sample := sample a; m_imguiDescPool := m_imguiDescPool a;
     m_framebuffer := m_framebuffer a; m_commandBuffer := m_commandBuffer a;
     m_waitFence := m_waitFence a; m_renderPass := m_renderPass a;
     m_useDynamicRendering := m_useDynamicRendering a;
     m_descPool := m_descPool a; m_descSetLayout := m_descSetLayout a;
     renderPasses := renderPasses a; framebuffers := framebuffers a;
     descriptors := f (descriptors a); more_calls := more_calls a |}.

(** A member function of the sample called on [this], and a driver call
    made on its device. *)
Definition on_sample {A} (m : M SampleExample A) : M App A :=
  fun this =>
    match m (sample this) with
    | Ok (a, s) => Ok (a, set_sample s this)
    | Err e => Err e
    end.

Definition on_app_device {A} (m : M VkDevice A) : M App A :=
  on_sample (on_base (on_device m)).

Definition record_more (c : VkCallMore) : M App unit :=
  modify (fun a =>
    {| sample := sample a; m_imguiDescPool := m_imguiDescPool a;
       m_framebuffer := m_framebuffer a;
       m_commandBuffer := m_commandBuffer a; m_waitFence := m_waitFence a;
       m_renderPass := m_renderPass a;
       m_useDynamicRendering := m_useDynamicRendering a;
       m_descPool := m_descPool a; m_descSetLayout := m_descSetLayout a;
       renderPasses := renderPasses a; framebuffers := framebuffers a;
       descriptors := descriptors a;
       more_calls := more_calls a
                   ++ [(length (calls (m_device (base (sample a)))), c)] |}).

Definition vkCreateRenderPass (info : VkRenderPassCreateInfo) : M App Z :=
  h ← on_app_device fresh;
  modify (with_renderPasses (insert h info)) ;;
  record_more (CreateRenderPass info h) ;;
  mret h.

Definition vkDestroyRenderPass (pass : Z) : M App unit :=
  modify (with_renderPasses (delete pass)) ;;
  record_more (DestroyRenderPass pass).

(** A framebuffer is made of a live render pass and live image views. *)
Definition vkCreateFramebuffer (info : VkFramebufferCreateInfo) : M App Z :=
  this ← get;
  let d := m_device (base (sample this)) in
  if negb (bool_decide (renderPass info ∈ dom (renderPasses this)))
  then fail (InvalidHandle (renderPass info))
  else
    match find (fun v => negb (bool_decide (v ∈ dom (views d))))
               (attachments info) with
    | Some v => fail (InvalidHandle v)
    | None =>
        h ← on_app_device fresh;
        modify (with_framebuffers (insert h info)) ;;
        record_more (CreateFramebuffer info h) ;;
        mret h
    end.

Definition vkDestroyFramebuffer (framebuffer : Z) : M App unit :=
  modify (with_framebuffers (delete framebuffer)) ;;
  record_more (DestroyFramebuffer framebuffer).

Definition vkCreateDescriptorPool : M App Z :=
  h ← on_app_device fresh;
  modify (with_descriptors (union {[h]})) ;;
  record_more (CreateDescriptorPool h) ;;
  mret h.

Definition vkDestroyDescriptorPool (pool : Z) : M App unit :=
  modify (with_descriptors (fun s => s ∖ {[pool]})) ;;
  record_more (DestroyDescriptorPool pool).

Definition vkCreateDescriptorSetLayout : M App Z :=
  h ← on_app_device fresh;
  modify (with_descriptors (union {[h]})) ;;
  record_more (CreateDescriptorSetLayout h) ;;
  mret h.

Definition vkDestroyDescriptorSetLayout (layout : Z) : M App unit :=
  modify (with_descriptors (fun s => s ∖ {[layout]})) ;;
  record_more (DestroyDescriptorSetLayout layout).

(** The pipeline cache and the command pool of [setup] are not among the
    live objects of the device record: their destruction is put on record. *)
Definition vkDestroyPipelineCache (cache : Z) : M App unit :=
  record_more (DestroyPipelineCache cache).

Definition vkDestroyCommandPool (pool : Z) : M App unit :=
  record_more (DestroyCommandPool pool).

(** *** HeadlessAppVK::destroy *)

Definition destroy : M App unit :=
  this ← get;
  let b := base (sample this) in
  on_app_device vkDeviceWaitIdle ;;
  when (negb (m_useDynamicRendering this))
    (vkDestroyRenderPass (m_renderPass this)) ;;
  on_app_device (vkDestroyImageView (m_depthView b)) ;;
  on_app_device (vkDestroyImage (m_depthImage b)) ;;
  on_app_device (vkFreeMemory (m_depthMemory b)) ;;
  vkDestroyPipelineCache (m_pipelineCache b) ;;
  on_app_device (vkDestroyImageView (m_colorView b)) ;;
  on_app_device (vkDestroyImage (m_colorImage b)) ;;
  on_app_device (vkFreeMemory (m_colorMemory b)) ;;
  vkDestroyFramebuffer (m_framebuffer this) ;;
  on_app_device (vkFreeCommandBuffers (m_cmdPool b) (m_commandBuffer this)) ;;
  on_app_device (vkDestroyFence (m_waitFence this)) ;;
  vkDestroyDescriptorPool (m_imguiDescPool this) ;;
  vkDestroyCommandPool (m_cmdPool b).

(** *** HeadlessAppVK::createFrameBuffer *)

Definition createFrameBuffer : M App unit :=
  this ← get;
  let b := base (sample this) in
  if m_useDynamicRendering this then mret tt
  else
    vkDestroyFramebuffer (m_framebuffer this) ;;
    let framebufferCreateInfo :=
      {| renderPass := m_renderPass this;
         attachments := [m_colorView b; m_depthView b];
         framebufferExtent := (width (m_size b), height (m_size b));
         layers := 1 |} in
    framebuffer ← vkCreateFramebuffer framebufferCreateInfo;
    modify (set_framebuffer framebuffer).

(** *** HeadlessAppVK::createRenderPass *)

Definition createRenderPass : M App unit :=
  this ← get;
  let b := base (sample this) in
  if m_useDynamicRendering this then mret tt
  else
    when (is_set (m_renderPass this))
      (vkDestroyRenderPass (m_renderPass this)) ;;
    let renderPassInfo :=
      {| attachmentFormats := [m_colorFormat b; m_depthFormat b];
         finalLayouts := [VK_IMAGE_LAYOUT_TRANSFER_SRC_OPTIMAL;
                          VK_IMAGE_LAYOUT_DEPTH_STENCIL_ATTACHMENT_OPTIMAL] |} in
    pass ← vkCreateRenderPass renderPassInfo;
    modify (set_renderPass pass).

(** *** HeadlessAppVK::createCommandBuffer *)

Definition createCommandBuffer : M App unit :=
  this ← get;
  let b := base (sample this) in
  when (is_set (m_commandBuffer this))
    (on_app_device
       (vkFreeCommandBuffers (m_cmdPool b) (m_commandBuffer this))) ;;
  cmd ← on_app_device
    (vkAllocateCommandBuffers (m_cmdPool b) VK_COMMAND_BUFFER_LEVEL_PRIMARY);
  modify (set_commandBuffer cmd) ;;
  on_app_device (vkBeginCommandBuffer cmd 0).

(** *** HeadlessAppVK::setViewport *)

Definition setViewport (cmdBuf : Z) : M App unit :=
  on_app_device (vkCmd cmdBuf "vkCmdSetViewport") ;;
  on_app_device (vkCmd cmdBuf "vkCmdSetScissor").

(** *** SampleExample::createDescriptorSetLayout

    The binding helper [m_bind] (nvvk) creates the pool and the layout on the
    device; the bindings, the descriptor set and its writes are left out. *)
Definition createDescriptorSetLayout : M App unit :=
  pool ← vkCreateDescriptorPool;
  modify (set_descPool pool) ;;
  layout ← vkCreateDescriptorSetLayout;
  modify (set_descSetLayout layout).

(** *** SampleExample::destroyResources

    The range-for takes a copy [p] of each pointer of [m_pRender] in turn:
    the call through it reaches the backend of that slot, the assignment of
    [nullptr] only the copy.  The allocator, picker, scene, acceleration
    structure, offscreen pass and sky dome are left out. *)
Fixpoint destroyResources_loop (slot : nat) (ps : list (option Renderer))
    : M SampleExample unit :=
  match ps with
  | [] => mret tt
  | p :: rest =>
      match p with
      | None => fail NullPointer
      | Some _ =>
          this ← get;
          modify (set_pRender
            (alter (fmap Renderer_destroy) slot (m_pRender this))) ;;
          on_base (on_device
            (modify (record (RendererDestroy (Z.of_nat slot)))))
      end ;;
      destroyResources_loop (S slot) rest
  end.

Definition destroyResources : M App unit :=
  this ← get;
  vkDestroyDescriptorPool (m_descPool this) ;;
  vkDestroyDescriptorSetLayout (m_descSetLayout this) ;;
  on_sample (destroyResources_loop 0 (m_pRender (sample this))).

(** *** SampleExample::updateUniformBuffer, SampleExample::drawPost

    The commands they record themselves; the debug label, the scene's
    camera update and the run of the offscreen pass are left out. *)
Definition updateUniformBuffer (cmdBuf : Z) : M App unit :=
  on_app_device (vkCmd cmdBuf "vkCmdUpdateBuffer").

Definition drawPost (cmdBuf : Z) : M App unit :=
  on_app_device (vkCmd cmdBuf "vkCmdSetViewport") ;;
  on_app_device (vkCmd cmdBuf "vkCmdSetScissor").

(** *** main (main.cpp)

    The calls on [sample] from its [setup] to its [destroy], in order, with
    the driver calls [main] makes in between.  The loading of the environment
    and of the scene, the uniform buffer, the offscreen pass, the profiler
    and the sample counts written to [m_rtxState] are left out, but for the
    [resetFrame] at the end of [loadScene].  The result is what [dumpImage]
    has written. *)
Definition SAMPLE_WIDTH : Z := 1008.
Definition SAMPLE_HEIGHT : Z := 660.

Definition main (instance : Z) (device : VkDevice)
    (physicalDevice : VkPhysicalDevice) (queues : list Z) (host : VkHost)
    : M App (list byte) :=
  on_sample (Sample.setup instance device physicalDevice queues
               SAMPLE_WIDTH SAMPLE_HEIGHT
               VK_FORMAT_B8G8R8A8_UNORM VK_FORMAT_UNDEFINED) ;;
  on_sample (on_base createColorBuffer) ;;
  on_sample (on_base createDepthBuffer) ;;
  createRenderPass ;;
  createFrameBuffer ;;
  on_sample resetFrame ;;
  createDescriptorSetLayout ;;
  on_sample (createRender eRtxPipeline) ;;
  on_sample resetFrame ;;
  on_sample (setRenderRegion
    {| offset := {| x := 0; y := 0 |};
       extent := {| width := SAMPLE_WIDTH; height := SAMPLE_HEIGHT |} |}) ;;
  createCommandBuffer ;;
  this ← get;
  let cmdBuf := m_commandBuffer this in
  updateUniformBuffer cmdBuf ;;
  on_sample (renderScene cmdBuf) ;;
  on_app_device (vkCmd cmdBuf "vkCmdBeginRenderPass") ;;
  drawPost cmdBuf ;;
  on_app_device (vkCmd cmdBuf "vkCmdEndRenderPass") ;;
  on_app_device (vkEndCommandBuffer cmdBuf) ;;
  on_sample (on_base (submitWork cmdBuf)) ;;
  on_app_device vkDeviceWaitIdle ;;
  written ← on_sample (dumpImage host);
  on_app_device vkDeviceWaitIdle ;;
  destroyResources ;;
  destroy ;;
  mret written.

End Lifecycle.

(** * Specification vocabulary *)

Import Vk Headless Sample.

(** ** Memory types *)

(** Entry [i] of the table [types] is enabled in the bitmask [typeBits] and
    its flags hold every bit of [properties]. *)
Definition suitable (typeBits properties : Z) (types : list VkMemoryType)
    (i : nat) : Prop :=
  exists t, types !! i = Some t
    /\ Z.testbit typeBits (Z.of_nat i) = true
    /\ forall n, 0 <= n -> Z.testbit properties n = true ->
                 Z.testbit (propertyFlags t) n = true.

Definition first_suitable (typeBits properties : Z)
    (types : list VkMemoryType) (i : nat) : Prop :=
  suitable typeBits properties types i
  /\ forall j, (j < i)%nat -> ~ suitable typeBits properties types j.

(** The device-local type [getMemoryType] finds for an image, if any. *)
Definition device_local_type (this : HeadlessAppVK) (info : VkImageCreateInfo)
    : option Z :=
  getMemoryType_loop
    (memoryTypeBits (imageMemoryRequirements (m_physicalDevice this) info))
    VK_MEMORY_PROPERTY_DEVICE_LOCAL_BIT 0
    (memoryTypes (m_physicalDevice this)).

(** ** Depth formats *)

(** A candidate qualifies when its optimal-tiling features hold the
    depth/stencil-attachment bit. *)
Definition qualifies (physicalDevice : VkPhysicalDevice) (f : Z) : bool :=
  has_all (optimalTilingFeatures physicalDevice f)
          VK_FORMAT_FEATURE_DEPTH_STENCIL_ATTACHMENT_BIT.

(** ** Render targets *)

(** A handle as a set of live objects: none for [VK_NULL_HANDLE]. *)
Definition hset (h : Z) : gset Z := if is_set h then {[h]} else ∅.

Definition when_set {A} (h : Z) (f : A -> A) : A -> A :=
  if is_set h then f else id.

(** The destructions at the head of a (re)creation: view, image, memory, each
    only for a handle that is set. *)
Definition destroy_calls (view img mem : Z) : list VkCall :=
  (if is_set view then [DestroyImageView view] else [])
  ++ (if is_set img then [DestroyImage img] else [])
  ++ (if is_set mem then [FreeMemory mem] else []).

(** The creations that follow, on the three handles [h], [h + 1], [h + 2]. *)
Definition create_calls (h : Z) (image_info : VkImageCreateInfo)
    (alloc : VkMemoryAllocateInfo) (view_info : VkImageViewCreateInfo)
    : list VkCall :=
  [CreateImage image_info h; AllocateMemory alloc (h + 1);
   BindImageMemory h (h + 1) 0; CreateImageView view_info (h + 2)].

(** The device after the target [img], [mem], [view] has been replaced. *)
Definition replaced_target (d : VkDevice) (img mem view : Z)
    (image_info : VkImageCreateInfo) (alloc : VkMemoryAllocateInfo)
    (view_info : VkImageViewCreateInfo) : VkDevice :=
  let h := next_handle d in
  {| next_handle := h + 3;
     images := <[h := image_info]> (when_set img (delete img) (images d));
     memories := <[h + 1 := alloc]> (when_set mem (delete mem) (memories d));
     views := <[h + 2 := view_info]> (when_set view (delete view) (views d));
     fences := fences d; cmdbufs := cmdbufs d;
     pending := pending d; completed := completed d;
     calls := calls d ++ destroy_calls view img mem
              ++ create_calls h image_info alloc view_info |}.

(** The images, memories and views alive on the device are the ones the two
    render targets hold, color and depth hold different objects, and no
    handle held is one the device has yet to hand out. *)
Definition targets_own (this : HeadlessAppVK) : Prop :=
  let d := m_device this in
  dom (images d) = hset (m_colorImage this) ∪ hset (m_depthImage this)
  /\ dom (memories d) = hset (m_colorMemory this) ∪ hset (m_depthMemory this)
  /\ dom (views d) = hset (m_colorView this) ∪ hset (m_depthView this)
  /\ hset (m_colorImage this) ## hset (m_depthImage this)
  /\ hset (m_colorMemory this) ## hset (m_depthMemory this)
  /\ hset (m_colorView this) ## hset (m_depthView this)
  /\ (forall h, h ∈ dom (images d) ∪ dom (memories d) ∪ dom (views d) ->
                h < next_handle d)
  /\ 0 < next_handle d.

(** A render target all of whose parts are valid: three set handles of live
    objects, the view being a view of the image. *)
Definition target_valid (d : VkDevice) (img mem view : Z) : Prop :=
  is_set img = true /\ is_set mem = true /\ is_set view = true
  /\ img ∈ dom (images d) /\ mem ∈ dom (memories d)
  /\ exists info, views d !! view = Some info /\ image info = img.

Definition color_alloc (this : HeadlessAppVK) (idx : Z) : VkMemoryAllocateInfo :=
  {| allocationSize :=
       size (imageMemoryRequirements (m_physicalDevice this)
               (colorImageInfo this));
     memoryTypeIndex := idx |}.

Definition depth_alloc (this : HeadlessAppVK) (idx : Z) : VkMemoryAllocateInfo :=
  {| allocationSize :=
       size (imageMemoryRequirements (m_physicalDevice this)
               (depthImageInfo this));
     memoryTypeIndex := idx |}.

(** The object after a successful [createColorBuffer]. *)
Definition recreated_color (this : HeadlessAppVK) (idx : Z) : HeadlessAppVK :=
  let d := m_device this in
  let h := next_handle d in
  set_colorView (h + 2) (set_colorMemory (h + 1) (set_colorImage h
    (set_device
       (replaced_target d (m_colorImage this) (m_colorMemory this)
          (m_colorView this) (colorImageInfo this) (color_alloc this idx)
          (colorViewInfo (set_colorImage h this)))
       this))).

Definition recreated_depth (this : HeadlessAppVK) (idx : Z) : HeadlessAppVK :=
  let d := m_device this in
  let h := next_handle d in
  set_depthView (h + 2) (set_depthMemory (h + 1) (set_depthImage h
    (set_device
       (replaced_target d (m_depthImage this) (m_depthMemory this)
          (m_depthView this) (depthImageInfo this) (depth_alloc this idx)
          (depthViewInfo (set_depthImage h this)))
       this))).

(** ** One-shot command buffers *)

(** A caller's recording into the buffer [cmd]: the commands [commands], in
    order. *)
Fixpoint recording (commands : list string) (cmd : Z) : M HeadlessAppVK unit :=
  match commands with
  | [] => mret tt
  | c :: rest => on_device (vkCmd cmd c) ;; recording rest cmd
  end.

Definition append_calls (cs : list VkCall) (d : VkDevice) : VkDevice :=
  {| next_handle := next_handle d; images := images d; memories := memories d;
     views := views d; fences := fences d; cmdbufs := cmdbufs d;
     pending := pending d; completed := completed d; calls := calls d ++ cs |}.

(** The calls of a one-shot operation as the transient mode is described:
    allocate, begin, the recording, end, a fence created for this one
    submission, submit, wait on the fence, destroy the fence, free. *)
Definition fenced_one_shot_calls (pool queue cmd fence : Z)
    (commands : list string) : list VkCall :=
  [AllocateCommandBuffers pool VK_COMMAND_BUFFER_LEVEL_PRIMARY cmd;
   BeginCommandBuffer cmd 0]
  ++ map (CmdRecorded cmd) commands
  ++ [EndCommandBuffer cmd; CreateFence fence;
      QueueSubmit queue [cmd] fence;
      WaitForFences [fence] VK_TRUE UINT64_MAX;
      DestroyFence fence; FreeCommandBuffers pool cmd].

(** The calls [createTempCmdBuffer] and [submitTempCmdBuffer] make around the
    recording. *)
Definition one_shot_calls (pool queue cmd : Z) (commands : list string)
    : list VkCall :=
  [AllocateCommandBuffers pool VK_COMMAND_BUFFER_LEVEL_PRIMARY cmd;
   BeginCommandBuffer cmd 0]
  ++ map (CmdRecorded cmd) commands
  ++ [EndCommandBuffer cmd;
      QueueSubmit queue [cmd] VK_NULL_HANDLE;
      QueueWaitIdle queue; FreeCommandBuffers pool cmd].

Definition is_fence_call (c : VkCall) : bool :=
  match c with
  | CreateFence _ | DestroyFence _ | WaitForFences _ _ _ => true
  | _ => false
  end.

(** ** The renderer switch *)

(** Both slots of [m_pRender] hold a backend object, as after [setup]. *)
Definition renderers_ready (st : SampleExample) : Prop :=
  exists r0 r1, m_pRender st = [Some r0; Some r1].

(** The constructed backends are: the active one, none when the selection is
    [eNone]. *)
Definition active_only (st : SampleExample) : Prop :=
  forall i r, m_pRender st !! i = Some (Some r) ->
    (constructed r = true <-> RndMethod_value (m_rndMethod st) = Z.of_nat i).

Fixpoint constructed_count (rs : list (option Renderer)) : nat :=
  match rs with
  | [] => 0
  | Some r :: rest =>
      ((if constructed r then 1 else 0) + constructed_count rest)%nat
  | None :: rest => constructed_count rest
  end.

(** What a call does to the backends. *)
Definition apply_call (c : VkCall) (rs : list (option Renderer))
    : list (option Renderer) :=
  match c with
  | RendererCreate i => alter (fmap Renderer_create) (Z.to_nat i) rs
  | RendererDestroy i => alter (fmap Renderer_destroy) (Z.to_nat i) rs
  | _ => rs
  end.

(** The number of constructed backends after each call of [cs] in turn. *)
Fixpoint constructed_after (rs : list (option Renderer)) (cs : list VkCall)
    : list nat :=
  match cs with
  | [] => []
  | c :: rest =>
      constructed_count (apply_call c rs)
      :: constructed_after (apply_call c rs) rest
  end.

(** The calls of a switch from [current] to [requested] as the state machine
    is described: nothing for the same method; otherwise the wait for the
    device, the destruction of the current backend unless there is none, the
    creation of the requested one. *)
Definition described_switch_calls (current requested : RndMethod)
    : list VkCall :=
  if bool_decide (requested = current) then []
  else [DeviceWaitIdle]
       ++ (if bool_decide (current = eNone) then []
           else [RendererDestroy (RndMethod_value current)])
       ++ [RendererCreate (RndMethod_value requested)].

(** The calls [createRender] makes: wait and destruction go together. *)
Definition switch_calls (current requested : RndMethod) : list VkCall :=
  if bool_decide (requested = current) then []
  else (if bool_decide (current = eNone) then []
        else [DeviceWaitIdle; RendererDestroy (RndMethod_value current)])
       ++ [RendererCreate (RndMethod_value requested)].

(** ** Render regions *)

(** The members of a rectangle are in the range of their C types. *)
Definition rect_in_range (r : VkRect2D) : Prop :=
  - 2 ^ 31 <= x (offset r) < 2 ^ 31 /\ - 2 ^ 31 <= y (offset r) < 2 ^ 31
  /\ 0 <= width (extent r) < 2 ^ 32 /\ 0 <= height (extent r) < 2 ^ 32.

(** ** The exported image *)

(** The header of a binary PPM of the given size. *)
Definition ppm_header (width height : Z) : list byte :=
  list_byte_of_string
    ("P6" ++ LF ++ to_string width ++ LF ++ to_string height ++ LF
     ++ "255" ++ LF).

(** The body of the loop over [x]. *)
Definition pixel_body (mapped : list byte) : M Dump unit :=
  s ← get;
  (file_write mapped (row s + 2) 1 ;;
   file_write mapped (row s + 1) 1 ;;
   file_write mapped (row s) 1) ;;
  s ← get;
  modify (set_row (row s + 4)).

(** The body of the loop over [y]. *)
Definition row_body (mapped : list byte) (width pitch : Z) : M Dump unit :=
  s ← get;
  modify (set_row (imagedata s)) ;;
  for_i32 (S (Z.to_nat width)) 0 width (fun x => pixel_body mapped) ;;
  s ← get;
  modify (set_imagedata (imagedata s + pitch)).

(** The three bytes written for the pixel at address [p]; the [n] pixels of
    a row from address [p] on; [n] rows [pitch] apart. *)
Definition pixel_bytes (mapped : list byte) (p : Z) : list byte :=
  take 1 (drop (Z.to_nat (p + 2)) mapped)
  ++ take 1 (drop (Z.to_nat (p + 1)) mapped)
  ++ take 1 (drop (Z.to_nat p) mapped).

Fixpoint row_bytes (mapped : list byte) (p : Z) (n : nat) : list byte :=
  match n with
  | O => []
  | S k => pixel_bytes mapped p ++ row_bytes mapped (p + 4) k
  end.

Fixpoint image_bytes (mapped : list byte) (p pitch : Z) (w n : nat)
    : list byte :=
  match n with
  | O => []
  | S k => row_bytes mapped p w ++ image_bytes mapped (p + pitch) pitch w k
  end.

(** Sixteen mapped bytes for the examples: 65, 66, ... *)
Definition example_mapping : list byte :=
  map (fun n => default x00 (Byte.of_nat n)) (seq 65 16).

(** A device for the examples: a host-visible and a device-local memory
    type, D32_SFLOAT_S8_UINT the one depth format it can attach. *)
Definition example_gpu : VkPhysicalDevice :=
  {| memoryTypes := [ {| propertyFlags := 6 |}; {| propertyFlags := 1 |} ];
     optimalTilingFeatures :=
       fun f => if f =? VK_FORMAT_D32_SFLOAT_S8_UINT then 0x200 else 0;
     imageMemoryRequirements :=
       fun info => {| size := 4096; memoryTypeBits := 3 |};
     deviceQueue := fun family index => 1000 + family |}.

(** The harness after [setup] on that device, 4 by 2 pixels. *)
Definition example_app : HeadlessAppVK :=
  match exec (Headless.setup 1 new_device example_gpu 0 4 2
                VK_FORMAT_B8G8R8A8_UNORM VK_FORMAT_UNDEFINED)
             HeadlessAppVK_default with
  | Ok this => this
  | Err _ => HeadlessAppVK_default
  end.

(** The sample after [setup] on the example device, no renderer selected. *)
Definition example_sample : SampleExample :=
  match exec (Sample.setup 1 new_device example_gpu [0; 0; 1; 2] 4 2
                VK_FORMAT_B8G8R8A8_UNORM VK_FORMAT_UNDEFINED)
             SampleExample_default with
  | Ok st => st
  | Err _ => SampleExample_default
  end.

(** The same with the pipeline backend selected. *)
Definition example_sample_rtx : SampleExample :=
  match exec (createRender eRtxPipeline) example_sample with
  | Ok st => st
  | Err _ => example_sample
  end.

(** ** Vocabulary of the further properties *)

(** The object [setup] leaves behind, up to the depth format. *)
Definition after_setup (instance : Z) (device : VkDevice)
    (physicalDevice : VkPhysicalDevice)
    (graphicsQueueIndex width height colorFormat depthFormat : Z)
    (this : HeadlessAppVK) : HeadlessAppVK :=
  let h := next_handle device in
  let queue := deviceQueue physicalDevice graphicsQueueIndex 0 in
  {| m_instance := instance;
     m_device :=
       {| next_handle := h + 2; images := images device;
          memories := memories device; views := views device;
          fences := fences device; cmdbufs := cmdbufs device;
          pending := pending device; completed := completed device;
          calls := calls device
                   ++ [GetDeviceQueue graphicsQueueIndex 0 queue;
                       CreateCommandPool
                         VK_COMMAND_POOL_CREATE_RESET_COMMAND_BUFFER_BIT h;
                       CreatePipelineCache (h + 1)] |};
     m_physicalDevice := physicalDevice; m_queue := queue;
     m_graphicsQueueIndex := graphicsQueueIndex; m_cmdPool := h;
     m_colorImage := m_colorImage this; m_colorMemory := m_colorMemory this;
     m_colorView := m_colorView this; m_depthImage := m_depthImage this;
     m_depthMemory := m_depthMemory this; m_depthView := m_depthView this;
     m_size := {| width := width; height := height |};
     m_pipelineCache := h + 1;
     m_colorFormat := colorFormat; m_depthFormat := depthFormat |}.

(** No image, memory or view is alive on the device. *)
Definition no_target_objects (d : VkDevice) : Prop :=
  images d = ∅ /\ memories d = ∅ /\ views d = ∅ /\ 0 < next_handle d.

(** The object holds no render target. *)
Definition no_targets (this : HeadlessAppVK) : Prop :=
  m_colorImage this = VK_NULL_HANDLE /\ m_colorMemory this = VK_NULL_HANDLE
  /\ m_colorView this = VK_NULL_HANDLE /\ m_depthImage this = VK_NULL_HANDLE
  /\ m_depthMemory this = VK_NULL_HANDLE /\ m_depthView this = VK_NULL_HANDLE.

(** The device has a device-local memory type for every image. *)
Definition device_local_for_all (p : VkPhysicalDevice) : Prop :=
  forall info,
    is_Some (getMemoryType_loop
               (memoryTypeBits (imageMemoryRequirements p info))
               VK_MEMORY_PROPERTY_DEVICE_LOCAL_BIT 0 (memoryTypes p)).

(** One-shot operations one after the other, each with its recording. *)
Fixpoint one_shot_operations (ops : list (list string))
    : M HeadlessAppVK unit :=
  match ops with
  | [] => mret tt
  | commands :: rest =>
      tempCmdBufferOperation (recording commands) ;; one_shot_operations rest
  end.

(** No command buffer alive has a handle the device has yet to hand out. *)
Definition cmdbufs_below (d : VkDevice) : Prop :=
  forall c, c ∈ cmdbufs d -> c < next_handle d.

(** [createRender] for each method of a list in turn. *)
Fixpoint switch_all (methods : list RndMethod) : M SampleExample unit :=
  match methods with
  | [] => mret tt
  | m :: rest => createRender m ;; switch_all rest
  end.

(** Calls in which a backend is destroyed only right after a wait for the
    device, and a destruction is followed at once by a creation. *)
Inductive switches_only : list VkCall -> Prop :=
| switches_nil : switches_only []
| switches_create (slot : Z) (rest : list VkCall) :
    switches_only rest -> switches_only (RendererCreate slot :: rest)
| switches_replace (old slot : Z) (rest : list VkCall) :
    switches_only rest ->
    switches_only (DeviceWaitIdle :: RendererDestroy old
                   :: RendererCreate slot :: rest).

(** The extent [renderScene] hands to the backend. *)
Definition render_extent (st : SampleExample) : VkExtent2D :=
  let region := extent (m_renderRegion st) in
  if m_descaling st
  then {| width := width region / to_u32 (m_descalingLevel st);
          height := height region / to_u32 (m_descalingLevel st) |}
  else region.

(** The device after one one-shot operation, and after a list of them. *)
Definition after_one_shot (pool queue : Z) (commands : list string)
    (d : VkDevice) : VkDevice :=
  {| next_handle := next_handle d + 1; images := images d;
     memories := memories d; views := views d; fences := fences d;
     cmdbufs := cmdbufs d; pending := [];
     completed := completed d ++ pending d ++ [next_handle d];
     calls := calls d ++ one_shot_calls pool queue (next_handle d) commands |}.

Fixpoint after_one_shots (pool queue : Z) (ops : list (list string))
    (d : VkDevice) : VkDevice :=
  match ops with
  | [] => d
  | commands :: rest =>
      after_one_shots pool queue rest (after_one_shot pool queue commands d)
  end.

(** ** Vocabulary of the frame read-back *)

Import Readback.

(** The memory type [dumpImage] finds for its destination image. *)
Definition host_visible_type (this : HeadlessAppVK) : option Z :=
  getMemoryType_loop
    (memoryTypeBits
       (imageMemoryRequirements (m_physicalDevice this) (dstImageInfo this)))
    (Z.lor VK_MEMORY_PROPERTY_HOST_VISIBLE_BIT
           VK_MEMORY_PROPERTY_HOST_COHERENT_BIT)
    0 (memoryTypes (m_physicalDevice this)).

(** No object alive has a handle the device has yet to hand out. *)
Definition handles_below (d : VkDevice) : Prop :=
  forall k, next_handle d <= k ->
    (k ∉ dom (images d)) /\ (k ∉ dom (memories d)) /\ (k ∉ dom (views d))
    /\ (k ∉ fences d) /\ (k ∉ cmdbufs d).

(** The commands [dumpImage] records into its command buffer. *)
Definition dump_commands (colorImage dstImage : Z) : list string :=
  [barrier_command dstImage VK_IMAGE_LAYOUT_UNDEFINED
     VK_IMAGE_LAYOUT_TRANSFER_DST_OPTIMAL;
   copy_command colorImage VK_IMAGE_LAYOUT_TRANSFER_SRC_OPTIMAL dstImage
     VK_IMAGE_LAYOUT_TRANSFER_DST_OPTIMAL;
   barrier_command dstImage VK_IMAGE_LAYOUT_TRANSFER_DST_OPTIMAL
     VK_IMAGE_LAYOUT_GENERAL].

(** The calls of [dumpImage] on a device whose next handle is [h]. *)
Definition dump_calls (this : HeadlessAppVK) (idx : Z) : list VkCall :=
  let h := next_handle (m_device this) in
  let reqs := imageMemoryRequirements (m_physicalDevice this)
                (dstImageInfo this) in
  [CreateImage (dstImageInfo this) h;
   AllocateMemory {| allocationSize := size reqs; memoryTypeIndex := idx |}
     (h + 1);
   BindImageMemory h (h + 1) 0;
   AllocateCommandBuffers (m_cmdPool this) VK_COMMAND_BUFFER_LEVEL_PRIMARY
     (h + 2);
   BeginCommandBuffer (h + 2) 0]
  ++ map (CmdRecorded (h + 2)) (dump_commands (m_colorImage this) h)
  ++ [EndCommandBuffer (h + 2);
      CreateFence (h + 3);
      QueueSubmit (m_queue this) [h + 2] (h + 3);
      WaitForFences [h + 3] VK_TRUE UINT64_MAX;
      DestroyFence (h + 3);
      DestroyImage h;
      FreeMemory (h + 1);
      FreeCommandBuffers (m_cmdPool this) (h + 2)].

(** The bytes the host sees in the destination image of [dumpImage]. *)
Definition dump_mapping (host : VkHost) (d : VkDevice) : list byte :=
  memoryContents host (completed d ++ pending d ++ [next_handle d + 2])
    (next_handle d + 1).

(** The device after [dumpImage]. *)
Definition dumped_device (this : HeadlessAppVK) (idx : Z) : VkDevice :=
  let d := m_device this in
  let h := next_handle d in
  let reqs := imageMemoryRequirements (m_physicalDevice this)
                (dstImageInfo this) in
  {| next_handle := h + 4;
     images := delete h (<[h := dstImageInfo this]> (images d));
     memories :=
       delete (h + 1)
         (<[h + 1 := {| allocationSize := size reqs;
                        memoryTypeIndex := idx |}]> (memories d));
     views := views d;
     fences := ({[h + 3]} ∪ fences d) ∖ {[h + 3]};
     cmdbufs := ({[h + 2]} ∪ cmdbufs d) ∖ {[h + 2]};
     pending := [];
     completed := completed d ++ pending d ++ [h + 2];
     calls := calls d ++ dump_calls this idx |}.

(** The sample after [dumpImage]. *)
Definition dumped (st : SampleExample) (idx : Z) : SampleExample :=
  {| base := set_device (dumped_device (base st) idx) (base st);
     m_pRender := m_pRender st; m_rndMethod := m_rndMethod st;
     m_renderRegion := m_renderRegion st; m_rtxState := m_rtxState st;
     m_maxFrames := m_maxFrames st; m_descaling := m_descaling st;
     m_descalingLevel := m_descalingLevel st;
     log := log st ++ [saved_line] |}.

(** What stops the writing of the file is a read outside the mapping or the
    loop bound of the embedding, never an [assert]. *)
Definition read_fault (e : Fault) : Prop :=
  match e with
  | OutOfBounds _ _ | OutOfFuel => True
  | _ => False
  end.

(** A driver for the examples: rows 16 bytes apart from offset 0, and the
    example mapping in every memory object. *)
Definition example_host : VkHost :=
  {| imageSubresourceLayout :=
       fun _ => {| layoutOffset := 0; rowPitch := 16 |};
     memoryContents := fun _ _ => example_mapping ++ example_mapping |}.

(** ** Vocabulary of the life cycle *)

Import Lifecycle.

(** The device of the whole object. *)
Definition device_of (app : App) : VkDevice := m_device (base (sample app)).

(** The object with another device, everything else as it is. *)
Definition on_other_device (d : VkDevice) (app : App) : App :=
  set_sample (set_base (set_device d (base (sample app))) (sample app)) app.

(** The object after [createCommandBuffer]. *)
Definition commanded (app : App) : App :=
  let d := device_of app in
  let h := next_handle d in
  let pool := m_cmdPool (base (sample app)) in
  let old := m_commandBuffer app in
  set_commandBuffer h
    (on_other_device
       {| next_handle := h + 1; images := images d; memories := memories d;
          views := views d; fences := fences d;
          cmdbufs := {[h]} ∪ when_set old (fun s => s ∖ {[old]}) (cmdbufs d);
          pending := pending d; completed := completed d;
          calls := calls d
                   ++ (if is_set old then [FreeCommandBuffers pool old] else [])
                   ++ [AllocateCommandBuffers pool
                         VK_COMMAND_BUFFER_LEVEL_PRIMARY h;
                       BeginCommandBuffer h 0] |}
       app).

(** The command buffers alive are at most the one the object holds, and
    none has a handle the device has yet to hand out. *)
Definition owns_cmdbufs (app : App) : Prop :=
  cmdbufs (device_of app) ⊆ hset (m_commandBuffer app)
  /\ (forall c, c ∈ cmdbufs (device_of app) -> c < next_handle (device_of app))
  /\ 0 < next_handle (device_of app).

(** A device on which nothing has been created yet. *)
Definition unused_device (d : VkDevice) : Prop :=
  images d = ∅ /\ memories d = ∅ /\ views d = ∅ /\ fences d = ∅
  /\ cmdbufs d = ∅ /\ 0 < next_handle d.

(** The device has a host-visible, host-coherent memory type for every
    image. *)
Definition host_visible_for_all (p : VkPhysicalDevice) : Prop :=
  forall info,
    is_Some (getMemoryType_loop
               (memoryTypeBits (imageMemoryRequirements p info))
               (Z.lor VK_MEMORY_PROPERTY_HOST_VISIBLE_BIT
                      VK_MEMORY_PROPERTY_HOST_COHERENT_BIT)
               0 (memoryTypes p)).

(** The driver lays every image out from a non-negative offset with a
    non-negative pitch, and every mapping holds the color bytes of an image
    of [w] by [h] pixels laid out so. *)
Definition host_shows (host : VkHost) (w h : Z) : Prop :=
  forall info finished mem,
    let layout := imageSubresourceLayout host info in
    0 <= layoutOffset layout /\ 0 <= rowPitch layout
    /\ layoutOffset layout + (h - 1) * rowPitch layout + 4 * w - 1
       <= Z.of_nat (length (memoryContents host finished mem)).

(** Nothing is alive on the device or among the objects kept beside it, and
    nothing is pending. *)
Definition nothing_alive (app : App) : Prop :=
  let d := device_of app in
  images d = ∅ /\ memories d = ∅ /\ views d = ∅ /\ fences d = ∅
  /\ cmdbufs d = ∅ /\ pending d = []
  /\ renderPasses app = ∅ /\ framebuffers app = ∅ /\ descriptors app = ∅.

(** The memory types [getMemoryType] finds for an image: device-local for a
    render target, host-visible and host-coherent for the read-back. *)
Definition device_local_index (p : VkPhysicalDevice) (info : VkImageCreateInfo)
    : Z :=
  default 0 (getMemoryType_loop
               (memoryTypeBits (imageMemoryRequirements p info))
               VK_MEMORY_PROPERTY_DEVICE_LOCAL_BIT 0 (memoryTypes p)).

Definition host_visible_index (p : VkPhysicalDevice) (info : VkImageCreateInfo)
    : Z :=
  default 0 (getMemoryType_loop
               (memoryTypeBits (imageMemoryRequirements p info))
               (Z.lor VK_MEMORY_PROPERTY_HOST_VISIBLE_BIT
                      VK_MEMORY_PROPERTY_HOST_COHERENT_BIT)
               0 (memoryTypes p)).

(** The depth format [setup] settles on when none is given. *)
Definition probed_depth_format (p : VkPhysicalDevice) : Z :=
  match find (qualifies p) depth_candidates with
  | Some f => f
  | None => VK_FORMAT_UNDEFINED
  end.

(** What [createRenderPass] and [createFrameBuffer] hand to the driver. *)
Definition renderPassInfo (app : App) : VkRenderPassCreateInfo :=
  {| attachmentFormats := [m_colorFormat (base (sample app));
                           m_depthFormat (base (sample app))];
     finalLayouts := [VK_IMAGE_LAYOUT_TRANSFER_SRC_OPTIMAL;
                      VK_IMAGE_LAYOUT_DEPTH_STENCIL_ATTACHMENT_OPTIMAL] |}.

Definition framebufferInfo (app : App) : VkFramebufferCreateInfo :=
  {| renderPass := m_renderPass app;
     attachments := [m_colorView (base (sample app));
                     m_depthView (base (sample app))];
     framebufferExtent := (width (m_size (base (sample app))),
                           height (m_size (base (sample app))));
     layers := 1 |}.

(** Calls of the further kinds made now, after the calls on the device's
    record so far. *)
Definition made_now (cs : list VkCallMore) (app : App) : App :=
  {| sample := sample app; m_imguiDescPool := m_imguiDescPool app;
     m_framebuffer := m_framebuffer app;
     m_commandBuffer := m_commandBuffer app; m_waitFence := m_waitFence app;
     m_renderPass := m_renderPass app;
     m_useDynamicRendering := m_useDynamicRendering app;
     m_descPool := m_descPool app; m_descSetLayout := m_descSetLayout app;
     renderPasses := renderPasses app; framebuffers := framebuffers app;
     descriptors := descriptors app;
     more_calls := more_calls app
                   ++ map (pair (length (calls (device_of app)))) cs |}.

(** The object after [createFrameBuffer] has made a framebuffer. *)
Definition with_framebuffer (app : App) : App :=
  let d := device_of app in
  let h := next_handle d in
  let old := m_framebuffer app in
  set_framebuffer h
    (with_framebuffers (fun m => <[h := framebufferInfo app]> (delete old m))
       (made_now [DestroyFramebuffer old;
                  CreateFramebuffer (framebufferInfo app) h]
          (on_other_device (bump d) app))).

(** The object after [createRenderPass] has made a render pass. *)
Definition with_pass (app : App) : App :=
  let d := device_of app in
  let h := next_handle d in
  let old := m_renderPass app in
  set_renderPass h
    (with_renderPasses
       (fun m => <[h := renderPassInfo app]> (when_set old (delete old) m))
       (made_now ((if is_set old then [DestroyRenderPass old] else [])
                  ++ [CreateRenderPass (renderPassInfo app) h])
          (on_other_device (bump d) app))).

(** The framebuffer the object holds is alive, and so are its render pass
    and every image view attached to it. *)
Definition framebuffer_usable (app : App) : Prop :=
  exists info,
    framebuffers app !! m_framebuffer app = Some info
    /\ renderPass info ∈ dom (renderPasses app)
    /\ Forall (fun v => v ∈ dom (views (device_of app))) (attachments info).

(** The handles the object holds, the three without initialiser included. *)
Definition handles_held (app : App) : list Z :=
  let b := base (sample app) in
  [m_cmdPool b; m_pipelineCache b;
   m_colorImage b; m_colorMemory b; m_colorView b;
   m_depthImage b; m_depthMemory b; m_depthView b;
   m_renderPass app; m_framebuffer app; m_commandBuffer app; m_waitFence app;
   m_imguiDescPool app; m_descPool app; m_descSetLayout app].

(** Everything alive is held by the object: the two render targets, and at
    most one render pass, framebuffer, command buffer, fence and descriptor
    pool, each in its member. *)
Definition owns_all (app : App) : Prop :=
  targets_own (base (sample app))
  /\ dom (renderPasses app) ⊆ {[m_renderPass app]}
  /\ dom (framebuffers app) ⊆ {[m_framebuffer app]}
  /\ cmdbufs (device_of app) ⊆ {[m_commandBuffer app]}
  /\ fences (device_of app) ⊆ {[m_waitFence app]}
  /\ descriptors app ⊆ {[m_imguiDescPool app]}.

(** An example object: the sample after [setup] on the example device, the
    three members without initialiser holding 7, 8 and 9. *)
Definition example_object : App :=
  set_sample example_sample (App_default 7 8 9).

(** A driver for [main]: rows of 1008 pixels one after the other, and a
    mapping of 660 such rows. *)
Definition example_frame_host : VkHost :=
  {| imageSubresourceLayout :=
       fun _ => {| layoutOffset := 0; rowPitch := 4032 |};
     memoryContents := fun _ _ => repeat x00 (Z.to_nat (4032 * 660)) |}.

(** The example object with both render targets and a render pass. *)
Definition example_object_ready : App :=
  match exec (on_sample (on_base createColorBuffer) ;;
              on_sample (on_base createDepthBuffer) ;;
              createRenderPass) example_object with
  | Ok app => app
  | Err _ => example_object
  end.

(** At most the render pass and the framebuffer the object holds are alive,
    with handles the device has handed out, and both views are alive. *)
Definition owns_pass_and_framebuffer (app : App) : Prop :=
  let d := device_of app in
  dom (renderPasses app) ⊆ hset (m_renderPass app)
  /\ dom (framebuffers app) ⊆ {[m_framebuffer app]}
  /\ (forall k, k ∈ dom (renderPasses app) ∪ dom (framebuffers app) ->
        k < next_handle d)
  /\ 0 < next_handle d
  /\ m_colorView (base (sample app)) ∈ dom (views d)
  /\ m_depthView (base (sample app)) ∈ dom (views d).

(** What a change of size calls for after the targets: a render pass, then
    a framebuffer. *)
Definition createPassAndFramebuffer : M App unit :=
  createRenderPass ;; createFrameBuffer.

(** * Proofs *)

(** ** Running the embedded code *)

Ltac run :=
  cbv beta delta
    [mbind M_bind mret M_ret get put modify fail when exec
     on_device on_base fresh
     vkGetDeviceQueue vkCreateCommandPool vkCreatePipelineCache
     vkCreateImage vkDestroyImage vkGetImageMemoryRequirements
     vkAllocateMemory vkFreeMemory vkBindImageMemory vkCreateImageView
     vkDestroyImageView vkAllocateCommandBuffers vkBeginCommandBuffer
     vkEndCommandBuffer vkCmd vkFreeCommandBuffers vkCreateFence vkDestroyFence
     vkQueueSubmit vkWaitForFences vkQueueWaitIdle vkDeviceWaitIdle LOGI];
  cbn [record bump with_images with_memories
       with_views with_fences with_cmdbufs submit drain
       set_device set_queue set_cmdPool set_pipelineCache set_depthFormat
       set_colorImage set_colorMemory set_colorView
       set_depthImage set_depthMemory set_depthView
       m_instance m_device m_physicalDevice m_queue m_graphicsQueueIndex
       m_cmdPool m_colorImage m_colorMemory m_colorView m_depthImage
       m_depthMemory m_depthView m_size m_pipelineCache m_colorFormat
       m_depthFormat
       next_handle images memories views fences cmdbufs pending completed
       calls
       set_base set_pRender set_rndMethod set_renderRegion set_rtxState
       base m_pRender m_rndMethod m_renderRegion m_rtxState m_maxFrames
       m_descaling m_descalingLevel log frame rtx_size
       fst snd].

(** The same on states given field by field: everything is evaluated. *)
Ltac run_all :=
  cbv beta iota zeta delta
    [mbind M_bind mret M_ret get put modify fail when exec
     on_device on_base fresh
     vkGetDeviceQueue vkCreateCommandPool vkCreatePipelineCache
     vkCreateImage vkDestroyImage vkGetImageMemoryRequirements
     vkAllocateMemory vkFreeMemory vkBindImageMemory vkCreateImageView
     vkDestroyImageView vkAllocateCommandBuffers vkBeginCommandBuffer
     vkEndCommandBuffer vkCmd vkFreeCommandBuffers vkCreateFence vkDestroyFence
     vkQueueSubmit vkWaitForFences vkQueueWaitIdle vkDeviceWaitIdle LOGI
     record bump with_images with_memories
     with_views with_fences with_cmdbufs submit drain
     set_device set_queue set_cmdPool set_pipelineCache set_depthFormat
     set_colorImage set_colorMemory set_colorView
     set_depthImage set_depthMemory set_depthView
     m_instance m_device m_physicalDevice m_queue m_graphicsQueueIndex
     m_cmdPool m_colorImage m_colorMemory m_colorView m_depthImage
     m_depthMemory m_depthView m_size m_pipelineCache m_colorFormat
     m_depthFormat
     next_handle images memories views fences cmdbufs pending completed
     calls
     set_base set_pRender set_rndMethod set_renderRegion set_rtxState
     base m_pRender m_rndMethod m_renderRegion m_rtxState m_maxFrames
     m_descaling m_descalingLevel log frame rtx_size
     fst snd andb].

Ltac tidy :=
  rewrite <- ?Z.add_assoc; change (1 + (1 + 1)) with 3; change (1 + 1) with 2;
  rewrite <- ?app_assoc; cbn [app].

(** ** Bit masks *)

Section Bits.

Lemma land_pow2 (a i : Z) :
  0 <= i -> Z.land a (2 ^ i) = if Z.testbit a i then 2 ^ i else 0.
Proof.
  intros Hi. apply Z.bits_inj'. intros n Hn.
  rewrite Z.land_spec, Z.pow2_bits_eqb by lia.
  destruct (Z.eqb_spec i n) as [->|Hne].
  - destruct (Z.testbit a n) eqn:E; simpl.
    + rewrite Z.pow2_bits_eqb by lia. now rewrite Z.eqb_refl.
    + now rewrite Z.bits_0.
  - rewrite andb_false_r.
    destruct (Z.testbit a i).
    + rewrite Z.pow2_bits_eqb by lia. symmetry. now apply Z.eqb_neq.
    + now rewrite Z.bits_0.
Qed.

(** [(typeBits & (1 << i)) > 0] tests bit [i] of [typeBits]. *)
Lemma type_bit_test (typeBits i : Z) :
  0 <= i -> (0 <? Z.land typeBits (Z.shiftl 1 i)) = Z.testbit typeBits i.
Proof.
  intros Hi. rewrite Z.shiftl_1_l, land_pow2 by lia.
  destruct (Z.testbit typeBits i).
  - apply Z.ltb_lt. apply Z.pow_pos_nonneg; lia.
  - reflexivity.
Qed.

(** [(value & mask) == mask] says every bit of [mask] is set in [value]. *)
Lemma has_all_bits (value mask : Z) :
  has_all value mask = true <->
  forall n, 0 <= n -> Z.testbit mask n = true -> Z.testbit value n = true.
Proof.
  unfold has_all. rewrite Z.eqb_eq. split.
  - intros H n Hn Hm. rewrite <- H in Hm. rewrite Z.land_spec in Hm.
    now apply andb_true_iff in Hm.
  - intros H. apply Z.bits_inj'. intros n Hn. rewrite Z.land_spec.
    destruct (Z.testbit mask n) eqn:E.
    + now rewrite (H n Hn E).
    + apply andb_false_r.
Qed.

End Bits.

(** ** Memory-type selection *)

Section MemoryType.

Variables (typeBits properties : Z).

Lemma getMemoryType_loop_spec (types : list VkMemoryType) (k : nat) :
  match getMemoryType_loop typeBits properties (Z.of_nat k) types with
  | Some i =>
      exists n, i = Z.of_nat (k + n)
        /\ (exists t, types !! n = Some t
              /\ Z.testbit typeBits i = true
              /\ has_all (propertyFlags t) properties = true)
        /\ forall j t, (j < n)%nat -> types !! j = Some t ->
             Z.testbit typeBits (Z.of_nat (k + j)) = true ->
             has_all (propertyFlags t) properties = false
  | None =>
      forall j t, types !! j = Some t ->
        Z.testbit typeBits (Z.of_nat (k + j)) = true ->
        has_all (propertyFlags t) properties = false
  end.
Proof.
  revert k. induction types as [|t rest IH]; intros k; simpl.
  - intros j t Hj. discriminate.
  - rewrite type_bit_test by lia.
    destruct (Z.testbit typeBits (Z.of_nat k)
              && has_all (propertyFlags t) properties) eqn:E.
    + apply andb_true_iff in E as [Eb Eh].
      exists 0%nat. rewrite Nat.add_0_r. split; [reflexivity|].
      split; [exists t; auto|]. intros j t' Hj. lia.
    + replace (Z.of_nat k + 1) with (Z.of_nat (S k)) by lia.
      specialize (IH (S k)).
      destruct (getMemoryType_loop typeBits properties (Z.of_nat (S k)) rest)
        as [i|].
      * destruct IH as (n & -> & (t' & Ht' & Hb & Hh) & Hmin).
        exists (S n). split; [f_equal; lia|].
        split; [exists t'; auto|].
        intros [|j] u Hj Hu Hbit; simpl in Hu.
        -- injection Hu as <-. rewrite Nat.add_0_r in Hbit.
           rewrite Hbit in E. exact E.
        -- apply (Hmin j u); [lia|exact Hu|].
           now replace (S k + j)%nat with (k + S j)%nat by lia.
      * intros [|j] u Hu Hbit; simpl in Hu.
        -- injection Hu as <-. rewrite Nat.add_0_r in Hbit.
           rewrite Hbit in E. exact E.
        -- apply (IH j u); [exact Hu|].
           now replace (S k + j)%nat with (k + S j)%nat by lia.
Qed.


End MemoryType.

(** ** Depth-format probing in setup *)

Section Setup.

Variables (instance : Z) (device : VkDevice) (physicalDevice : VkPhysicalDevice).
Variables (graphicsQueueIndex width height colorFormat : Z).

Lemma setup_probe_find (fs : list Z) (this : HeadlessAppVK) :
  m_physicalDevice this = physicalDevice ->
  setup_probe VK_FORMAT_FEATURE_DEPTH_STENCIL_ATTACHMENT_BIT fs this
  = Ok (tt, match find (qualifies physicalDevice) fs with
            | Some f => set_depthFormat f this
            | None => this
            end).
Proof.
  intros Hp. induction fs as [|f rest IH]; cbn [setup_probe find].
  - reflexivity.
  - run. rewrite Hp. fold (qualifies physicalDevice f).
    destruct (qualifies physicalDevice f); [reflexivity|exact IH].
Qed.

(** C2, as amended.  Called with the depth format undefined, [setup] probes
    the three candidates D24_UNORM_S8_UINT, D32_SFLOAT_S8_UINT,
    D16_UNORM_S8_UINT in this order and returns with [m_depthFormat] set to
    the first one that qualifies; when none qualifies it returns all the
    same, with [m_depthFormat] still undefined. *)
Theorem setup_selects_first_depth_format (this : HeadlessAppVK) :
  depth_candidates
    = [VK_FORMAT_D24_UNORM_S8_UINT; VK_FORMAT_D32_SFLOAT_S8_UINT;
       VK_FORMAT_D16_UNORM_S8_UINT]
  /\ exists this',
       exec (Headless.setup instance device physicalDevice graphicsQueueIndex
               width height colorFormat VK_FORMAT_UNDEFINED) this
       = Ok this'
       /\ m_depthFormat this'
          = match find (qualifies physicalDevice) depth_candidates with
            | Some f => f
            | None => VK_FORMAT_UNDEFINED
            end.
Proof.
  split; [reflexivity|].
  unfold Headless.setup. run. rewrite Z.eqb_refl.
  rewrite setup_probe_find by reflexivity.
  destruct (find (qualifies physicalDevice) depth_candidates); eexists; split; reflexivity.
Qed.

End Setup.

(** C2, counterexample.  A device on which no candidate has the
    depth/stencil-attachment feature: [setup] does not end the run, it
    returns with the depth format undefined. *)
Lemma setup_without_depth_format_returns :
  forallb (fun f => negb (qualifies no_physical_device f)) depth_candidates
  = true
  /\ exists this',
       exec (Headless.setup 1 new_device no_physical_device 0 1280 720
               VK_FORMAT_B8G8R8A8_UNORM VK_FORMAT_UNDEFINED)
            HeadlessAppVK_default
       = Ok this'
       /\ m_depthFormat this' = VK_FORMAT_UNDEFINED.
Proof.
  split; [reflexivity|].
  exists (match exec (Headless.setup 1 new_device no_physical_device 0 1280
                        720 VK_FORMAT_B8G8R8A8_UNORM VK_FORMAT_UNDEFINED)
                  HeadlessAppVK_default with
          | Ok this' => this'
          | Err _ => HeadlessAppVK_default
          end).
  split; vm_compute; reflexivity.
Qed.

(** ** Render-target recreation *)

Section RenderTargets.

Lemma in_dom_insert {V} (k : Z) (v : V) (m : gmap Z V) :
  bool_decide (k ∈ dom (<[k := v]> m)) = true.
Proof. apply bool_decide_eq_true. rewrite dom_insert_L. set_solver. Qed.

Lemma createColorBuffer_run (this : HeadlessAppVK) (idx : Z) :
  device_local_type this (colorImageInfo this) = Some idx ->
  exec createColorBuffer this = Ok (recreated_color this idx).
Proof.
  intros Hidx. destruct this as [i0 d p q g c ci cm cv di dm dv sz pc cf df].
  destruct d as [h im me vw fe cb pe co ca].
  unfold device_local_type in Hidx.
  cbv [m_colorFormat m_size m_physicalDevice colorImageInfo] in Hidx.
  unfold createColorBuffer, getMemoryType, recreated_color, replaced_target,
    colorViewInfo, colorImageInfo, color_alloc, destroy_calls, create_calls,
    when_set.
  run.
  destruct (is_set cv), (is_set ci), (is_set cm); run_all.
  all: rewrite lookup_insert_eq; run_all.
  all: rewrite Hidx; run_all.
  all: rewrite !in_dom_insert; run_all.
  all: rewrite ?in_dom_insert; run_all.
  all: tidy; reflexivity.
Qed.

Lemma createColorBuffer_abort (this : HeadlessAppVK) :
  device_local_type this (colorImageInfo this) = None ->
  exec createColorBuffer this
  = Err (Abort ("Unable to find memory type "
                ++ to_string VK_MEMORY_PROPERTY_DEVICE_LOCAL_BIT)).
Proof.
  intros Hidx. destruct this as [i0 d p q g c ci cm cv di dm dv sz pc cf df].
  destruct d as [h im me vw fe cb pe co ca].
  unfold device_local_type in Hidx.
  cbv [m_colorFormat m_size m_physicalDevice colorImageInfo] in Hidx.
  unfold createColorBuffer, getMemoryType, colorImageInfo.
  run.
  destruct (is_set cv), (is_set ci), (is_set cm); run_all.
  all: rewrite lookup_insert_eq; run_all.
  all: rewrite Hidx; reflexivity.
Qed.

Lemma createDepthBuffer_run (this : HeadlessAppVK) (idx : Z) :
  device_local_type this (depthImageInfo this) = Some idx ->
  exec createDepthBuffer this = Ok (recreated_depth this idx).
Proof.
  intros Hidx. destruct this as [i0 d p q g c ci cm cv di dm dv sz pc cf df].
  destruct d as [h im me vw fe cb pe co ca].
  unfold device_local_type in Hidx.
  cbv [m_depthFormat m_size m_physicalDevice depthImageInfo] in Hidx.
  unfold createDepthBuffer, getMemoryType, recreated_depth, replaced_target,
    depthViewInfo, depthImageInfo, depth_alloc, destroy_calls, create_calls,
    when_set.
  run.
  destruct (is_set dv), (is_set di), (is_set dm); run_all.
  all: rewrite lookup_insert_eq; run_all.
  all: rewrite Hidx; run_all.
  all: rewrite !in_dom_insert; run_all.
  all: rewrite ?in_dom_insert; run_all.
  all: tidy; reflexivity.
Qed.

Lemma createDepthBuffer_abort (this : HeadlessAppVK) :
  device_local_type this (depthImageInfo this) = None ->
  exec createDepthBuffer this
  = Err (Abort ("Unable to find memory type "
                ++ to_string VK_MEMORY_PROPERTY_DEVICE_LOCAL_BIT)).
Proof.
  intros Hidx. destruct this as [i0 d p q g c ci cm cv di dm dv sz pc cf df].
  destruct d as [h im me vw fe cb pe co ca].
  unfold device_local_type in Hidx.
  cbv [m_depthFormat m_size m_physicalDevice depthImageInfo] in Hidx.
  unfold createDepthBuffer, getMemoryType, depthImageInfo.
  run.
  destruct (is_set dv), (is_set di), (is_set dm); run_all.
  all: rewrite lookup_insert_eq; run_all.
  all: rewrite Hidx; reflexivity.
Qed.

Lemma hset_positive (h : Z) : 0 < h -> hset h = {[h]}.
Proof.
  intros Hh. unfold hset, is_set, VK_NULL_HANDLE.
  destruct (Z.eqb_spec h 0); [lia|reflexivity].
Qed.

Lemma is_set_positive (h : Z) : 0 < h -> is_set h = true.
Proof.
  intros Hh. unfold is_set, VK_NULL_HANDLE.
  destruct (Z.eqb_spec h 0); [lia|reflexivity].
Qed.

Lemma dom_replaced {V} (h i : Z) (v : V) (m : gmap Z V) :
  dom (<[h := v]> (when_set i (delete i) m)) = {[h]} ∪ (dom m ∖ hset i).
Proof.
  unfold when_set, hset. rewrite dom_insert_L.
  destruct (is_set i); [rewrite dom_delete_L|]; set_solver.
Qed.

Lemma recreated_color_owns (this : HeadlessAppVK) (idx : Z) :
  targets_own this -> targets_own (recreated_color this idx).
Proof.
  unfold targets_own, recreated_color, replaced_target.
  cbn [m_device m_colorImage m_colorMemory m_colorView m_depthImage
       m_depthMemory m_depthView set_colorView set_colorMemory set_colorImage
       set_device next_handle images memories views].
  generalize (next_handle (m_device this)) as h.
  intros h (Hi & Hm & Hv & Di & Dm & Dv & Hlt & Hpos).
  rewrite !dom_replaced, Hi, Hm, Hv.
  rewrite (hset_positive h), (hset_positive (h + 1)),
    (hset_positive (h + 2)) by lia.
  assert (Hold : forall k, k ∈ hset (m_colorImage this) ∪ hset (m_depthImage this)
             ∪ (hset (m_colorMemory this) ∪ hset (m_depthMemory this))
             ∪ (hset (m_colorView this) ∪ hset (m_depthView this)) -> k < h).
  { intros k Hk. apply Hlt. rewrite Hi, Hm, Hv. exact Hk. }
  repeat split.
  - set_solver.
  - set_solver.
  - set_solver.
  - intros k Hk1 Hk2. apply elem_of_singleton in Hk1 as ->.
    specialize (Hold h). assert (h < h) by (apply Hold; set_solver). lia.
  - intros k Hk1 Hk2. apply elem_of_singleton in Hk1 as ->.
    specialize (Hold (h + 1)).
    assert (h + 1 < h) by (apply Hold; set_solver). lia.
  - intros k Hk1 Hk2. apply elem_of_singleton in Hk1 as ->.
    specialize (Hold (h + 2)).
    assert (h + 2 < h) by (apply Hold; set_solver). lia.
  - intros k Hk.
    assert (k = h \/ k = h + 1 \/ k = h + 2 \/ k < h) as Hc.
    { set_unfold in Hk. destruct Hk as [[[->|[Hk _]]|[->|[Hk _]]]|[->|[Hk _]]];
        auto; right; right; right; apply Hold; set_solver. }
    lia.
  - lia.
Qed.

Lemma recreated_depth_owns (this : HeadlessAppVK) (idx : Z) :
  targets_own this -> targets_own (recreated_depth this idx).
Proof.
  unfold targets_own, recreated_depth, replaced_target.
  cbn [m_device m_colorImage m_colorMemory m_colorView m_depthImage
       m_depthMemory m_depthView set_depthView set_depthMemory set_depthImage
       set_device next_handle images memories views].
  generalize (next_handle (m_device this)) as h.
  intros h (Hi & Hm & Hv & Di & Dm & Dv & Hlt & Hpos).
  rewrite !dom_replaced, Hi, Hm, Hv.
  rewrite (hset_positive h), (hset_positive (h + 1)),
    (hset_positive (h + 2)) by lia.
  assert (Hold : forall k, k ∈ hset (m_colorImage this) ∪ hset (m_depthImage this)
             ∪ (hset (m_colorMemory this) ∪ hset (m_depthMemory this))
             ∪ (hset (m_colorView this) ∪ hset (m_depthView this)) -> k < h).
  { intros k Hk. apply Hlt. rewrite Hi, Hm, Hv. exact Hk. }
  repeat split.
  - set_solver.
  - set_solver.
  - set_solver.
  - intros k Hk1 Hk2. apply elem_of_singleton in Hk2 as ->.
    specialize (Hold h). assert (h < h) by (apply Hold; set_solver). lia.
  - intros k Hk1 Hk2. apply elem_of_singleton in Hk2 as ->.
    specialize (Hold (h + 1)).
    assert (h + 1 < h) by (apply Hold; set_solver). lia.
  - intros k Hk1 Hk2. apply elem_of_singleton in Hk2 as ->.
    specialize (Hold (h + 2)).
    assert (h + 2 < h) by (apply Hold; set_solver). lia.
  - intros k Hk.
    assert (k = h \/ k = h + 1 \/ k = h + 2 \/ k < h) as Hc.
    { set_unfold in Hk. destruct Hk as [[[->|[Hk _]]|[->|[Hk _]]]|[->|[Hk _]]];
        auto; right; right; right; apply Hold; set_solver. }
    lia.
  - lia.
Qed.

Lemma replaced_target_valid (d : VkDevice) (img mem view : Z)
    (image_info : VkImageCreateInfo) (alloc : VkMemoryAllocateInfo)
    (view_info : VkImageViewCreateInfo) :
  0 < next_handle d -> image view_info = next_handle d ->
  target_valid (replaced_target d img mem view image_info alloc view_info)
    (next_handle d) (next_handle d + 1) (next_handle d + 2).
Proof.
  intros Hpos Himg. unfold target_valid, replaced_target.
  cbn [images memories views].
  rewrite !is_set_positive by lia. rewrite !dom_insert_L.
  repeat split; try set_solver.
  exists view_info. split; [apply lookup_insert_eq|exact Himg].
Qed.

Lemma exec_bind {S} (m k : M S unit) (s : S) :
  exec (m ;; k) s
  = match exec m s with Ok s' => exec k s' | Err e => Err e end.
Proof.
  unfold exec, mbind, M_bind. destruct (m s) as [[[] s']|e]; reflexivity.
Qed.

(** What [n + 1] calls of [createColorBuffer] leave behind. *)
Lemma createColorBuffer_repeated (n : nat) (this : HeadlessAppVK) (idx : Z) :
  device_local_type this (colorImageInfo this) = Some idx ->
  targets_own this ->
  exists this',
    exec (repeat_call (S n) createColorBuffer) this = Ok this'
    /\ targets_own this'
    /\ target_valid (m_device this') (m_colorImage this')
         (m_colorMemory this') (m_colorView this')
    /\ (m_depthImage this', m_depthMemory this', m_depthView this')
       = (m_depthImage this, m_depthMemory this, m_depthView this).
Proof.
  revert this. induction n as [|n IH]; intros this Hidx Hown.
  - exists (recreated_color this idx).
    cbn [repeat_call]. rewrite exec_bind, (createColorBuffer_run _ _ Hidx).
    split; [reflexivity|]. split; [now apply recreated_color_owns|].
    split; [|reflexivity].
    apply replaced_target_valid; [apply Hown|reflexivity].
  - destruct (IH (recreated_color this idx)) as (this' & He & Ho & Hv & Hd).
    + exact Hidx.
    + now apply recreated_color_owns.
    + exists this'. split; [|auto].
      change (repeat_call (S (S n)) createColorBuffer)
        with (createColorBuffer ;; repeat_call (S n) createColorBuffer).
      rewrite exec_bind, (createColorBuffer_run _ _ Hidx). exact He.
Qed.

Lemma createDepthBuffer_repeated (n : nat) (this : HeadlessAppVK) (idx : Z) :
  device_local_type this (depthImageInfo this) = Some idx ->
  targets_own this ->
  exists this',
    exec (repeat_call (S n) createDepthBuffer) this = Ok this'
    /\ targets_own this'
    /\ target_valid (m_device this') (m_depthImage this')
         (m_depthMemory this') (m_depthView this')
    /\ (m_colorImage this', m_colorMemory this', m_colorView this')
       = (m_colorImage this, m_colorMemory this, m_colorView this).
Proof.
  revert this. induction n as [|n IH]; intros this Hidx Hown.
  - exists (recreated_depth this idx).
    cbn [repeat_call]. rewrite exec_bind, (createDepthBuffer_run _ _ Hidx).
    split; [reflexivity|]. split; [now apply recreated_depth_owns|].
    split; [|reflexivity].
    apply replaced_target_valid; [apply Hown|reflexivity].
  - destruct (IH (recreated_depth this idx)) as (this' & He & Ho & Hv & Hd).
    + exact Hidx.
    + now apply recreated_depth_owns.
    + exists this'. split; [|auto].
      change (repeat_call (S (S n)) createDepthBuffer)
        with (createDepthBuffer ;; repeat_call (S n) createDepthBuffer).
      rewrite exec_bind, (createDepthBuffer_run _ _ Hidx). exact He.
Qed.

Lemma example_app_owns : targets_own example_app.
Proof.
  unfold targets_own. cbv zeta.
  change (images (m_device example_app)) with (∅ : gmap Z VkImageCreateInfo).
  change (memories (m_device example_app))
    with (∅ : gmap Z VkMemoryAllocateInfo).
  change (views (m_device example_app))
    with (∅ : gmap Z VkImageViewCreateInfo).
  change (next_handle (m_device example_app)) with 3.
  change (hset (m_colorImage example_app)) with (∅ : gset Z).
  change (hset (m_colorMemory example_app)) with (∅ : gset Z).
  change (hset (m_colorView example_app)) with (∅ : gset Z).
  change (hset (m_depthImage example_app)) with (∅ : gset Z).
  change (hset (m_depthMemory example_app)) with (∅ : gset Z).
  change (hset (m_depthView example_app)) with (∅ : gset Z).
  rewrite !dom_empty_L. repeat split; try set_solver; lia.
Qed.

Lemma example_app_device_local :
  device_local_type example_app (colorImageInfo example_app) = Some 1
  /\ device_local_type example_app (depthImageInfo example_app) = Some 1.
Proof. split; reflexivity. Qed.

(** C3.  Starting where the device's images, memories and views are the ones
    the two targets hold, and with a device-local memory type on offer, [N]
    calls in a row ([N >= 1]) of [createColorBuffer] (and likewise of
    [createDepthBuffer]) return normally and leave exactly one image, one
    memory and one view of that target alive, next to the untouched ones of
    the other target; the three handles are set and valid.  A single call
    begins by destroying the old view, then the old image, then the old
    memory, each only when its handle is set, and then makes its four
    creation calls. *)
Theorem recreation_keeps_one_triple (N : nat) (this : HeadlessAppVK) :
  (1 <= N)%nat ->
  targets_own this ->
  (is_Some (device_local_type this (colorImageInfo this)) ->
   exists this',
     exec (repeat_call N createColorBuffer) this = Ok this'
     /\ dom (images (m_device this'))
        = {[m_colorImage this']} ∪ hset (m_depthImage this)
     /\ dom (memories (m_device this'))
        = {[m_colorMemory this']} ∪ hset (m_depthMemory this)
     /\ dom (views (m_device this'))
        = {[m_colorView this']} ∪ hset (m_depthView this)
     /\ target_valid (m_device this') (m_colorImage this')
          (m_colorMemory this') (m_colorView this')
     /\ targets_own this')
  /\ (is_Some (device_local_type this (depthImageInfo this)) ->
      exists this',
        exec (repeat_call N createDepthBuffer) this = Ok this'
        /\ dom (images (m_device this'))
           = hset (m_colorImage this) ∪ {[m_depthImage this']}
        /\ dom (memories (m_device this'))
           = hset (m_colorMemory this) ∪ {[m_depthMemory this']}
        /\ dom (views (m_device this'))
           = hset (m_colorView this) ∪ {[m_depthView this']}
        /\ target_valid (m_device this') (m_depthImage this')
             (m_depthMemory this') (m_depthView this')
        /\ targets_own this')
  /\ (forall this', exec createColorBuffer this = Ok this' ->
      exists alloc view_info,
        calls (m_device this')
        = calls (m_device this)
          ++ destroy_calls (m_colorView this) (m_colorImage this)
               (m_colorMemory this)
          ++ create_calls (next_handle (m_device this)) (colorImageInfo this)
               alloc view_info)
  /\ (forall this', exec createDepthBuffer this = Ok this' ->
      exists alloc view_info,
        calls (m_device this')
        = calls (m_device this)
          ++ destroy_calls (m_depthView this) (m_depthImage this)
               (m_depthMemory this)
          ++ create_calls (next_handle (m_device this)) (depthImageInfo this)
               alloc view_info).
Proof.
  intros HN Hown. destruct N as [|n]; [lia|]. repeat split.
  - intros [idx Hidx].
    destruct (createColorBuffer_repeated n this idx Hidx Hown)
      as (this' & He & Ho & Hv & Hd).
    exists this'. split; [exact He|].
    pose proof Ho as (Hi & Hm & Hvw & _).
    pose proof Hv as (Si & Sm & Sv & _).
    injection Hd as Hd1 Hd2 Hd3.
    unfold hset in Hi, Hm, Hvw. rewrite Si in Hi. rewrite Sm in Hm.
    rewrite Sv in Hvw. rewrite Hd1 in Hi. rewrite Hd2 in Hm. rewrite Hd3 in Hvw.
    auto 10.
  - intros [idx Hidx].
    destruct (createDepthBuffer_repeated n this idx Hidx Hown)
      as (this' & He & Ho & Hv & Hd).
    exists this'. split; [exact He|].
    pose proof Ho as (Hi & Hm & Hvw & _).
    pose proof Hv as (Si & Sm & Sv & _).
    injection Hd as Hd1 Hd2 Hd3.
    unfold hset in Hi, Hm, Hvw. rewrite Si in Hi. rewrite Sm in Hm.
    rewrite Sv in Hvw. rewrite Hd1 in Hi. rewrite Hd2 in Hm. rewrite Hd3 in Hvw.
    auto 10.
  - intros this' He.
    destruct (device_local_type this (colorImageInfo this)) as [idx|] eqn:E.
    + rewrite (createColorBuffer_run _ _ E) in He. injection He as <-.
      eexists _, _. reflexivity.
    + rewrite (createColorBuffer_abort _ E) in He. discriminate.
  - intros this' He.
    destruct (device_local_type this (depthImageInfo this)) as [idx|] eqn:E.
    + rewrite (createDepthBuffer_run _ _ E) in He. injection He as <-.
      eexists _, _. reflexivity.
    + rewrite (createDepthBuffer_abort _ E) in He. discriminate.
Qed.

(** C3, at three calls on the example harness. *)
Lemma recreation_keeps_one_triple_witness :
  (1 <= 3)%nat /\ targets_own example_app
  /\ is_Some (device_local_type example_app (colorImageInfo example_app))
  /\ exists this',
       exec (repeat_call 3 createColorBuffer) example_app = Ok this'
       /\ dom (images (m_device this')) = {[m_colorImage this']}
       /\ dom (memories (m_device this')) = {[m_colorMemory this']}
       /\ dom (views (m_device this')) = {[m_colorView this']}.
Proof.
  split; [lia|]. split; [exact example_app_owns|].
  split; [exists 1; apply example_app_device_local|].
  destruct (recreation_keeps_one_triple 3 example_app) as (Hc & _);
    [lia|exact example_app_owns|].
  destruct Hc as (this' & He & Hi & Hm & Hv & _);
    [exists 1; apply example_app_device_local|].
  exists this'. split; [exact He|].
  change (hset (m_depthImage example_app)) with (∅ : gset Z) in Hi.
  change (hset (m_depthMemory example_app)) with (∅ : gset Z) in Hm.
  change (hset (m_depthView example_app)) with (∅ : gset Z) in Hv.
  rewrite Hi, Hm, Hv. rewrite !union_empty_r_L. auto.
Defined.

(** ** The aspect mask of the depth view *)

(** C9.  For every depth format, the view [createDepthBuffer] creates has the
    depth aspect in its aspect mask, and the stencil aspect exactly when the
    format is numerically at least [VK_FORMAT_D16_UNORM_S8_UINT]; no property
    of the format other than its number enters. *)
Theorem depth_view_stencil_by_format_order (this this' : HeadlessAppVK) :
  exec createDepthBuffer this = Ok this' ->
  exists info,
    views (m_device this') !! m_depthView this' = Some info
    /\ last (calls (m_device this'))
       = Some (CreateImageView info (m_depthView this'))
    /\ viewFormat info = m_depthFormat this
    /\ has_all (aspectMask info) VK_IMAGE_ASPECT_DEPTH_BIT = true
    /\ (has_all (aspectMask info) VK_IMAGE_ASPECT_STENCIL_BIT = true
        <-> VK_FORMAT_D16_UNORM_S8_UINT <= m_depthFormat this).
Proof.
  intros He.
  destruct (device_local_type this (depthImageInfo this)) as [idx|] eqn:E.
  2:{ rewrite (createDepthBuffer_abort _ E) in He. discriminate. }
  rewrite (createDepthBuffer_run _ _ E) in He. injection He as <-.
  exists (depthViewInfo (set_depthImage (next_handle (m_device this)) this)).
  unfold recreated_depth, replaced_target, create_calls.
  cbn [m_device m_depthView set_depthView set_depthMemory set_depthImage
       set_device views calls].
  split; [apply lookup_insert_eq|]. split.
  { rewrite !app_assoc.
    change [?a; ?b; ?c; ?d] with ([a; b; c] ++ [d]).
    rewrite app_assoc. apply last_snoc. }
  split; [reflexivity|].
  unfold depthViewInfo. cbn [aspectMask m_depthFormat set_depthImage].
  destruct (Z.leb_spec VK_FORMAT_D16_UNORM_S8_UINT (m_depthFormat this)).
  - split; [reflexivity|]. split; [auto|reflexivity].
  - split; [reflexivity|]. split; [discriminate|lia].
Qed.

(** C9, on the example harness, whose depth format is D32_SFLOAT_S8_UINT. *)
Lemma depth_view_stencil_by_format_order_witness :
  exists this' info,
    exec createDepthBuffer example_app = Ok this'
    /\ views (m_device this') !! m_depthView this' = Some info
    /\ aspectMask info
       = Z.lor VK_IMAGE_ASPECT_DEPTH_BIT VK_IMAGE_ASPECT_STENCIL_BIT.
Proof.
  exists (recreated_depth example_app 1).
  assert (He : exec createDepthBuffer example_app
               = Ok (recreated_depth example_app 1))
    by (apply createDepthBuffer_run, example_app_device_local).
  destruct (depth_view_stencil_by_format_order _ _ He)
    as (info & Hl & _ & Hf & Hd & Hs).
  exists info. split; [exact He|]. split; [exact Hl|].
  unfold recreated_depth, replaced_target in Hl.
  cbn [m_device m_depthView set_depthView set_depthMemory set_depthImage
       set_device views] in Hl.
  rewrite lookup_insert_eq in Hl. injection Hl as <-. reflexivity.
Defined.

End RenderTargets.



(** ** Submission *)

Section Submission.

(** C8.  For every command buffer, [submitWork] takes the device's next
    unused handle as a new fence, submits that one buffer to [m_queue] with
    the fence, waits on the fence with timeout [UINT64_MAX], and destroys the
    fence; nothing else is called and the object is otherwise unchanged.  On
    return nothing is pending on the queue, the buffer is among the finished
    ones, and the fence is gone. *)
Theorem submitWork_is_synchronous (this : HeadlessAppVK) (cmdBuffer : Z) :
  let d := m_device this in
  let fence := next_handle d in
  exists d',
    exec (submitWork cmdBuffer) this = Ok (set_device d' this)
    /\ calls d'
       = calls d ++ [CreateFence fence;
                     QueueSubmit (m_queue this) [cmdBuffer] fence;
                     WaitForFences [fence] VK_TRUE UINT64_MAX;
                     DestroyFence fence]
    /\ pending d' = []
    /\ completed d' = completed d ++ pending d ++ [cmdBuffer]
    /\ fences d' = fences d ∖ {[fence]}
    /\ (fence ∉ fences d')
    /\ next_handle d' = fence + 1
    /\ (images d', memories d', views d', cmdbufs d')
       = (images d, memories d, views d, cmdbufs d).
Proof.
  destruct this as [i0 d p q g c ci cm cv di dm dv sz pc cf df].
  destruct d as [h im me vw fe cb pe co ca].
  cbv zeta. unfold submitWork. run_all.
  change (UINT64_MAX =? UINT64_MAX) with true. cbv iota. run_all.
  eexists. split; [reflexivity|]. cbn [calls pending completed fences
    next_handle images memories views cmdbufs].
  tidy. repeat split; try reflexivity; set_solver.
Qed.

Lemma recording_run (commands : list string) (cmd : Z) (this : HeadlessAppVK) :
  recording commands cmd this
  = Ok (tt, set_device
              (append_calls (map (CmdRecorded cmd) commands) (m_device this))
              this).
Proof.
  revert this. induction commands as [|k rest IH]; intros this.
  - destruct this as [i0 d p q g c ci cm cv di dm dv sz pc cf df].
    destruct d as [h im me vw fe cb pe co ca].
    cbn [recording map]. unfold append_calls. run_all.
    now rewrite app_nil_r.
  - cbn [recording map]. run. rewrite IH.
    destruct this as [i0 d p q g c ci cm cv di dm dv sz pc cf df].
    destruct d as [h im me vw fe cb pe co ca].
    unfold append_calls. run_all. now rewrite <- app_assoc.
Qed.

(** What the pair [createTempCmdBuffer], [submitTempCmdBuffer] does around a
    recording. *)
Lemma tempCmdBufferOperation_run (this : HeadlessAppVK)
    (commands : list string) :
  let d := m_device this in
  let cmd := next_handle d in
  tempCmdBufferOperation (recording commands) this
  = Ok (cmd,
        set_device
          {| next_handle := cmd + 1; images := images d;
             memories := memories d; views := views d; fences := fences d;
             cmdbufs := ({[cmd]} ∪ cmdbufs d) ∖ {[cmd]};
             pending := []; completed := completed d ++ pending d ++ [cmd];
             calls := calls d
                      ++ one_shot_calls (m_cmdPool this) (m_queue this) cmd
                           commands |}
          this).
Proof.
  cbv zeta. unfold tempCmdBufferOperation, createTempCmdBuffer.
  destruct this as [i0 d p q g c ci cm cv di dm dv sz pc cf df].
  destruct d as [h im me vw fe cb pe co ca]. run_all.
  rewrite recording_run. unfold submitTempCmdBuffer, append_calls. run_all.
  unfold one_shot_calls. tidy. reflexivity.
Qed.

(** C4, as amended.  A one-shot operation through [createTempCmdBuffer] and
    [submitTempCmdBuffer] allocates the buffer, begins it, takes the
    caller's recording, ends it, submits it to [m_queue] with no fence, blocks
    in [vkQueueWaitIdle] on that queue and frees the buffer; no fence is
    created, waited on or destroyed.  On return nothing is pending and the
    buffer has run. *)
Theorem temp_buffer_waits_on_queue (this : HeadlessAppVK)
    (commands : list string) :
  let d := m_device this in
  exists cmd d',
    tempCmdBufferOperation (recording commands) this
    = Ok (cmd, set_device d' this)
    /\ calls d'
       = calls d ++ one_shot_calls (m_cmdPool this) (m_queue this) cmd commands
    /\ one_shot_calls (m_cmdPool this) (m_queue this) cmd commands
       = [AllocateCommandBuffers (m_cmdPool this)
            VK_COMMAND_BUFFER_LEVEL_PRIMARY cmd;
          BeginCommandBuffer cmd 0]
         ++ map (CmdRecorded cmd) commands
         ++ [EndCommandBuffer cmd;
             QueueSubmit (m_queue this) [cmd] VK_NULL_HANDLE;
             QueueWaitIdle (m_queue this);
             FreeCommandBuffers (m_cmdPool this) cmd]
    /\ existsb is_fence_call
         (one_shot_calls (m_cmdPool this) (m_queue this) cmd commands) = false
    /\ pending d' = []
    /\ completed d' = completed d ++ pending d ++ [cmd]
    /\ (cmd ∉ cmdbufs d')
    /\ fences d' = fences d.
Proof.
  cbv zeta. eexists _, _. rewrite tempCmdBufferOperation_run.
  split; [reflexivity|]. cbn [calls pending completed cmdbufs fences].
  repeat split; try reflexivity.
  - unfold one_shot_calls. cbn [app existsb is_fence_call orb].
    induction commands as [|k rest IH]; [reflexivity|exact IH].
  - set_solver.
Qed.

(** C4, counterexample.  On the example harness, a one-shot operation that
    records one copy returns normally, and its calls are not the fenced
    sequence, whatever the fence: no fence call is among them. *)
Lemma temp_buffer_creates_no_fence :
  exists cmd this',
    tempCmdBufferOperation (recording ["vkCmdCopyImage"%string]) example_app
    = Ok (cmd, this')
    /\ (forall fence,
          calls (m_device this')
          <> calls (m_device example_app)
             ++ fenced_one_shot_calls (m_cmdPool example_app)
                  (m_queue example_app) cmd fence ["vkCmdCopyImage"%string])
    /\ existsb is_fence_call (calls (m_device this')) = false.
Proof.
  eexists _, _. rewrite tempCmdBufferOperation_run.
  split; [reflexivity|]. split.
  - intros fence. vm_compute. intros H. discriminate H.
  - vm_compute. reflexivity.
Qed.

End Submission.

(** ** The renderer switch *)

Section RendererSwitch.

Lemma example_sample_ready :
  renderers_ready example_sample /\ active_only example_sample
  /\ m_rndMethod example_sample = eNone.
Proof.
  split; [|split].
  - exists {| constructed := false |}, {| constructed := false |}.
    vm_compute. reflexivity.
  - intros i r. change (m_pRender example_sample)
      with [Some {| constructed := false |}; Some {| constructed := false |}].
    change (m_rndMethod example_sample) with eNone.
    destruct i as [|[|i]]; cbn; intros H; try discriminate;
      injection H as <-; cbn; split; intros; (discriminate || lia).
  - reflexivity.
Qed.

Lemma ready_active_cases (st : SampleExample) :
  renderers_ready st -> active_only st ->
  m_pRender st
  = [Some {| constructed :=
               bool_decide (m_rndMethod st = eRtxPipeline) |};
     Some {| constructed := bool_decide (m_rndMethod st = eRayQuery) |}].
Proof.
  intros (r0 & r1 & Hr) Ha. unfold active_only in Ha. rewrite Hr in *.
  pose proof (Ha 0%nat r0 eq_refl) as H0.
  pose proof (Ha 1%nat r1 eq_refl) as H1.
  destruct r0 as [b0], r1 as [b1]. cbn [constructed] in H0, H1.
  destruct (m_rndMethod st); cbn in H0, H1 |- *;
    destruct b0, b1; try reflexivity; exfalso;
    first [ (assert (0 = 0) as E by lia; apply H0 in E; discriminate E)
          | (assert (1 = 1) as E by lia; apply H1 in E; discriminate E)
          | (assert (true = true) as E by reflexivity;
             first [apply H0 in E | apply H1 in E]; lia) ].
Qed.

(** C1, as amended.  For every current selection and every requested method
    that is a real backend or equals the current selection: when the two are
    the same [createRender] does nothing at all; otherwise, when a backend is
    active it waits for the device to be idle and then destroys that backend
    (both steps skipped together when the selection is [eNone]), then stores
    the requested method and only then creates the backend of that slot.
    After every call of the sequence at most one backend is constructed. *)
Theorem createRender_switches_one_backend (st : SampleExample)
    (method : RndMethod) :
  renderers_ready st -> active_only st ->
  method <> eNone \/ method = m_rndMethod st ->
  exists st',
    exec (createRender method) st = Ok st'
    /\ (method = m_rndMethod st -> st' = st)
    /\ calls (m_device (base st'))
       = calls (m_device (base st)) ++ switch_calls (m_rndMethod st) method
    /\ m_rndMethod st' = method
    /\ m_pRender st'
       = fold_left (fun rs c => apply_call c rs)
           (switch_calls (m_rndMethod st) method) (m_pRender st)
    /\ Forall (fun n => (n <= 1)%nat)
         (constructed_after (m_pRender st)
            (switch_calls (m_rndMethod st) method))
    /\ renderers_ready st' /\ active_only st'.
Proof.
  intros Hr Ha Hm. pose proof (ready_active_cases st Hr Ha) as Hp.
  destruct st as [b rs cur reg rtx mf ds dl lg].
  cbn [m_pRender m_rndMethod base] in *. subst rs.
  destruct b as [i0 d p q g c ci cm cv di dm dv sz pc cf df].
  destruct d as [h im me vw fe cb pe co ca].
  assert (Hact : forall m d' lg', active_only
            {| base := {| m_instance := i0; m_device := d';
                          m_physicalDevice := p; m_queue := q;
                          m_graphicsQueueIndex := g; m_cmdPool := c;
                          m_colorImage := ci; m_colorMemory := cm;
                          m_colorView := cv; m_depthImage := di;
                          m_depthMemory := dm; m_depthView := dv;
                          m_size := sz; m_pipelineCache := pc;
                          m_colorFormat := cf; m_depthFormat := df |};
               m_pRender :=
                 [Some {| constructed := bool_decide (m = eRtxPipeline) |};
                  Some {| constructed := bool_decide (m = eRayQuery) |}];
               m_rndMethod := m; m_renderRegion := reg; m_rtxState := rtx;
               m_maxFrames := mf; m_descaling := ds; m_descalingLevel := dl;
               log := lg' |}).
  { intros m d' lg' i r. cbn [m_pRender m_rndMethod].
    destruct i as [|[|i]]; cbn; intros H; try discriminate;
      injection H as <-; destruct m; cbn; split; intros;
      (discriminate || lia || reflexivity). }
  destruct cur, method; try (destruct Hm as [Hm|Hm]; congruence).
  all: eexists; split; [cbv -[app]; reflexivity|].
  all: split; [intros E; try discriminate E; reflexivity|].
  all: split;
    [cbv -[app]; rewrite <- ?app_assoc, ?app_nil_r; reflexivity|].
  all: split; [reflexivity|].
  all: split; [vm_compute; reflexivity|].
  all: split; [vm_compute; repeat constructor|].
  all: split; [eexists _, _; reflexivity|].
  all: try exact Ha.
  all: first [apply (Hact eRtxPipeline) | apply (Hact eRayQuery)].
Qed.

Lemma example_sample_rtx_ready :
  renderers_ready example_sample_rtx /\ active_only example_sample_rtx
  /\ m_rndMethod example_sample_rtx = eRtxPipeline.
Proof.
  split; [|split].
  - exists {| constructed := true |}, {| constructed := false |}.
    vm_compute. reflexivity.
  - intros i r. change (m_pRender example_sample_rtx)
      with [Some {| constructed := true |}; Some {| constructed := false |}].
    change (m_rndMethod example_sample_rtx) with eRtxPipeline.
    destruct i as [|[|i]]; cbn; intros H; try discriminate;
      injection H as <-; cbn; split; intros; (discriminate || lia).
  - reflexivity.
Qed.

(** C1, on the example sample with the pipeline backend active, switching to
    the ray-query backend. *)
Lemma createRender_switches_one_backend_witness :
  renderers_ready example_sample_rtx /\ active_only example_sample_rtx
  /\ (eRayQuery <> eNone \/ eRayQuery = m_rndMethod example_sample_rtx)
  /\ exists st',
       exec (createRender eRayQuery) example_sample_rtx = Ok st'
       /\ calls (m_device (base st'))
          = calls (m_device (base example_sample_rtx))
            ++ [DeviceWaitIdle; RendererDestroy 0; RendererCreate 1]
       /\ m_rndMethod st' = eRayQuery.
Proof.
  destruct example_sample_rtx_ready as (Hr & Ha & Hm).
  split; [exact Hr|]. split; [exact Ha|].
  split; [left; discriminate|].
  destruct (createRender_switches_one_backend example_sample_rtx eRayQuery
              Hr Ha (or_introl (fun E => eq_ind eRayQuery
                 (fun m => match m with eNone => False | _ => True end)
                 I eNone E)))
    as (st' & He & _ & Hc & Hs & _).
  exists st'. split; [exact He|]. split; [|exact Hs].
  rewrite Hc, Hm. reflexivity.
Defined.

(** C1, counterexample.  From "none selected" the switch to the pipeline
    backend makes one call, the creation, with no wait for the device before
    it: not the described sequence.  And a request for [eNone] while a
    backend is active does not end in a creation at all: slot 2 is past the
    end of the array. *)
Lemma createRender_not_as_described :
  (exists st',
     exec (createRender eRtxPipeline) example_sample = Ok st'
     /\ calls (m_device (base st'))
        = calls (m_device (base example_sample)) ++ [RendererCreate 0]
     /\ calls (m_device (base st'))
        <> calls (m_device (base example_sample))
           ++ described_switch_calls (m_rndMethod example_sample) eRtxPipeline)
  /\ exec (createRender eNone) example_sample_rtx = Err (OutOfBounds 2 2).
Proof.
  split.
  - exists example_sample_rtx. split; [vm_compute; reflexivity|].
    split; [vm_compute; reflexivity|]. vm_compute. intros H. discriminate H.
  - vm_compute. reflexivity.
Qed.

(** C10.  The backend array has the two slots 0 and 1, one per real method,
    and [eNone] has the value 2, the size of the array: a method indexes
    inside the array exactly when it is not [eNone].  With both backends in
    place, every request for a real backend is served; a request for [eNone]
    while another selection is active runs into slot 2, past the end; and so
    does [renderScene] when the active selection is [eNone] and the frame
    counter has not reached [m_maxFrames], while with a real backend active
    it returns normally. *)
Theorem pRender_in_bounds_iff_real_backend (st : SampleExample)
    (cmdBuf : Z) :
  renderers_ready st ->
  frame (m_rtxState st) < m_maxFrames st ->
  (m_descaling st = true -> to_u32 (m_descalingLevel st) <> 0) ->
  Z.of_nat (length (m_pRender st)) = RndMethod_value eNone
  /\ (forall m, is_Some (m_pRender st !! Z.to_nat (RndMethod_value m))
                <-> m <> eNone)
  /\ (forall m, m <> eNone -> exists st', exec (createRender m) st = Ok st')
  /\ (m_rndMethod st <> eNone ->
      exec (createRender eNone) st = Err (OutOfBounds 2 2))
  /\ (m_rndMethod st <> eNone ->
      exists st', exec (renderScene cmdBuf) st = Ok st')
  /\ (m_rndMethod st = eNone ->
      exec (renderScene cmdBuf) st = Err (OutOfBounds 2 2)).
Proof.
  intros (r0 & r1 & Hr) Hf Hd.
  destruct st as [b rs cur reg [fr rsz] mf ds dl lg].
  cbn [m_pRender m_rndMethod m_rtxState m_maxFrames m_descaling
       m_descalingLevel frame] in *. subst rs.
  set (rtx := {| frame := fr; rtx_size := rsz |}).
  apply Z.leb_gt in Hf.
  assert (Hscene : forall m,
    exec (renderScene cmdBuf)
      {| base := b; m_pRender := [Some r0; Some r1]; m_rndMethod := m;
         m_renderRegion := reg; m_rtxState := rtx; m_maxFrames := mf;
         m_descaling := ds; m_descalingLevel := dl; log := lg |}
    = match m with
      | eNone => Err (OutOfBounds 2 2)
      | _ => exec (renderScene cmdBuf)
               {| base := b; m_pRender := [Some r0; Some r1];
                  m_rndMethod := m; m_renderRegion := reg;
                  m_rtxState := rtx; m_maxFrames := mf; m_descaling := ds;
                  m_descalingLevel := dl; log := lg |}
      end /\ (m <> eNone -> exists st',
                exec (renderScene cmdBuf)
                  {| base := b; m_pRender := [Some r0; Some r1];
                     m_rndMethod := m; m_renderRegion := reg;
                     m_rtxState := rtx; m_maxFrames := mf;
                     m_descaling := ds; m_descalingLevel := dl; log := lg |}
                = Ok st')).
  { intros m. unfold renderScene, pRender_call, rtx. run_all. rewrite Hf.
    destruct ds.
    - apply Z.eqb_neq in Hd; [|reflexivity]. rewrite Hd.
      destruct m; run_all; cbn [RndMethod_value Z.to_nat Pos.to_nat
        Pos.iter_op Init.Nat.add lookup list_lookup length Z.of_nat
        Pos.of_succ_nat Pos.succ]; run_all;
        (split; [reflexivity|]); intros E; try congruence; eexists;
        reflexivity.
    - destruct m; run_all; cbn [RndMethod_value Z.to_nat Pos.to_nat
        Pos.iter_op Init.Nat.add lookup list_lookup length Z.of_nat
        Pos.of_succ_nat Pos.succ]; run_all;
        (split; [reflexivity|]); intros E; try congruence; eexists;
        reflexivity. }
  split; [reflexivity|]. split.
  { intros m. destruct m; cbn; split; intros H; try congruence;
      try (eexists; reflexivity); destruct H as [? H]; discriminate H. }
  split.
  { intros m Hm. destruct b as [i0 d p q g c ci cm cv di dm dv sz pc cf df].
    destruct d as [h im me vw fe cb pe co ca].
    destruct cur, m; try congruence; eexists; cbv -[app]; reflexivity. }
  split.
  { intros Hc. destruct b as [i0 d p q g c ci cm cv di dm dv sz pc cf df].
    destruct d as [h im me vw fe cb pe co ca].
    destruct cur; try congruence; cbv -[app]; reflexivity. }
  split.
  - intros Hc. apply (Hscene cur). exact Hc.
  - intros ->. apply (Hscene eNone).
Qed.

(** C10, on the example samples: [eNone] requested while the pipeline backend
    is active, and [renderScene] with nothing selected. *)
Lemma pRender_in_bounds_iff_real_backend_witness :
  renderers_ready example_sample
  /\ frame (m_rtxState example_sample) < m_maxFrames example_sample
  /\ exec (renderScene 7) example_sample = Err (OutOfBounds 2 2)
  /\ exists st', exec (createRender eRayQuery) example_sample = Ok st'.
Proof.
  split; [apply example_sample_ready|]. split; [reflexivity|].
  destruct (pRender_in_bounds_iff_real_backend example_sample 7)
    as (_ & _ & Hc & _ & _ & Hs).
  - apply example_sample_ready.
  - reflexivity.
  - intros H. discriminate H.
  - split; [apply Hs; reflexivity|]. apply Hc. discriminate.
Defined.

End RendererSwitch.


(** ** The render region *)

Section RenderRegion.

Lemma bytes_of_32_value (v : Z) :
  match bytes_of_32 v with
  | [b0; b1; b2; b3] =>
      to_u32 v = b0 + 256 * b1 + 65536 * b2 + 16777216 * b3
  | _ => False
  end.
Proof.
  unfold bytes_of_32. cbv zeta.
  assert (0 <= to_u32 v < 2 ^ 32) as Hu
    by (unfold to_u32; apply Z.mod_pos_bound; lia).
  generalize dependent (to_u32 v). intros u Hu.
  change (2 ^ 32) with 4294967296 in Hu.
  Z.div_mod_to_equations. lia.
Qed.

Lemma bytes_of_32_inj (a b : Z) :
  bytes_of_32 a = bytes_of_32 b -> to_u32 a = to_u32 b.
Proof.
  intros H. pose proof (bytes_of_32_value a) as Ha.
  pose proof (bytes_of_32_value b) as Hb. rewrite H in Ha.
  destruct (bytes_of_32 b) as [|b0 [|b1 [|b2 [|b3 [|]]]]]; try contradiction.
  congruence.
Qed.

Lemma to_u32_inj_signed (a b : Z) :
  - 2 ^ 31 <= a < 2 ^ 31 -> - 2 ^ 31 <= b < 2 ^ 31 ->
  to_u32 a = to_u32 b -> a = b.
Proof.
  unfold to_u32. change (2 ^ 31) with 2147483648.
  change (2 ^ 32) with 4294967296. intros Ha Hb H.
  Z.div_mod_to_equations. lia.
Qed.

Lemma to_u32_inj_unsigned (a b : Z) :
  0 <= a < 2 ^ 32 -> 0 <= b < 2 ^ 32 -> to_u32 a = to_u32 b -> a = b.
Proof.
  unfold to_u32. intros Ha Hb H. now rewrite !Z.mod_small in H.
Qed.

Lemma VkRect2D_bytes_inj (r s : VkRect2D) :
  rect_in_range r -> rect_in_range s ->
  VkRect2D_bytes r = VkRect2D_bytes s -> r = s.
Proof.
  intros (Hx & Hy & Hw & Hh) (Hx' & Hy' & Hw' & Hh') H.
  unfold VkRect2D_bytes in H.
  assert (Hsplit : forall a b c d a' b' c' d',
    bytes_of_32 a ++ bytes_of_32 b ++ bytes_of_32 c ++ bytes_of_32 d
    = bytes_of_32 a' ++ bytes_of_32 b' ++ bytes_of_32 c' ++ bytes_of_32 d' ->
    bytes_of_32 a = bytes_of_32 a' /\ bytes_of_32 b = bytes_of_32 b'
    /\ bytes_of_32 c = bytes_of_32 c' /\ bytes_of_32 d = bytes_of_32 d').
  { intros a b c d a' b' c' d' E. unfold bytes_of_32 in *. cbv zeta in *.
    cbn [app] in E. injection E as E1 E2 E3 E4 E5 E6 E7 E8 E9 E10 E11 E12 E13
      E14 E15 E16.
    repeat split; congruence. }
  apply Hsplit in H as (Ex & Ey & Ew & Eh).
  apply bytes_of_32_inj, to_u32_inj_signed in Ex; try assumption.
  apply bytes_of_32_inj, to_u32_inj_signed in Ey; try assumption.
  apply bytes_of_32_inj, to_u32_inj_unsigned in Ew; try assumption.
  apply bytes_of_32_inj, to_u32_inj_unsigned in Eh; try assumption.
  destruct r as [[rx ry] [rw rh]], s as [[sx sy] [sw sh]].
  cbn [x y width height offset extent] in *. congruence.
Qed.

Lemma memcmp_zero (n : nat) (a b : list Z) :
  length a = n -> length b = n -> (memcmp a b n = 0 <-> a = b).
Proof.
  revert a b. induction n as [|n IH]; intros a b Ha Hb.
  - destruct a, b; try discriminate. cbn. tauto.
  - destruct a as [|c a], b as [|d b]; try discriminate.
    cbn [memcmp]. injection Ha as Ha. injection Hb as Hb.
    destruct (Z.ltb_spec c d); [split; [discriminate|intros E; injection E; lia]|].
    destruct (Z.ltb_spec d c); [split; [discriminate|intros E; injection E; lia]|].
    rewrite (IH a b Ha Hb). assert (c = d) as -> by lia.
    split; [now intros ->|intros E; now injection E].
Qed.

Lemma VkRect2D_bytes_length (r : VkRect2D) : length (VkRect2D_bytes r) = 16%nat.
Proof. reflexivity. Qed.

(** C6.  For every current region [R] and argument [S], [setRenderRegion]
    compares the 16 bytes of the two rectangles; when they differ it sets the
    frame counter to -1, when they are the same it leaves the frame state as
    it was; either way the stored region is [S] afterwards and nothing else
    changes.  The bytes differ exactly when the rectangles do. *)
Theorem setRenderRegion_resets_iff_changed (st : SampleExample)
    (size : VkRect2D) :
  rect_in_range (m_renderRegion st) -> rect_in_range size ->
  exists st',
    exec (setRenderRegion size) st = Ok st'
    /\ m_renderRegion st' = size
    /\ (size <> m_renderRegion st -> frame (m_rtxState st') = -1)
    /\ (size = m_renderRegion st -> m_rtxState st' = m_rtxState st)
    /\ (frame (m_rtxState st') <> frame (m_rtxState st) ->
        size <> m_renderRegion st)
    /\ rtx_size (m_rtxState st') = rtx_size (m_rtxState st)
    /\ (base st', m_pRender st', m_rndMethod st', m_maxFrames st', log st')
       = (base st, m_pRender st, m_rndMethod st, m_maxFrames st, log st).
Proof.
  intros HR HS.
  pose proof (memcmp_zero 16 (VkRect2D_bytes (m_renderRegion st))
                (VkRect2D_bytes size) (VkRect2D_bytes_length _)
                (VkRect2D_bytes_length _)) as Hcmp.
  destruct st as [b rs cur reg [fr rsz] mf ds dl lg].
  cbn [m_renderRegion m_rtxState frame rtx_size base m_pRender m_rndMethod
       m_maxFrames log] in *.
  unfold setRenderRegion, resetFrame. run_all.
  destruct (memcmp (VkRect2D_bytes reg) (VkRect2D_bytes size) 16 =? 0) eqn:E;
    cbn [negb]; run_all; eexists; (split; [reflexivity|]);
    cbn [m_renderRegion m_rtxState frame rtx_size base m_pRender m_rndMethod
         m_maxFrames log].
  - apply Z.eqb_eq, Hcmp, VkRect2D_bytes_inj in E; try assumption. subst size.
    repeat split; try reflexivity; intros H; congruence.
  - apply Z.eqb_neq in E.
    assert (size <> reg) by (intros ->; apply E, Hcmp; reflexivity).
    repeat split; try reflexivity; intros H'; congruence.
Qed.

(** C6, on the example sample: the first region set after [setup] differs
    from the empty one, the second is the same again. *)
Lemma setRenderRegion_resets_iff_changed_witness :
  rect_in_range (m_renderRegion example_sample)
  /\ rect_in_range {| offset := {| x := 0; y := 0 |};
                      extent := {| width := 4; height := 2 |} |}
  /\ exists st' st'',
       exec (setRenderRegion {| offset := {| x := 0; y := 0 |};
                                extent := {| width := 4; height := 2 |} |})
            example_sample = Ok st'
       /\ frame (m_rtxState st') = -1
       /\ exec (setRenderRegion {| offset := {| x := 0; y := 0 |};
                                   extent := {| width := 4; height := 2 |} |})
               st' = Ok st''
       /\ m_renderRegion st''
          = {| offset := {| x := 0; y := 0 |};
               extent := {| width := 4; height := 2 |} |}.
Proof.
  assert (H0 : rect_in_range (m_renderRegion example_sample))
    by (vm_compute; intuition discriminate).
  assert (H1 : rect_in_range {| offset := {| x := 0; y := 0 |};
                                extent := {| width := 4; height := 2 |} |})
    by (vm_compute; intuition discriminate).
  split; [exact H0|]. split; [exact H1|].
  destruct (setRenderRegion_resets_iff_changed example_sample _ H0 H1)
    as (st' & He & Hreg & Hne & _).
  exists st'.
  assert (H2 : rect_in_range (m_renderRegion st')) by (rewrite Hreg; exact H1).
  destruct (setRenderRegion_resets_iff_changed st' _ H2 H1)
    as (st'' & He' & Hreg' & _).
  exists st''. split; [exact He|]. split; [|split; [exact He'|exact Hreg']].
  apply Hne. vm_compute. intros H. discriminate H.
Defined.

End RenderRegion.

(** ** The exported image *)

Section FrameExport.

Variable mapped : list byte.

Lemma to_u32_to_i32 (k : Z) : 0 <= k < 2 ^ 32 -> to_u32 (to_i32 k) = k.
Proof.
  unfold to_u32, to_i32. change (2 ^ 31) with 2147483648.
  change (2 ^ 32) with 4294967296. intros Hk.
  Z.div_mod_to_equations. lia.
Qed.

Lemma to_i32_succ (k : Z) : to_i32 (to_i32 k + 1) = to_i32 (k + 1).
Proof.
  unfold to_i32. change (2 ^ 31) with 2147483648.
  change (2 ^ 32) with 4294967296. Z.div_mod_to_equations. lia.
Qed.

(** A counting loop whose body does not look at the counter runs the body
    [bound - k] times from [k] on, for any fuel above that number. *)
Lemma for_i32_repeat {S} (body : M S unit) (bound : Z) (n : nat) :
  forall (k : Z) (fuel : nat),
    0 <= k -> k + Z.of_nat n = bound -> bound < 2 ^ 32 -> (n < fuel)%nat ->
    for_i32 fuel (to_i32 k) bound (fun _ => body) = repeat_call n body.
Proof.
  induction n as [|n IH]; intros k fuel Hk Hb Hlt Hf.
  - destruct fuel as [|fuel]; [lia|]. cbn [for_i32 repeat_call].
    rewrite to_u32_to_i32 by lia.
    destruct (Z.ltb_spec k bound); [lia|reflexivity].
  - destruct fuel as [|fuel]; [lia|]. cbn [for_i32 repeat_call].
    rewrite to_u32_to_i32 by lia.
    destruct (Z.ltb_spec k bound); [|lia].
    rewrite to_i32_succ, (IH (k + 1) fuel) by lia. reflexivity.
Qed.

Lemma file_write_ok (p : Z) (n : nat) (s : Dump) :
  0 <= p -> p + Z.of_nat n <= Z.of_nat (length mapped) ->
  file_write mapped p n s
  = Ok (tt, put_file (take n (drop (Z.to_nat p) mapped)) s).
Proof.
  intros H0 H1. unfold file_write.
  destruct (Z.leb_spec 0 p); [|lia].
  destruct (Z.leb_spec (p + Z.of_nat n) (Z.of_nat (length mapped))); [|lia].
  reflexivity.
Qed.

Lemma pixel_body_run (i r : Z) (f : list byte) :
  0 <= r -> r + 3 <= Z.of_nat (length mapped) ->
  pixel_body mapped {| imagedata := i; row := r; file := f |}
  = Ok (tt, {| imagedata := i; row := r + 4;
               file := f ++ pixel_bytes mapped r |}).
Proof.
  intros H0 H1. unfold pixel_body.
  cbv beta delta [mbind M_bind get modify]. cbn [row].
  rewrite file_write_ok by (cbn; lia). unfold put_file at 1. cbn [imagedata row file].
  rewrite file_write_ok by (cbn; lia). unfold put_file at 1. cbn [imagedata row file].
  rewrite file_write_ok by (cbn; lia). unfold put_file at 1. cbn [imagedata row file].
  unfold set_row, put_file, pixel_bytes. cbn [imagedata row file].
  now rewrite <- !app_assoc.
Qed.

Lemma row_run (n : nat) :
  forall (i r : Z) (f : list byte),
    0 <= r -> (n = 0%nat \/ r + 4 * Z.of_nat n <= Z.of_nat (length mapped)) ->
    repeat_call n (pixel_body mapped)
      {| imagedata := i; row := r; file := f |}
    = Ok (tt, {| imagedata := i; row := r + 4 * Z.of_nat n;
                 file := f ++ row_bytes mapped r n |}).
Proof.
  induction n as [|n IH]; intros i r f H0 H1.
  - cbn [repeat_call row_bytes]. rewrite app_nil_r.
    replace (r + 4 * Z.of_nat 0) with r by lia. reflexivity.
  - cbn [repeat_call row_bytes]. cbv beta delta [mbind M_bind].
    rewrite pixel_body_run by lia.
    change (match Ok (tt, ?s) with Ok (a, s') => ?k a s' | Err e => Err e end)
      with (k tt s).
    cbv beta. rewrite IH by lia. rewrite <- app_assoc.
    replace (r + 4 + 4 * Z.of_nat n) with (r + 4 * Z.of_nat (S n)) by lia.
    reflexivity.
Qed.

Lemma for_i32_from_zero {S} (body : M S unit) (bound : Z) :
  0 <= bound < 2 ^ 32 ->
  for_i32 (Datatypes.S (Z.to_nat bound)) 0 bound (fun _ => body)
  = repeat_call (Z.to_nat bound) body.
Proof.
  intros Hb. change 0 with (to_i32 0) at 1.
  apply for_i32_repeat; lia.
Qed.

Lemma row_body_run (w pitch p r : Z) (f : list byte) :
  0 <= w < 2 ^ 32 -> 0 <= p ->
  w = 0 \/ p + 4 * w <= Z.of_nat (length mapped) ->
  row_body mapped w pitch {| imagedata := p; row := r; file := f |}
  = Ok (tt, {| imagedata := p + pitch; row := p + 4 * w;
               file := f ++ row_bytes mapped p (Z.to_nat w) |}).
Proof.
  intros Hw Hp Hin. unfold row_body.
  rewrite for_i32_from_zero by exact Hw.
  cbv beta delta [mbind M_bind get modify set_row]. cbn [imagedata row file].
  rewrite row_run by lia.
  cbn [imagedata row file set_imagedata].
  unfold set_imagedata. cbn [imagedata row file].
  replace (4 * Z.of_nat (Z.to_nat w)) with (4 * w) by lia. reflexivity.
Qed.

Lemma image_run (w pitch : Z) (n : nat) :
  0 <= w < 2 ^ 32 -> 0 <= pitch ->
  forall (p r : Z) (f : list byte),
    0 <= p ->
    n = 0%nat \/ w = 0
    \/ p + (Z.of_nat n - 1) * pitch + 4 * w <= Z.of_nat (length mapped) ->
    exists r',
      repeat_call n (row_body mapped w pitch)
        {| imagedata := p; row := r; file := f |}
      = Ok (tt, {| imagedata := p + Z.of_nat n * pitch; row := r';
                   file := f ++ image_bytes mapped p pitch (Z.to_nat w) n |}).
Proof.
  intros Hw Hpitch. induction n as [|n IH]; intros p r f Hp Hin.
  - exists r. cbn [repeat_call image_bytes]. rewrite app_nil_r.
    replace (p + Z.of_nat 0 * pitch) with p by lia. reflexivity.
  - cbn [repeat_call image_bytes]. cbv beta delta [mbind M_bind].
    rewrite row_body_run by nia.
    destruct (IH (p + pitch) (p + 4 * w)
                (f ++ row_bytes mapped p (Z.to_nat w))) as (r' & Hr');
      [lia|nia|].
    exists r'. cbv beta iota. rewrite Hr'. rewrite <- app_assoc.
    replace (p + pitch + Z.of_nat n * pitch)
      with (p + Z.of_nat (Datatypes.S n) * pitch) by lia.
    reflexivity.
Qed.

Lemma list_byte_of_string_app (a b : string) :
  list_byte_of_string (a ++ b)
  = list_byte_of_string a ++ list_byte_of_string b.
Proof.
  unfold list_byte_of_string.
  induction a as [|c a IH]; [reflexivity|].
  change (String c a ++ b)%string with (String c (a ++ b)).
  cbn [list_ascii_of_string List.map app]. now rewrite IH.
Qed.

(** The file [dumpImage] writes, in closed form. *)
Lemma dumpImage_file_run (w h off pitch : Z) :
  0 <= w < 2 ^ 32 -> 0 <= h < 2 ^ 32 -> 0 <= pitch -> 0 <= off ->
  h = 0 \/ w = 0
  \/ off + (h - 1) * pitch + 4 * w <= Z.of_nat (length mapped) ->
  dumpImage_file {| width := w; height := h |}
    {| layoutOffset := off; rowPitch := pitch |} mapped
  = Ok (ppm_header w h
        ++ image_bytes mapped off pitch (Z.to_nat w) (Z.to_nat h)).
Proof.
  intros Hw Hh Hpitch Hoff Hin.
  unfold dumpImage_file, dumpImage_write.
  cbv beta iota zeta delta [mbind M_bind get modify file_put set_imagedata
    put_file imagedata row file width height layoutOffset rowPitch].
  match goal with
  | |- context [for_i32 ?fuel 0 ?b ?body] =>
      change (for_i32 fuel 0 b body)
        with (for_i32 fuel 0 b (fun _ : Z => row_body mapped w pitch))
  end.
  rewrite for_i32_from_zero by exact Hh.
  match goal with
  | |- context [repeat_call _ _ {| imagedata := ?p; row := ?r; file := ?f |}] =>
      destruct (image_run w pitch (Z.to_nat h) Hw Hpitch p r f)
        as (r' & Hr'); [lia|nia|]
  end.
  rewrite Hr'. cbn [file]. f_equal. f_equal.
  unfold ppm_header. rewrite !list_byte_of_string_app.
  rewrite <- !app_assoc. reflexivity.
Qed.

Lemma take_1_drop (k : nat) :
  (k < length mapped)%nat ->
  exists b, mapped !! k = Some b /\ take 1 (drop k mapped) = [b].
Proof.
  intros Hk. destruct (lookup_lt_is_Some_2 mapped k Hk) as [b Hb].
  exists b. split; [exact Hb|]. now rewrite (drop_S _ _ _ Hb).
Qed.

Lemma pixel_bytes_spec (p : Z) :
  0 <= p -> p + 3 <= Z.of_nat (length mapped) ->
  exists b0 b1 b2,
    pixel_bytes mapped p = [b2; b1; b0]
    /\ mapped !! Z.to_nat p = Some b0
    /\ mapped !! Z.to_nat (p + 1) = Some b1
    /\ mapped !! Z.to_nat (p + 2) = Some b2.
Proof.
  intros H0 H1. unfold pixel_bytes.
  destruct (take_1_drop (Z.to_nat p)) as (b0 & L0 & T0); [lia|].
  destruct (take_1_drop (Z.to_nat (p + 1))) as (b1 & L1 & T1); [lia|].
  destruct (take_1_drop (Z.to_nat (p + 2))) as (b2 & L2 & T2); [lia|].
  exists b0, b1, b2. rewrite T0, T1, T2. auto.
Qed.

Lemma row_bytes_length (n : nat) :
  forall p, 0 <= p ->
    n = 0%nat \/ p + 4 * Z.of_nat n <= Z.of_nat (length mapped) ->
    length (row_bytes mapped p n) = (3 * n)%nat.
Proof.
  induction n as [|n IH]; intros p Hp Hin; [reflexivity|].
  cbn [row_bytes]. rewrite length_app.
  destruct (pixel_bytes_spec p) as (b0 & b1 & b2 & -> & _); [lia|lia|].
  rewrite IH by lia. cbn [length]. lia.
Qed.

Lemma row_bytes_lookup (n : nat) :
  forall p (i c : nat), 0 <= p ->
    p + 4 * Z.of_nat n <= Z.of_nat (length mapped) ->
    (i < n)%nat -> (c < 3)%nat ->
    row_bytes mapped p n !! (3 * i + c)%nat
    = mapped !! Z.to_nat (p + 4 * Z.of_nat i + (2 - Z.of_nat c)).
Proof.
  induction n as [|n IH]; intros p i c Hp Hin Hi Hc; [lia|].
  cbn [row_bytes].
  destruct (pixel_bytes_spec p) as (b0 & b1 & b2 & E & L0 & L1 & L2);
    [lia|lia|].
  rewrite E. destruct i as [|i].
  - rewrite lookup_app_l by (cbn [length]; lia).
    replace (3 * 0 + c)%nat with c by lia.
    destruct c as [|[|[|c]]]; try lia; cbn [lookup list_lookup].
    + now replace (p + 4 * Z.of_nat 0 + (2 - Z.of_nat 0)) with (p + 2) by lia.
    + now replace (p + 4 * Z.of_nat 0 + (2 - Z.of_nat 1)) with (p + 1) by lia.
    + now replace (p + 4 * Z.of_nat 0 + (2 - Z.of_nat 2)) with p by lia.
  - rewrite lookup_app_r by (cbn [length]; lia).
    replace (3 * Datatypes.S i + c - length [b2; b1; b0])%nat
      with (3 * i + c)%nat by (cbn [length]; lia).
    rewrite IH by lia. f_equal. lia.
Qed.

Lemma image_bytes_length (w : nat) (pitch : Z) (n : nat) :
  0 <= pitch ->
  forall p, 0 <= p ->
    n = 0%nat \/ w = 0%nat
    \/ p + (Z.of_nat n - 1) * pitch + 4 * Z.of_nat w
       <= Z.of_nat (length mapped) ->
    length (image_bytes mapped p pitch w n) = (3 * w * n)%nat.
Proof.
  intros Hpitch. induction n as [|n IH]; intros p Hp Hin.
  - cbn [image_bytes length]. lia.
  - cbn [image_bytes]. rewrite length_app, row_bytes_length, IH by nia. lia.
Qed.

Lemma image_bytes_lookup (w : nat) (pitch : Z) (n : nat) :
  0 <= pitch ->
  forall p (j i : nat), 0 <= p ->
    p + (Z.of_nat n - 1) * pitch + 4 * Z.of_nat w
      <= Z.of_nat (length mapped) ->
    (j < n)%nat -> (i < 3 * w)%nat ->
    image_bytes mapped p pitch w n !! (3 * w * j + i)%nat
    = row_bytes mapped (p + Z.of_nat j * pitch) w !! i.
Proof.
  intros Hpitch. induction n as [|n IH]; intros p j i Hp Hin Hj Hi; [lia|].
  cbn [image_bytes].
  assert (length (row_bytes mapped p w) = (3 * w)%nat) as Hlen
    by (apply row_bytes_length; nia).
  destruct j as [|j].
  - rewrite lookup_app_l by lia.
    replace (3 * w * 0 + i)%nat with i by lia.
    now replace (p + Z.of_nat 0 * pitch) with p by lia.
  - rewrite lookup_app_r by nia.
    replace (3 * w * Datatypes.S j + i - length (row_bytes mapped p w))%nat
      with (3 * w * j + i)%nat by nia.
    rewrite IH by nia. f_equal. f_equal. lia.
Qed.

(** C5.  For every extent and every row pitch of at least [4 * width], with
    the mapping holding the image (the last row ends inside it), the file
    is the header "P6", width, height, "255", each followed by a line feed,
    and then exactly [width * height * 3] bytes: byte [c] of pixel [(x, y)]
    is the mapped byte at [offset + y * rowPitch + 4 * x + (2 - c)], so rows
    start at multiples of the reported pitch, each pixel gives its first
    three channels in reverse order, and no padding byte is written. *)
Theorem dumpImage_writes_packed_ppm (w h off pitch : Z) :
  0 <= w < 2 ^ 32 -> 0 <= h < 2 ^ 32 -> 4 * w <= pitch -> 0 <= off ->
  h = 0 \/ w = 0
  \/ off + (h - 1) * pitch + 4 * w <= Z.of_nat (length mapped) ->
  exists data,
    dumpImage_file {| width := w; height := h |}
      {| layoutOffset := off; rowPitch := pitch |} mapped
    = Ok (ppm_header w h ++ data)
    /\ Z.of_nat (length data) = w * h * 3
    /\ forall x y c, 0 <= x < w -> 0 <= y < h -> 0 <= c < 3 ->
         is_Some (data !! Z.to_nat ((y * w + x) * 3 + c))
         /\ data !! Z.to_nat ((y * w + x) * 3 + c)
            = mapped !! Z.to_nat (off + y * pitch + 4 * x + (2 - c)).
Proof.
  intros Hw Hh Hpitch Hoff Hin.
  exists (image_bytes mapped off pitch (Z.to_nat w) (Z.to_nat h)).
  split; [apply dumpImage_file_run; auto; lia|].
  assert (Hlen : length (image_bytes mapped off pitch (Z.to_nat w) (Z.to_nat h))
                 = (3 * Z.to_nat w * Z.to_nat h)%nat).
  { apply image_bytes_length; [lia|lia|].
    destruct Hin as [->|[->|Hin]]; [left; reflexivity|right; left; reflexivity|].
    right; right. rewrite !Z2Nat.id by lia. exact Hin. }
  split; [rewrite Hlen; nia|].
  intros x y c Hx Hy Hc.
  assert (Hbound : off + (h - 1) * pitch + 4 * w <= Z.of_nat (length mapped))
    by (destruct Hin as [->|[->|Hin]]; [lia|lia|exact Hin]).
  assert (Hidx : Z.to_nat ((y * w + x) * 3 + c)
                 = (3 * Z.to_nat w * Z.to_nat y
                    + (3 * Z.to_nat x + Z.to_nat c))%nat) by nia.
  split.
  - apply lookup_lt_is_Some_2. rewrite Hlen. nia.
  - rewrite Hidx.
    rewrite image_bytes_lookup; [|lia|lia|rewrite !Z2Nat.id by lia; exact Hbound
                                 |lia|lia].
    rewrite row_bytes_lookup; [|nia|nia|lia|lia].
    f_equal. rewrite !Z2Nat.id by lia. lia.
Qed.

End FrameExport.


(** C5, on a 1 by 2 image whose rows are 8 bytes apart in the example
    mapping: 4 bytes of padding after each pixel, none in the file. *)
Lemma dumpImage_writes_packed_ppm_witness :
  0 <= 1 < 2 ^ 32 /\ 0 <= 2 < 2 ^ 32 /\ 4 * 1 <= 8 /\ 0 <= 0
  /\ (2 = 0 \/ 1 = 0
      \/ 0 + (2 - 1) * 8 + 4 * 1 <= Z.of_nat (length example_mapping))
  /\ exists data,
       dumpImage_file {| width := 1; height := 2 |}
         {| layoutOffset := 0; rowPitch := 8 |} example_mapping
       = Ok (ppm_header 1 2 ++ data)
       /\ Z.of_nat (length data) = 1 * 2 * 3.
Proof.
  assert (H : 2 = 0 \/ 1 = 0
      \/ 0 + (2 - 1) * 8 + 4 * 1 <= Z.of_nat (length example_mapping))
    by (right; right; vm_compute; discriminate).
  split; [lia|]. split; [lia|]. split; [lia|]. split; [lia|].
  split; [exact H|].
  destruct (dumpImage_writes_packed_ppm example_mapping 1 2 0 8)
    as (data & He & Hl & _); [lia|lia|lia|lia|exact H|].
  exists data. split; [exact He|exact Hl].
Defined.

(** ** Examples *)

Example dumpImage_file_example :
  dumpImage_file {| width := 1; height := 2 |}
    {| layoutOffset := 0; rowPitch := 8 |} example_mapping
  = Ok (list_byte_of_string ("P6" ++ LF ++ "1" ++ LF ++ "2" ++ LF ++ "255"
                             ++ LF ++ "CBAKJI")).
Proof. vm_compute. reflexivity. Qed.

Example dumpImage_file_short_mapping :
  dumpImage_file {| width := 2; height := 2 |}
    {| layoutOffset := 0; rowPitch := 12 |} example_mapping
  = Err (OutOfBounds 18 16).
Proof. vm_compute. reflexivity. Qed.

Example getMemoryType_example :
  exec (i ← getMemoryType 3 VK_MEMORY_PROPERTY_DEVICE_LOCAL_BIT;
        modify (set_queue i)) example_app
  = Ok (set_queue 1 example_app).
Proof. vm_compute. reflexivity. Qed.

Example getMemoryType_masked_out :
  exec (getMemoryType 1 VK_MEMORY_PROPERTY_DEVICE_LOCAL_BIT) example_app
  = Err (Abort "Unable to find memory type 1").
Proof. vm_compute. reflexivity. Qed.

Example setup_example_depth_format :
  m_depthFormat example_app = VK_FORMAT_D32_SFLOAT_S8_UINT
  /\ m_queue example_app = 1000 /\ m_cmdPool example_app = 1
  /\ m_pipelineCache example_app = 2.
Proof. vm_compute. auto. Qed.

Example depth_view_of_block_format :
  aspectMask (depthViewInfo
                (set_depthFormat VK_FORMAT_BC1_RGB_UNORM_BLOCK example_app))
  = Z.lor VK_IMAGE_ASPECT_DEPTH_BIT VK_IMAGE_ASPECT_STENCIL_BIT
  /\ aspectMask (depthViewInfo (set_depthFormat VK_FORMAT_S8_UINT example_app))
     = VK_IMAGE_ASPECT_DEPTH_BIT.
Proof. split; reflexivity. Qed.

Example memcmp_example :
  memcmp [1; 2; 3] [1; 2; 4] 3 = -1 /\ memcmp [1; 2; 3] [1; 2; 4] 2 = 0
  /\ bytes_of_32 (-1) = [255; 255; 255; 255]
  /\ bytes_of_32 258 = [2; 1; 0; 0].
Proof. repeat split; reflexivity. Qed.

(** * Further properties *)

(** ** setup and the creation sequence *)

Section SetupSequence.

Variables (instance : Z) (device : VkDevice) (physicalDevice : VkPhysicalDevice).
Variables (graphicsQueueIndex width height colorFormat : Z).

Lemma setup_run (depthFormat : Z) (this : HeadlessAppVK) :
  exec (Headless.setup instance device physicalDevice graphicsQueueIndex
          width height colorFormat depthFormat) this
  = Ok (after_setup instance device physicalDevice graphicsQueueIndex width
          height colorFormat
          (if depthFormat =? VK_FORMAT_UNDEFINED
           then match find (qualifies physicalDevice) depth_candidates with
                | Some f => f
                | None => VK_FORMAT_UNDEFINED
                end
           else depthFormat)
          this).
Proof.
  unfold Headless.setup. run.
  destruct (depthFormat =? VK_FORMAT_UNDEFINED) eqn:E.
  - apply Z.eqb_eq in E. subst depthFormat.
    rewrite (setup_probe_find physicalDevice) by reflexivity.
    destruct device as [h im me vw fe cb pe co ca].
    destruct (find (qualifies physicalDevice) depth_candidates);
      unfold after_setup; run_all; tidy; reflexivity.
  - destruct device as [h im me vw fe cb pe co ca].
    unfold after_setup. run_all. tidy. reflexivity.
Qed.

(** X1.  A depth format handed to [setup] is stored as it is: the device is
    not asked whether it supports it.  Whatever the format, [setup] makes
    three calls (queue, command pool, pipeline cache), creates no image,
    memory or view, and leaves the target handles of the object as they
    were. *)
Theorem setup_keeps_supplied_depth_format (depthFormat : Z)
    (this : HeadlessAppVK) :
  depthFormat <> VK_FORMAT_UNDEFINED ->
  exists this',
    exec (Headless.setup instance device physicalDevice graphicsQueueIndex
            width height colorFormat depthFormat) this = Ok this'
    /\ m_depthFormat this' = depthFormat
    /\ calls (m_device this')
       = calls device
         ++ [GetDeviceQueue graphicsQueueIndex 0
               (deviceQueue physicalDevice graphicsQueueIndex 0);
             CreateCommandPool VK_COMMAND_POOL_CREATE_RESET_COMMAND_BUFFER_BIT
               (next_handle device);
             CreatePipelineCache (next_handle device + 1)]
    /\ (images (m_device this'), memories (m_device this'),
        views (m_device this'))
       = (images device, memories device, views device)
    /\ (m_colorImage this', m_colorMemory this', m_colorView this',
        m_depthImage this', m_depthMemory this', m_depthView this')
       = (m_colorImage this, m_colorMemory this, m_colorView this,
          m_depthImage this, m_depthMemory this, m_depthView this).
Proof.
  intros Hd. eexists. rewrite setup_run.
  apply Z.eqb_neq in Hd. rewrite Hd.
  split; [reflexivity|]. repeat split.
Qed.

End SetupSequence.

(** X1, with a format no device in the examples supports. *)
Lemma setup_keeps_supplied_depth_format_witness :
  VK_FORMAT_BC1_RGB_UNORM_BLOCK <> VK_FORMAT_UNDEFINED
  /\ qualifies example_gpu VK_FORMAT_BC1_RGB_UNORM_BLOCK = false
  /\ exists this',
       exec (Headless.setup 1 new_device example_gpu 0 4 2
               VK_FORMAT_B8G8R8A8_UNORM VK_FORMAT_BC1_RGB_UNORM_BLOCK)
            HeadlessAppVK_default = Ok this'
       /\ m_depthFormat this' = VK_FORMAT_BC1_RGB_UNORM_BLOCK.
Proof.
  split; [discriminate|]. split; [reflexivity|].
  destruct (setup_keeps_supplied_depth_format 1 new_device example_gpu 0 4 2
              VK_FORMAT_B8G8R8A8_UNORM VK_FORMAT_BC1_RGB_UNORM_BLOCK
              HeadlessAppVK_default) as (this' & He & Hf & _);
    [discriminate|].
  exists this'. split; [exact He|exact Hf].
Defined.

Section CreationSequence.

Lemma no_targets_own (this : HeadlessAppVK) :
  no_target_objects (m_device this) -> no_targets this -> targets_own this.
Proof.
  intros (Hi & Hm & Hv & Hpos) (H1 & H2 & H3 & H4 & H5 & H6).
  unfold targets_own. cbv zeta.
  rewrite Hi, Hm, Hv, H1, H2, H3, H4, H5, H6.
  change (hset VK_NULL_HANDLE) with (∅ : gset Z).
  rewrite !dom_empty_L. repeat split; try set_solver; lia.
Qed.

Lemma valid_is_singleton (d : VkDevice) (img mem view : Z) :
  target_valid d img mem view ->
  hset img = {[img]} /\ hset mem = {[mem]} /\ hset view = {[view]}.
Proof.
  intros (Hi & Hm & Hv & _). unfold hset. now rewrite Hi, Hm, Hv.
Qed.

Lemma lookup_replaced_other {V} (h i k : Z) (v w : V) (m : gmap Z V) :
  k <> h -> k ∉ hset i -> m !! k = Some w ->
  <[h := v]> (when_set i (delete i) m) !! k = Some w.
Proof.
  intros Hh Hi Hk. rewrite lookup_insert_ne by congruence.
  unfold when_set, hset in *. destruct (is_set i); [|exact Hk].
  rewrite lookup_delete_ne; [exact Hk|]. set_solver.
Qed.

(** Recreating the depth target leaves a valid color target valid. *)
Lemma recreated_depth_keeps_color (this : HeadlessAppVK) (idx : Z) :
  targets_own this ->
  target_valid (m_device this) (m_colorImage this) (m_colorMemory this)
    (m_colorView this) ->
  target_valid (m_device (recreated_depth this idx)) (m_colorImage this)
    (m_colorMemory this) (m_colorView this).
Proof.
  intros (Hi & Hm & Hv & Di & Dm & Dv & Hlt & Hpos) Hval.
  destruct (valid_is_singleton _ _ _ _ Hval) as (Ei & Em & Ev).
  destruct Hval as (Si & Sm & Sv & Ii & Im & info & Iv & Hinfo).
  assert (Hvd : m_colorView this ∈ dom (views (m_device this)))
    by (apply elem_of_dom; eauto).
  assert (Hn1 : m_colorImage this < next_handle (m_device this))
    by (apply Hlt; set_solver).
  assert (Hn2 : m_colorMemory this < next_handle (m_device this))
    by (apply Hlt; set_solver).
  assert (Hn3 : m_colorView this < next_handle (m_device this))
    by (apply Hlt; set_solver).
  rewrite Ei in Di. rewrite Em in Dm. rewrite Ev in Dv.
  unfold recreated_depth, replaced_target, target_valid.
  cbn [m_device set_depthView set_depthMemory set_depthImage set_device
       images memories views].
  rewrite !dom_replaced.
  split; [exact Si|]. split; [exact Sm|]. split; [exact Sv|].
  split; [set_solver|]. split; [set_solver|].
  exists info. split; [|exact Hinfo].
  apply lookup_replaced_other; [lia|set_solver|exact Iv].
Qed.

(** Recreating the color target leaves a valid depth target valid. *)
Lemma recreated_color_keeps_depth (this : HeadlessAppVK) (idx : Z) :
  targets_own this ->
  target_valid (m_device this) (m_depthImage this) (m_depthMemory this)
    (m_depthView this) ->
  target_valid (m_device (recreated_color this idx)) (m_depthImage this)
    (m_depthMemory this) (m_depthView this).
Proof.
  intros (Hi & Hm & Hv & Di & Dm & Dv & Hlt & Hpos) Hval.
  destruct (valid_is_singleton _ _ _ _ Hval) as (Ei & Em & Ev).
  destruct Hval as (Si & Sm & Sv & Ii & Im & info & Iv & Hinfo).
  assert (Hvd : m_depthView this ∈ dom (views (m_device this)))
    by (apply elem_of_dom; eauto).
  assert (Hn1 : m_depthImage this < next_handle (m_device this))
    by (apply Hlt; set_solver).
  assert (Hn2 : m_depthMemory this < next_handle (m_device this))
    by (apply Hlt; set_solver).
  assert (Hn3 : m_depthView this < next_handle (m_device this))
    by (apply Hlt; set_solver).
  rewrite Ei in Di. rewrite Em in Dm. rewrite Ev in Dv.
  unfold recreated_color, replaced_target, target_valid.
  cbn [m_device set_colorView set_colorMemory set_colorImage set_device
       images memories views].
  rewrite !dom_replaced.
  split; [exact Si|]. split; [exact Sm|]. split; [exact Sv|].
  split; [set_solver|]. split; [set_solver|].
  exists info. split; [|exact Hinfo].
  apply lookup_replaced_other; [lia|set_solver|exact Iv].
Qed.

Lemma owned_valid_doms (this : HeadlessAppVK) :
  targets_own this ->
  target_valid (m_device this) (m_colorImage this) (m_colorMemory this)
    (m_colorView this) ->
  target_valid (m_device this) (m_depthImage this) (m_depthMemory this)
    (m_depthView this) ->
  dom (images (m_device this)) = {[m_colorImage this; m_depthImage this]}
  /\ dom (memories (m_device this))
     = {[m_colorMemory this; m_depthMemory this]}
  /\ dom (views (m_device this)) = {[m_colorView this; m_depthView this]}
  /\ m_colorImage this <> m_depthImage this
  /\ m_colorMemory this <> m_depthMemory this
  /\ m_colorView this <> m_depthView this.
Proof.
  intros (Hi & Hm & Hv & Di & Dm & Dv & _) Hc Hd.
  destruct (valid_is_singleton _ _ _ _ Hc) as (Ci & Cm & Cv).
  destruct (valid_is_singleton _ _ _ _ Hd) as (Ei & Em & Ev).
  rewrite Ci, Ei in Hi, Di. rewrite Cm, Em in Hm, Dm.
  rewrite Cv, Ev in Hv, Dv.
  rewrite Hi, Hm, Hv. repeat split; set_solver.
Qed.

(** X2.  The creation sequence of the program, [setup], [createColorBuffer],
    [createDepthBuffer], on an object without targets and a device without
    images: with a device-local memory type on offer it returns normally,
    both targets are valid, and the device holds exactly two images, two
    memories and two views, the color and the depth ones, all different. *)
Theorem setup_then_both_targets (instance : Z) (device : VkDevice)
    (physicalDevice : VkPhysicalDevice)
    (graphicsQueueIndex width height colorFormat depthFormat : Z)
    (this : HeadlessAppVK) :
  no_target_objects device -> no_targets this ->
  device_local_for_all physicalDevice ->
  exists this',
    exec (Headless.setup instance device physicalDevice graphicsQueueIndex
            width height colorFormat depthFormat ;;
          createColorBuffer ;; createDepthBuffer) this = Ok this'
    /\ target_valid (m_device this') (m_colorImage this')
         (m_colorMemory this') (m_colorView this')
    /\ target_valid (m_device this') (m_depthImage this')
         (m_depthMemory this') (m_depthView this')
    /\ dom (images (m_device this'))
       = {[m_colorImage this'; m_depthImage this']}
    /\ dom (memories (m_device this'))
       = {[m_colorMemory this'; m_depthMemory this']}
    /\ dom (views (m_device this'))
       = {[m_colorView this'; m_depthView this']}
    /\ m_colorImage this' <> m_depthImage this'
    /\ m_colorMemory this' <> m_depthMemory this'
    /\ m_colorView this' <> m_depthView this'.
Proof.
  intros Hdev Hnone Hloc.
  rewrite exec_bind, setup_run.
  set (s1 := after_setup _ _ _ _ _ _ _ _ _).
  assert (Hown1 : targets_own s1).
  { apply no_targets_own.
    - destruct Hdev as (Hi & Hm & Hv & Hpos). unfold s1, after_setup.
      unfold no_target_objects.
      cbn [m_device images memories views next_handle].
      split; [exact Hi|]. split; [exact Hm|]. split; [exact Hv|]. lia.
    - exact Hnone. }
  destruct (Hloc (colorImageInfo s1)) as [idx Hidx].
  rewrite exec_bind, (createColorBuffer_run s1 idx Hidx).
  set (s2 := recreated_color s1 idx).
  assert (Hown2 : targets_own s2) by (now apply recreated_color_owns).
  assert (Hval2 : target_valid (m_device s2) (m_colorImage s2)
                    (m_colorMemory s2) (m_colorView s2))
    by (apply replaced_target_valid; [apply Hown1|reflexivity]).
  destruct (Hloc (depthImageInfo s2)) as [idx' Hidx'].
  rewrite (createDepthBuffer_run s2 idx' Hidx').
  set (s3 := recreated_depth s2 idx').
  assert (Hown3 : targets_own s3) by (now apply recreated_depth_owns).
  assert (Hval3 : target_valid (m_device s3) (m_depthImage s3)
                    (m_depthMemory s3) (m_depthView s3))
    by (apply replaced_target_valid; [apply Hown2|reflexivity]).
  assert (Hval3c : target_valid (m_device s3) (m_colorImage s3)
                     (m_colorMemory s3) (m_colorView s3))
    by (apply (recreated_depth_keeps_color s2 idx' Hown2 Hval2)).
  exists s3. split; [reflexivity|]. split; [exact Hval3c|].
  split; [exact Hval3|]. apply owned_valid_doms; assumption.
Qed.

(** X2, on the example device. *)
Lemma setup_then_both_targets_witness :
  no_target_objects new_device /\ no_targets HeadlessAppVK_default
  /\ device_local_for_all example_gpu
  /\ exists this',
       exec (Headless.setup 1 new_device example_gpu 0 4 2
               VK_FORMAT_B8G8R8A8_UNORM VK_FORMAT_UNDEFINED ;;
             createColorBuffer ;; createDepthBuffer) HeadlessAppVK_default
       = Ok this'
       /\ dom (images (m_device this'))
          = {[m_colorImage this'; m_depthImage this']}
       /\ m_colorImage this' <> m_depthImage this'.
Proof.
  assert (H1 : no_target_objects new_device)
    by (split; [reflexivity|]; split; [reflexivity|]; split; reflexivity).
  assert (H2 : no_targets HeadlessAppVK_default)
    by (repeat split; reflexivity).
  assert (H3 : device_local_for_all example_gpu)
    by (intros info; exists 1; reflexivity).
  split; [exact H1|]. split; [exact H2|]. split; [exact H3|].
  destruct (setup_then_both_targets 1 new_device example_gpu 0 4 2
              VK_FORMAT_B8G8R8A8_UNORM VK_FORMAT_UNDEFINED
              HeadlessAppVK_default H1 H2 H3)
    as (this' & He & _ & _ & Hi & _ & _ & Hne & _).
  exists this'. auto.
Defined.

Lemma device_local_type_none (this : HeadlessAppVK)
    (info : VkImageCreateInfo) :
  device_local_type this info = None
  <-> forall n,
        ~ suitable
            (memoryTypeBits
               (imageMemoryRequirements (m_physicalDevice this) info))
            VK_MEMORY_PROPERTY_DEVICE_LOCAL_BIT
            (memoryTypes (m_physicalDevice this)) n.
Proof.
  unfold device_local_type.
  pose proof (getMemoryType_loop_spec
    (memoryTypeBits (imageMemoryRequirements (m_physicalDevice this) info))
    VK_MEMORY_PROPERTY_DEVICE_LOCAL_BIT
    (memoryTypes (m_physicalDevice this)) 0) as H.
  change (Z.of_nat 0) with 0 in H.
  destruct (getMemoryType_loop _ _ 0 _) as [i|].
  - destruct H as (n & -> & (t & Ht & Hb & Hh) & _).
    split; [discriminate|]. intros Hno. exfalso. apply (Hno n).
    exists t. repeat split; auto. now apply has_all_bits.
  - split; [|reflexivity]. intros _ n (t & Ht & Hb & Hs).
    apply has_all_bits in Hs. rewrite (H n t Ht Hb) in Hs. discriminate.
Qed.


End CreationSequence.

(** ** One-shot operations in a row *)

Section OneShots.

Lemma set_device_same (this : HeadlessAppVK) :
  set_device (m_device this) this = this.
Proof. now destruct this. Qed.

Lemma set_device_twice (d d' : VkDevice) (this : HeadlessAppVK) :
  set_device d' (set_device d this) = set_device d' this.
Proof. reflexivity. Qed.

Lemma one_shot_operations_run (ops : list (list string)) :
  forall this,
    cmdbufs_below (m_device this) ->
    exec (one_shot_operations ops) this
    = Ok (set_device
            (after_one_shots (m_cmdPool this) (m_queue this) ops
               (m_device this))
            this).
Proof.
  induction ops as [|c ops IH]; intros this Hb.
  - cbn [one_shot_operations after_one_shots exec mret M_ret].
    now rewrite set_device_same.
  - cbn [one_shot_operations after_one_shots].
    unfold exec, mbind, M_bind. rewrite tempCmdBufferOperation_run.
    assert (Hc : ({[next_handle (m_device this)]} ∪ cmdbufs (m_device this))
                 ∖ {[next_handle (m_device this)]}
                 = cmdbufs (m_device this)).
    { apply set_eq. intros x. specialize (Hb x). set_unfold.
      split; [tauto|]. intros Hx. split; [tauto|]. specialize (Hb Hx). lia. }
    rewrite Hc.
    change {| next_handle := next_handle (m_device this) + 1;
              images := _; memories := _; views := _; fences := _;
              cmdbufs := _; pending := _; completed := _; calls := _ |}
      with (after_one_shot (m_cmdPool this) (m_queue this) c (m_device this)).
    specialize (IH (set_device (after_one_shot (m_cmdPool this) (m_queue this)
                                  c (m_device this)) this)).
    unfold exec in IH. rewrite IH.
    + destruct this; reflexivity.
    + intros x. destruct this; cbn [m_device set_device after_one_shot
        cmdbufs next_handle]. intros Hx. specialize (Hb x Hx).
      cbn [m_device] in Hb. lia.
Qed.

Lemma after_one_shots_props (pool queue : Z) (ops : list (list string)) :
  forall d,
    let d' := after_one_shots pool queue ops d in
    cmdbufs d' = cmdbufs d
    /\ next_handle d' = next_handle d + Z.of_nat (length ops)
    /\ completed d' ++ pending d'
       = completed d ++ pending d
         ++ map (fun i => next_handle d + Z.of_nat i) (seq 0 (length ops))
    /\ (ops <> [] -> pending d' = [])
    /\ (images d', memories d', views d', fences d')
       = (images d, memories d, views d, fences d).
Proof.
  induction ops as [|c ops IH]; intros d; cbv zeta.
  - cbn [after_one_shots length seq map Z.of_nat].
    rewrite Z.add_0_r, !app_nil_r. repeat split; auto. congruence.
  - cbn [after_one_shots].
    destruct (IH (after_one_shot pool queue c d))
      as (Hc & Hn & Hdone & Hp & Hrest).
    cbn [after_one_shot cmdbufs next_handle completed pending images
         memories views fences] in Hc, Hn, Hdone, Hrest.
    split; [exact Hc|].
    split; [rewrite Hn; cbn [length]; lia|].
    split.
    { rewrite Hdone. cbn [length seq map].
      rewrite <- !app_assoc. cbn [app]. f_equal. f_equal.
      rewrite Z.add_0_r. f_equal. rewrite <- seq_shift, map_map.
      apply map_ext. intros i. lia. }
    split; [|exact Hrest].
    intros _. destruct ops as [|c' ops']; [reflexivity|].
    apply Hp. discriminate.
Qed.

(** X4.  Any number of one-shot operations through [createTempCmdBuffer]
    and [submitTempCmdBuffer] return normally and leave the set of allocated
    command buffers as it was: each buffer is freed by its own operation.
    The buffers get consecutive new handles and have all run, in order, when
    the last operation returns; images, memories, views and fences are not
    touched. *)
Theorem one_shot_operations_free_their_buffers (ops : list (list string))
    (this : HeadlessAppVK) :
  cmdbufs_below (m_device this) ->
  exists d',
    exec (one_shot_operations ops) this = Ok (set_device d' this)
    /\ cmdbufs d' = cmdbufs (m_device this)
    /\ next_handle d'
       = next_handle (m_device this) + Z.of_nat (length ops)
    /\ completed d' ++ pending d'
       = completed (m_device this) ++ pending (m_device this)
         ++ map (fun i => next_handle (m_device this) + Z.of_nat i)
              (seq 0 (length ops))
    /\ (ops <> [] -> pending d' = [])
    /\ (images d', memories d', views d', fences d')
       = (images (m_device this), memories (m_device this),
          views (m_device this), fences (m_device this)).
Proof.
  intros Hb. eexists. split; [apply one_shot_operations_run, Hb|].
  apply after_one_shots_props.
Qed.

(** X4, three operations on the example harness. *)
Lemma one_shot_operations_free_their_buffers_witness :
  cmdbufs_below (m_device example_app)
  /\ exists d',
       exec (one_shot_operations
               [["vkCmdPipelineBarrier"%string]; [];
                ["vkCmdCopyImage"%string]]) example_app
       = Ok (set_device d' example_app)
       /\ cmdbufs d' = ∅ /\ completed d' = [3; 4; 5] /\ pending d' = [].
Proof.
  assert (Hb : cmdbufs_below (m_device example_app))
    by (intros c Hc; change (cmdbufs (m_device example_app))
          with (∅ : gset Z) in Hc; set_solver).
  split; [exact Hb|].
  destruct (one_shot_operations_free_their_buffers
              [["vkCmdPipelineBarrier"%string]; []; ["vkCmdCopyImage"%string]]
              example_app Hb) as (d' & He & Hc & _ & Hdone & Hp & _).
  exists d'. split; [exact He|]. split; [exact Hc|].
  assert (Hp' : pending d' = []) by (apply Hp; discriminate).
  split; [|exact Hp']. rewrite Hp', app_nil_r in Hdone. exact Hdone.
Defined.

End OneShots.

(** ** Rendering and switching *)

Section Rendering.

Lemma bind_ok {S A B} (m : M S A) (k : A -> M S B) (s s' : S) (b : B) :
  (m ≫= k) s = Ok (b, s') ->
  exists a s1, m s = Ok (a, s1) /\ k a s1 = Ok (b, s').
Proof.
  unfold mbind, M_bind. destruct (m s) as [[a s1]|e]; [|discriminate].
  intros H. exists a, s1. auto.
Qed.

Lemma exec_unit {S} (m : M S unit) (s s' : S) :
  exec m s = Ok s' -> m s = Ok (tt, s').
Proof.
  unfold exec. destruct (m s) as [[[] s1]|e]; [|discriminate].
  now intros [= ->].
Qed.

(** X5.  Once the frame counter has reached [m_maxFrames], [renderScene]
    returns at once: no backend is called, the array is not indexed and the
    object is unchanged, whatever the selection, also with none. *)
Theorem renderScene_done_is_noop (st : SampleExample) (cmdBuf : Z) :
  m_maxFrames st <= frame (m_rtxState st) ->
  renderScene cmdBuf st = Ok (tt, st).
Proof.
  intros H. unfold renderScene. cbv beta iota delta [mbind M_bind get].
  apply Z.leb_le in H. now rewrite H.
Qed.

(** X5, with nothing selected and the frame counter at the limit. *)
Lemma renderScene_done_is_noop_witness :
  m_maxFrames (set_rtxState {| frame := 100000; rtx_size := (0, 0) |}
                 example_sample)
  <= frame (m_rtxState (set_rtxState {| frame := 100000; rtx_size := (0, 0) |}
                          example_sample))
  /\ m_rndMethod (set_rtxState {| frame := 100000; rtx_size := (0, 0) |}
                    example_sample) = eNone
  /\ renderScene 7 (set_rtxState {| frame := 100000; rtx_size := (0, 0) |}
                      example_sample)
     = Ok (tt, set_rtxState {| frame := 100000; rtx_size := (0, 0) |}
                 example_sample).
Proof.
  assert (H : m_maxFrames (set_rtxState {| frame := 100000;
                                           rtx_size := (0, 0) |}
                             example_sample)
              <= frame (m_rtxState (set_rtxState
                          {| frame := 100000; rtx_size := (0, 0) |}
                          example_sample)))
    by (vm_compute; discriminate).
  split; [exact H|]. split; [reflexivity|].
  exact (renderScene_done_is_noop _ 7 H).
Defined.

(** X6.  Below the limit and with a real backend selected, [renderScene]
    makes two calls into the active backend and no other: the push constants
    and the run, the latter on the extent of the render region, divided (as
    unsigned numbers) by the descaling level when descaling is on.  It
    stores the full target size in the push-constant state, and leaves the
    frame counter, the backends and the selection as they were.  A negative
    descaling level, read as unsigned, brings the extent down to zero. *)
Theorem renderScene_runs_active_backend (st : SampleExample) (cmdBuf : Z) :
  renderers_ready st -> m_rndMethod st <> eNone ->
  frame (m_rtxState st) < m_maxFrames st ->
  (m_descaling st = true -> to_u32 (m_descalingLevel st) <> 0) ->
  (exists st',
     exec (renderScene cmdBuf) st = Ok st'
     /\ calls (m_device (base st'))
        = calls (m_device (base st))
          ++ [RendererSetPushContants (RndMethod_value (m_rndMethod st));
              RendererRun (RndMethod_value (m_rndMethod st)) cmdBuf
                (width (render_extent st)) (height (render_extent st))]
     /\ m_rtxState st'
        = {| frame := frame (m_rtxState st);
             rtx_size := (width (m_size (base st)),
                          height (m_size (base st))) |}
     /\ (m_pRender st', m_rndMethod st', m_renderRegion st', m_maxFrames st',
         m_descaling st', m_descalingLevel st', log st')
        = (m_pRender st, m_rndMethod st, m_renderRegion st, m_maxFrames st,
           m_descaling st, m_descalingLevel st, log st))
  /\ (m_descaling st = true ->
      - 2 ^ 31 <= m_descalingLevel st < 0 ->
      0 <= width (extent (m_renderRegion st)) < 2 ^ 31 ->
      0 <= height (extent (m_renderRegion st)) < 2 ^ 31 ->
      render_extent st = {| width := 0; height := 0 |}).
Proof.
  intros (r0 & r1 & Hr) Hm Hf Hd. split.
  - destruct st as [b rs cur reg [fr rsz] mf ds dl lg].
    cbn [m_pRender m_rndMethod m_rtxState m_maxFrames m_descaling
         m_descalingLevel frame base m_renderRegion log] in *. subst rs.
    apply Z.leb_gt in Hf.
    destruct b as [i0 d p q g c ci cm cv di dm dv sz pc cf df].
    destruct d as [h im me vw fe cb pe co ca].
    unfold renderScene, pRender_call, render_extent. run_all. rewrite Hf.
    destruct ds.
    + apply Z.eqb_neq in Hd; [|reflexivity]. rewrite Hd.
      destruct cur; try congruence; eexists;
        (split; [cbv -[app Z.div to_u32]; reflexivity|]);
        cbn [base m_device calls m_rtxState m_pRender m_rndMethod
             m_renderRegion m_maxFrames m_descaling m_descalingLevel log
             m_size RndMethod_value];
        rewrite <- ?app_assoc; repeat split.
    + destruct cur; try congruence; eexists;
        (split; [cbv -[app Z.div to_u32]; reflexivity|]);
        cbn [base m_device calls m_rtxState m_pRender m_rndMethod
             m_renderRegion m_maxFrames m_descaling m_descalingLevel log
             m_size RndMethod_value];
        rewrite <- ?app_assoc; repeat split.
  - intros Hs Hl Hw Hh. unfold render_extent. rewrite Hs.
    assert (to_u32 (m_descalingLevel st) = m_descalingLevel st + 2 ^ 32) as ->.
    { unfold to_u32. change (2 ^ 31) with 2147483648 in *.
      change (2 ^ 32) with 4294967296.
      symmetry. apply Z.mod_unique_pos with (q := -1); lia. }
    change (2 ^ 31) with 2147483648 in *. change (2 ^ 32) with 4294967296.
    rewrite !Z.div_small by lia. reflexivity.
Qed.

End Rendering.

(** X6, on the example sample with the pipeline backend active. *)
Lemma renderScene_runs_active_backend_witness :
  renderers_ready example_sample_rtx
  /\ m_rndMethod example_sample_rtx <> eNone
  /\ frame (m_rtxState example_sample_rtx) < m_maxFrames example_sample_rtx
  /\ exists st',
       exec (renderScene 7) example_sample_rtx = Ok st'
       /\ calls (m_device (base st'))
          = calls (m_device (base example_sample_rtx))
            ++ [RendererSetPushContants 0; RendererRun 0 7 0 0]
       /\ m_rtxState st' = {| frame := 0; rtx_size := (4, 2) |}.
Proof.
  assert (Hm : m_rndMethod example_sample_rtx <> eNone) by discriminate.
  assert (Hf : frame (m_rtxState example_sample_rtx)
               < m_maxFrames example_sample_rtx) by reflexivity.
  split; [apply example_sample_rtx_ready|]. split; [exact Hm|].
  split; [exact Hf|].
  destruct (renderScene_runs_active_backend example_sample_rtx 7)
    as ((st' & He & Hc & Hs & _) & _);
    [apply example_sample_rtx_ready|exact Hm|exact Hf|discriminate|].
  exists st'. split; [exact He|]. split; [exact Hc|exact Hs].
Defined.

(** ** Sequences of switches *)

Section Switches.

Lemma createRender_step (st : SampleExample) (method : RndMethod) :
  renderers_ready st -> active_only st -> method <> eNone ->
  exists st',
    exec (createRender method) st = Ok st'
    /\ renderers_ready st' /\ active_only st'
    /\ m_rndMethod st' = method
    /\ calls (m_device (base st'))
       = calls (m_device (base st)) ++ switch_calls (m_rndMethod st) method.
Proof.
  intros Hr Ha Hm. pose proof (ready_active_cases st Hr Ha) as Hp.
  destruct st as [b rs cur reg rtx mf ds dl lg].
  cbn [m_pRender m_rndMethod base] in *. subst rs.
  destruct b as [i0 d p q g c ci cm cv di dm dv sz pc cf df].
  destruct d as [h im me vw fe cb pe co ca].
  assert (Hact : forall m d' lg', active_only
            {| base := {| m_instance := i0; m_device := d';
                          m_physicalDevice := p; m_queue := q;
                          m_graphicsQueueIndex := g; m_cmdPool := c;
                          m_colorImage := ci; m_colorMemory := cm;
                          m_colorView := cv; m_depthImage := di;
                          m_depthMemory := dm; m_depthView := dv;
                          m_size := sz; m_pipelineCache := pc;
                          m_colorFormat := cf; m_depthFormat := df |};
               m_pRender :=
                 [Some {| constructed := bool_decide (m = eRtxPipeline) |};
                  Some {| constructed := bool_decide (m = eRayQuery) |}];
               m_rndMethod := m; m_renderRegion := reg; m_rtxState := rtx;
               m_maxFrames := mf; m_descaling := ds; m_descalingLevel := dl;
               log := lg' |}).
  { intros m d' lg' i r. cbn [m_pRender m_rndMethod].
    destruct i as [|[|i]]; cbn; intros H; try discriminate;
      injection H as <-; destruct m; cbn; split; intros;
      (discriminate || lia || reflexivity). }
  destruct cur, method; try congruence.
  all: eexists; split; [cbv -[app]; reflexivity|].
  all: split; [eexists _, _; reflexivity|].
  all: split; [first [exact Ha | apply (Hact eRtxPipeline)
                      | apply (Hact eRayQuery)]|].
  all: split; [reflexivity|].
  all: cbv -[app]; rewrite <- ?app_assoc, ?app_nil_r; reflexivity.
Qed.

Lemma switches_only_app (a b : list VkCall) :
  switches_only a -> switches_only b -> switches_only (a ++ b).
Proof.
  induction 1; intros Hb; cbn [app]; [exact Hb| |]; constructor; auto.
Qed.

Lemma switch_calls_switches_only (current method : RndMethod) :
  method <> eNone -> switches_only (switch_calls current method).
Proof.
  intros Hm. destruct current, method; try congruence; cbv;
    repeat constructor.
Qed.

(** X7.  Any sequence of [createRender] calls for real backends, from a
    state where only the active backend is constructed, returns normally and
    ends in such a state again, with the last requested method active.  In
    the calls it makes a backend is destroyed only directly after a wait
    for the device, and every destruction is directly followed by a
    creation. *)
Theorem switch_all_keeps_one_backend (methods : list RndMethod)
    (st : SampleExample) :
  renderers_ready st -> active_only st ->
  Forall (fun m => m <> eNone) methods ->
  exists st' added,
    exec (switch_all methods) st = Ok st'
    /\ renderers_ready st' /\ active_only st'
    /\ m_rndMethod st' = default (m_rndMethod st) (last methods)
    /\ calls (m_device (base st')) = calls (m_device (base st)) ++ added
    /\ switches_only added.
Proof.
  revert st. induction methods as [|m ms IH]; intros st Hr Ha Hall.
  - exists st, []. cbn [switch_all exec mret M_ret last default].
    rewrite app_nil_r. split; [reflexivity|]. split; [exact Hr|].
    split; [exact Ha|]. split; [reflexivity|]. split; [reflexivity|].
    constructor.
  - apply Forall_cons in Hall as [Hm Hall].
    destruct (createRender_step st m Hr Ha Hm)
      as (s1 & He1 & Hr1 & Ha1 & Hm1 & Hc1).
    destruct (IH s1 Hr1 Ha1 Hall) as (st' & added & He & Hr' & Ha' & Hl & Hc & Hs).
    exists st', (switch_calls (m_rndMethod st) m ++ added).
    cbn [switch_all]. rewrite exec_bind, He1.
    split; [exact He|]. split; [exact Hr'|]. split; [exact Ha'|].
    split.
    { rewrite Hl, Hm1. destruct ms as [|m' ms']; [reflexivity|].
      rewrite last_cons_cons.
      destruct (last (m' :: ms')) eqn:El; [reflexivity|].
      apply last_None in El. discriminate. }
    split; [rewrite Hc, Hc1; now rewrite app_assoc|].
    apply switches_only_app; [now apply switch_calls_switches_only|exact Hs].
Qed.

(** X7, there and back on the example sample. *)
Lemma switch_all_keeps_one_backend_witness :
  renderers_ready example_sample /\ active_only example_sample
  /\ Forall (fun m => m <> eNone) [eRtxPipeline; eRayQuery; eRtxPipeline]
  /\ exists st',
       exec (switch_all [eRtxPipeline; eRayQuery; eRtxPipeline])
            example_sample = Ok st'
       /\ active_only st' /\ m_rndMethod st' = eRtxPipeline.
Proof.
  assert (Hall : Forall (fun m => m <> eNone)
                   [eRtxPipeline; eRayQuery; eRtxPipeline])
    by (repeat constructor; discriminate).
  split; [apply example_sample_ready|]. split; [apply example_sample_ready|].
  split; [exact Hall|].
  destruct (switch_all_keeps_one_backend
              [eRtxPipeline; eRayQuery; eRtxPipeline] example_sample)
    as (st' & added & He & _ & Ha & Hl & _);
    [apply example_sample_ready|apply example_sample_ready|exact Hall|].
  exists st'. split; [exact He|]. split; [exact Ha|exact Hl].
Defined.

Lemma pRender_call_keeps_method (method : RndMethod)
    (f : Renderer -> Renderer) (c : VkCall) (s s' : SampleExample) :
  pRender_call method f c s = Ok (tt, s') -> m_rndMethod s' = m_rndMethod s.
Proof.
  unfold pRender_call. cbv beta iota delta [mbind M_bind get].
  destruct (m_pRender s !! Z.to_nat (RndMethod_value method)) as [[r|]|];
    try discriminate.
  destruct s as [b rs cur reg rtx mf ds dl lg].
  destruct b as [i0 d p q g k ci cm cv di dm dv sz pc cf df].
  run_all. intros [= <-]. reflexivity.
Qed.

Lemma createRender_selects (method : RndMethod) (st st' : SampleExample) :
  exec (createRender method) st = Ok st' -> m_rndMethod st' = method.
Proof.
  intros H. apply exec_unit in H. unfold createRender in H.
  apply bind_ok in H as (this & s0 & Hg & H). injection Hg as <- <-.
  destruct (bool_decide (method = m_rndMethod st)) eqn:E.
  - apply bool_decide_eq_true in E. injection H as <-. now symmetry.
  - apply bind_ok in H as ([] & s1 & _ & H).
    apply bind_ok in H as ([] & s2 & _ & H).
    apply bind_ok in H as ([] & s3 & Hset & H).
    apply bind_ok in H as (this' & s4 & Hg & H). injection Hg as <- <-.
    apply pRender_call_keeps_method in H. rewrite H.
    injection Hset as <-. now destruct s2.
Qed.

(** X8.  Asking [createRender] for the same method twice in a row is the
    same as asking once, in every state: the second call finds the method
    selected and returns; if the first call fails, so does the pair. *)
Theorem createRender_twice_is_once (method : RndMethod)
    (st : SampleExample) :
  exec (createRender method ;; createRender method) st
  = exec (createRender method) st.
Proof.
  rewrite exec_bind.
  destruct (exec (createRender method) st) as [s1|e] eqn:E; [|reflexivity].
  apply createRender_selects in E.
  unfold createRender, exec. cbv beta iota delta [mbind M_bind get].
  rewrite bool_decide_eq_true_2 by (now symmetry). reflexivity.
Qed.

End Switches.

(** ** setup of the sample *)

Section SampleSetup.

Variables (instance : Z) (device : VkDevice) (physicalDevice : VkPhysicalDevice).
Variables (width height colorFormat depthFormat : Z).

(** X9.  [setup] of the sample reads [queues] at the indices 0, 2, 1 and 3,
    unchecked.  With four queues or more it returns normally: the base
    class is set up on the family of queue 0, both slots of the backend array
    hold a new backend that is not constructed, and selection, render region
    and frame state are as before.  With fewer queues the first read past
    the end is at index 0 for no queue, at 2 for one or two, at 3 for
    three. *)
Theorem sample_setup_reads_four_queues (queues : list Z)
    (st : SampleExample) :
  length (m_pRender st) = 2%nat ->
  ((4 <= length queues)%nat ->
   exists st' familyIndex,
     queues !! 0%nat = Some familyIndex
     /\ exec (Sample.setup instance device physicalDevice queues width height
                colorFormat depthFormat) st = Ok st'
     /\ exec (Headless.setup instance device physicalDevice familyIndex width
                height colorFormat depthFormat) (base st) = Ok (base st')
     /\ m_pRender st'
        = [Some {| constructed := false |}; Some {| constructed := false |}]
     /\ (m_rndMethod st', m_renderRegion st', m_rtxState st', m_maxFrames st',
         log st')
        = (m_rndMethod st, m_renderRegion st, m_rtxState st, m_maxFrames st,
           log st))
  /\ ((length queues < 4)%nat ->
      exec (Sample.setup instance device physicalDevice queues width height
              colorFormat depthFormat) st
      = Err (OutOfBounds
               (match length queues with
                | 0%nat => 0 | 1%nat | 2%nat => 2 | _ => 3 end)
               (Z.of_nat (length queues)))).
Proof.
  intros Hlen. destruct st as [b rs cur reg rtx mf ds dl lg].
  cbn [m_pRender] in Hlen.
  destruct rs as [|a [|a' [|a'' rs]]]; try discriminate Hlen.
  assert (Hbase : forall q0,
    Headless.setup instance device physicalDevice q0 width height
      colorFormat depthFormat b
    = Ok (tt, after_setup instance device physicalDevice q0 width height
                colorFormat
                (if depthFormat =? VK_FORMAT_UNDEFINED
                 then match find (qualifies physicalDevice) depth_candidates
                      with Some f => f | None => VK_FORMAT_UNDEFINED end
                 else depthFormat) b))
    by (intros q0; apply exec_unit, setup_run).
  split.
  - intros H4.
    destruct queues as [|q0 [|q1 [|q2 [|q3 rest]]]]; cbn [length] in H4;
      try lia.
    eexists _, q0. split; [reflexivity|]. split.
    { unfold Sample.setup, queues_at, on_base, exec.
      cbv beta iota delta [mbind M_bind mret M_ret get modify Queues_value
        RndMethod_value Z.to_nat Pos.to_nat Pos.iter_op Init.Nat.add].
      cbn [lookup list_lookup base]. rewrite Hbase.
      cbn [set_base set_pRender m_pRender base m_rndMethod m_renderRegion
           m_rtxState m_maxFrames log insert list_insert lookup list_lookup
           fst snd].
      reflexivity. }
    cbn [base m_pRender m_rndMethod m_renderRegion m_rtxState m_maxFrames
         log].
    split; [rewrite setup_run; reflexivity|]. split; reflexivity.
  - intros H4.
    destruct queues as [|q0 [|q1 [|q2 [|q3 rest]]]]; cbn [length] in H4 |- *;
      try lia;
      unfold Sample.setup, queues_at, on_base, exec;
      cbv beta iota delta [mbind M_bind mret M_ret get modify Queues_value
        RndMethod_value Z.to_nat Pos.to_nat Pos.iter_op Init.Nat.add];
      cbn [lookup list_lookup base length]; rewrite ?Hbase;
      cbn [set_base set_pRender m_pRender base lookup list_lookup length];
      reflexivity.
Qed.

End SampleSetup.

(** X9, with the four queues of the program and with three. *)
Lemma sample_setup_reads_four_queues_witness :
  length (m_pRender SampleExample_default) = 2%nat
  /\ (exists st',
        exec (Sample.setup 1 new_device example_gpu [0; 0; 1; 2] 4 2
                VK_FORMAT_B8G8R8A8_UNORM VK_FORMAT_UNDEFINED)
             SampleExample_default = Ok st'
        /\ m_pRender st'
           = [Some {| constructed := false |};
              Some {| constructed := false |}])
  /\ exec (Sample.setup 1 new_device example_gpu [0; 0; 1] 4 2
             VK_FORMAT_B8G8R8A8_UNORM VK_FORMAT_UNDEFINED)
          SampleExample_default = Err (OutOfBounds 3 3).
Proof.
  split; [reflexivity|].
  destruct (sample_setup_reads_four_queues 1 new_device example_gpu 4 2
              VK_FORMAT_B8G8R8A8_UNORM VK_FORMAT_UNDEFINED [0; 0; 1; 2]
              SampleExample_default eq_refl) as (Hok & _).
  destruct (sample_setup_reads_four_queues 1 new_device example_gpu 4 2
              VK_FORMAT_B8G8R8A8_UNORM VK_FORMAT_UNDEFINED [0; 0; 1]
              SampleExample_default eq_refl) as (_ & Hbad).
  split.
  - destruct Hok as (st' & q0 & _ & He & _ & Hp & _); [cbn; lia|].
    exists st'. split; [exact He|exact Hp].
  - apply Hbad. cbn. lia.
Defined.

(** ** The exported image: bounds and what is read *)

Section ExportBounds.

Variable mapped : list byte.

Lemma file_write_fail (p : Z) (n : nat) (s : Dump) :
  Z.of_nat (length mapped) < p + Z.of_nat n ->
  file_write mapped p n s = Err (OutOfBounds p (Z.of_nat (length mapped))).
Proof.
  intros H. unfold file_write.
  destruct (Z.leb_spec (p + Z.of_nat n) (Z.of_nat (length mapped))); [lia|].
  now rewrite andb_false_r.
Qed.

Lemma pixel_body_fail (i r : Z) (f : list byte) :
  Z.of_nat (length mapped) < r + 3 ->
  pixel_body mapped {| imagedata := i; row := r; file := f |}
  = Err (OutOfBounds (r + 2) (Z.of_nat (length mapped))).
Proof.
  intros H. unfold pixel_body.
  cbv beta iota delta [mbind M_bind get modify]. cbn [row].
  rewrite file_write_fail by (cbn; lia). reflexivity.
Qed.

Lemma row_run_tight (n : nat) :
  forall (i r : Z) (f : list byte),
    0 <= r ->
    n = 0%nat \/ r + 4 * Z.of_nat n - 1 <= Z.of_nat (length mapped) ->
    repeat_call n (pixel_body mapped)
      {| imagedata := i; row := r; file := f |}
    = Ok (tt, {| imagedata := i; row := r + 4 * Z.of_nat n;
                 file := f ++ row_bytes mapped r n |}).
Proof.
  induction n as [|n IH]; intros i r f H0 H1.
  - cbn [repeat_call row_bytes]. rewrite app_nil_r.
    replace (r + 4 * Z.of_nat 0) with r by lia. reflexivity.
  - cbn [repeat_call row_bytes]. cbv beta delta [mbind M_bind].
    rewrite pixel_body_run by lia.
    cbv beta iota. rewrite IH by lia. rewrite <- app_assoc.
    replace (r + 4 + 4 * Z.of_nat n) with (r + 4 * Z.of_nat (S n)) by lia.
    reflexivity.
Qed.

Lemma row_run_fail (n : nat) :
  forall (i r : Z) (f : list byte),
    0 <= r -> n <> 0%nat ->
    Z.of_nat (length mapped) < r + 4 * Z.of_nat n - 1 ->
    exists a,
      Z.of_nat (length mapped) <= a
      /\ repeat_call n (pixel_body mapped)
           {| imagedata := i; row := r; file := f |}
         = Err (OutOfBounds a (Z.of_nat (length mapped))).
Proof.
  induction n as [|n IH]; intros i r f H0 Hn H1; [lia|].
  cbn [repeat_call]. cbv beta delta [mbind M_bind].
  destruct (Z_lt_le_dec (Z.of_nat (length mapped)) (r + 3)) as [Hs|Hs].
  - exists (r + 2). split; [lia|]. now rewrite pixel_body_fail.
  - rewrite pixel_body_run by lia. cbv beta iota.
    apply IH; lia.
Qed.

Lemma row_body_tight (w pitch p r : Z) (f : list byte) :
  0 <= w < 2 ^ 32 -> 0 <= p ->
  w = 0 \/ p + 4 * w - 1 <= Z.of_nat (length mapped) ->
  row_body mapped w pitch {| imagedata := p; row := r; file := f |}
  = Ok (tt, {| imagedata := p + pitch; row := p + 4 * w;
               file := f ++ row_bytes mapped p (Z.to_nat w) |}).
Proof.
  intros Hw Hp Hin. unfold row_body.
  rewrite for_i32_from_zero by exact Hw.
  cbv beta delta [mbind M_bind get modify set_row]. cbn [imagedata row file].
  rewrite row_run_tight by lia.
  unfold set_imagedata. cbn [imagedata row file].
  replace (4 * Z.of_nat (Z.to_nat w)) with (4 * w) by lia. reflexivity.
Qed.

Lemma row_body_fail (w pitch p r : Z) (f : list byte) :
  0 < w < 2 ^ 32 -> 0 <= p ->
  Z.of_nat (length mapped) < p + 4 * w - 1 ->
  exists a,
    Z.of_nat (length mapped) <= a
    /\ row_body mapped w pitch {| imagedata := p; row := r; file := f |}
       = Err (OutOfBounds a (Z.of_nat (length mapped))).
Proof.
  intros Hw Hp Hout. unfold row_body.
  rewrite for_i32_from_zero by lia.
  cbv beta delta [mbind M_bind get modify set_row]. cbn [imagedata row file].
  destruct (row_run_fail (Z.to_nat w) p p f) as (a & Ha & He); [lia|lia|lia|].
  exists a. split; [exact Ha|]. now rewrite He.
Qed.

Lemma image_run_tight (w pitch : Z) (n : nat) :
  0 <= w < 2 ^ 32 -> 0 <= pitch ->
  forall (p r : Z) (f : list byte),
    0 <= p ->
    n = 0%nat \/ w = 0
    \/ p + (Z.of_nat n - 1) * pitch + 4 * w - 1 <= Z.of_nat (length mapped) ->
    exists r',
      repeat_call n (row_body mapped w pitch)
        {| imagedata := p; row := r; file := f |}
      = Ok (tt, {| imagedata := p + Z.of_nat n * pitch; row := r';
                   file := f ++ image_bytes mapped p pitch (Z.to_nat w) n |}).
Proof.
  intros Hw Hpitch. induction n as [|n IH]; intros p r f Hp Hin.
  - exists r. cbn [repeat_call image_bytes]. rewrite app_nil_r.
    replace (p + Z.of_nat 0 * pitch) with p by lia. reflexivity.
  - cbn [repeat_call image_bytes]. cbv beta delta [mbind M_bind].
    rewrite row_body_tight by nia.
    destruct (IH (p + pitch) (p + 4 * w)
                (f ++ row_bytes mapped p (Z.to_nat w))) as (r' & Hr');
      [lia|nia|].
    exists r'. cbv beta iota. rewrite Hr'. rewrite <- app_assoc.
    replace (p + pitch + Z.of_nat n * pitch)
      with (p + Z.of_nat (S n) * pitch) by lia.
    reflexivity.
Qed.

Lemma image_run_fail (w pitch : Z) (n : nat) :
  0 < w < 2 ^ 32 -> 0 <= pitch ->
  forall (p r : Z) (f : list byte),
    0 <= p -> n <> 0%nat ->
    Z.of_nat (length mapped) < p + (Z.of_nat n - 1) * pitch + 4 * w - 1 ->
    exists a,
      Z.of_nat (length mapped) <= a
      /\ repeat_call n (row_body mapped w pitch)
           {| imagedata := p; row := r; file := f |}
         = Err (OutOfBounds a (Z.of_nat (length mapped))).
Proof.
  intros Hw Hpitch. induction n as [|n IH]; intros p r f Hp Hn Hout; [lia|].
  cbn [repeat_call]. cbv beta delta [mbind M_bind].
  destruct (Z_lt_le_dec (Z.of_nat (length mapped)) (p + 4 * w - 1)) as [Hs|Hs].
  - destruct (row_body_fail w pitch p r f) as (a & Ha & He); [lia|lia|lia|].
    exists a. split; [exact Ha|]. now rewrite He.
  - rewrite row_body_tight by lia. cbv beta iota.
    apply IH; [lia|nia|nia].
Qed.

Lemma dumpImage_file_fits (w h off pitch : Z) :
  0 <= w < 2 ^ 32 -> 0 <= h < 2 ^ 32 -> 0 <= pitch -> 0 <= off ->
  h = 0 \/ w = 0
  \/ off + (h - 1) * pitch + 4 * w - 1 <= Z.of_nat (length mapped) ->
  dumpImage_file {| width := w; height := h |}
    {| layoutOffset := off; rowPitch := pitch |} mapped
  = Ok (ppm_header w h
        ++ image_bytes mapped off pitch (Z.to_nat w) (Z.to_nat h)).
Proof.
  intros Hw Hh Hpitch Hoff Hin.
  unfold dumpImage_file, dumpImage_write.
  cbv beta iota zeta delta [mbind M_bind get modify file_put set_imagedata
    put_file imagedata row file width height layoutOffset rowPitch].
  match goal with
  | |- context [for_i32 ?fuel 0 ?b ?body] =>
      change (for_i32 fuel 0 b body)
        with (for_i32 fuel 0 b (fun _ : Z => row_body mapped w pitch))
  end.
  rewrite for_i32_from_zero by exact Hh.
  match goal with
  | |- context [repeat_call _ _ {| imagedata := ?p; row := ?r; file := ?f |}] =>
      destruct (image_run_tight w pitch (Z.to_nat h) Hw Hpitch p r f)
        as (r' & Hr'); [lia|nia|]
  end.
  rewrite Hr'. cbn [file]. f_equal. f_equal.
  unfold ppm_header. rewrite !list_byte_of_string_app.
  rewrite <- !app_assoc. reflexivity.
Qed.

Lemma dumpImage_file_overrun (w h off pitch : Z) :
  0 < w < 2 ^ 32 -> 0 < h < 2 ^ 32 -> 0 <= pitch -> 0 <= off ->
  Z.of_nat (length mapped) < off + (h - 1) * pitch + 4 * w - 1 ->
  exists a, Z.of_nat (length mapped) <= a
    /\ dumpImage_file {| width := w; height := h |}
         {| layoutOffset := off; rowPitch := pitch |} mapped
       = Err (OutOfBounds a (Z.of_nat (length mapped))).
Proof.
  intros Hw Hh Hpitch Hoff Hout.
  unfold dumpImage_file, dumpImage_write.
  cbv beta iota zeta delta [mbind M_bind get modify file_put set_imagedata
    put_file imagedata row file width height layoutOffset rowPitch].
  match goal with
  | |- context [for_i32 ?fuel 0 ?b ?body] =>
      change (for_i32 fuel 0 b body)
        with (for_i32 fuel 0 b (fun _ : Z => row_body mapped w pitch))
  end.
  rewrite for_i32_from_zero by lia.
  match goal with
  | |- context [repeat_call _ _ {| imagedata := ?p; row := ?r; file := ?f |}] =>
      destruct (image_run_fail w pitch (Z.to_nat h) Hw Hpitch p r f)
        as (a & Ha & He); [lia|lia|nia|]
  end.
  exists a. split; [exact Ha|]. now rewrite He.
Qed.

(** X10.  The writing of the file succeeds exactly when the image is empty
    or the three color bytes of the last pixel of the last row lie inside
    the mapping (its fourth byte need not); otherwise it stops at a read
    past the end of the mapping and no file content is returned. *)
Theorem dumpImage_file_ok_iff_in_bounds (w h off pitch : Z) :
  0 <= w < 2 ^ 32 -> 0 <= h < 2 ^ 32 -> 0 <= pitch -> 0 <= off ->
  let result := dumpImage_file {| width := w; height := h |}
                  {| layoutOffset := off; rowPitch := pitch |} mapped in
  let fits := h = 0 \/ w = 0
              \/ off + (h - 1) * pitch + 4 * w - 1
                 <= Z.of_nat (length mapped) in
  (fits ->
   result = Ok (ppm_header w h
                ++ image_bytes mapped off pitch (Z.to_nat w) (Z.to_nat h)))
  /\ (~ fits ->
      exists a, Z.of_nat (length mapped) <= a
        /\ result = Err (OutOfBounds a (Z.of_nat (length mapped)))).
Proof.
  intros Hw Hh Hpitch Hoff. cbv zeta. split.
  - now apply dumpImage_file_fits.
  - intros Hout. apply dumpImage_file_overrun; lia.
Qed.

End ExportBounds.

(** X10, on the example mapping of 16 bytes: one row of four pixels needs
    15 of them, two rows of two pixels 12 bytes apart need 19. *)
Lemma dumpImage_file_ok_iff_in_bounds_witness :
  0 <= 4 < 2 ^ 32 /\ 0 <= 1 < 2 ^ 32 /\ 0 <= 2 < 2 ^ 32
  /\ (exists bytes,
        dumpImage_file {| width := 4; height := 1 |}
          {| layoutOffset := 0; rowPitch := 16 |} example_mapping = Ok bytes)
  /\ (exists a,
        dumpImage_file {| width := 2; height := 2 |}
          {| layoutOffset := 0; rowPitch := 12 |} example_mapping
        = Err (OutOfBounds a 16)).
Proof.
  split; [lia|]. split; [lia|]. split; [lia|]. split.
  - destruct (dumpImage_file_ok_iff_in_bounds example_mapping 4 1 0 16)
      as (Hok & _); [lia|lia|lia|lia|].
    eexists. apply Hok. right; right. vm_compute. discriminate.
  - destruct (dumpImage_file_ok_iff_in_bounds example_mapping 2 2 0 12)
      as (_ & Hbad); [lia|lia|lia|lia|].
    destruct Hbad as (a & _ & He).
    + intros [H|[H|H]]; [lia|lia|]. vm_compute in H. apply H. reflexivity.
    + exists a. exact He.
Defined.

(** ** What the file depends on *)

Section ExportReads.

(** X11.  The file depends on nothing but the three color bytes of each
    pixel: two mappings that hold the image and agree on those bytes give
    the same file, whatever they hold in the fourth byte of a pixel, in the
    padding between rows, before the offset or after the image. *)
Theorem dumpImage_file_reads_color_bytes_only (mapped mapped' : list byte)
    (w h off pitch : Z) :
  0 <= w < 2 ^ 32 -> 0 <= h < 2 ^ 32 -> 4 * w <= pitch -> 0 <= off ->
  off + (h - 1) * pitch + 4 * w <= Z.of_nat (length mapped) ->
  off + (h - 1) * pitch + 4 * w <= Z.of_nat (length mapped') ->
  (forall x y c, 0 <= x < w -> 0 <= y < h -> 0 <= c < 3 ->
     mapped !! Z.to_nat (off + y * pitch + 4 * x + c)
     = mapped' !! Z.to_nat (off + y * pitch + 4 * x + c)) ->
  dumpImage_file {| width := w; height := h |}
    {| layoutOffset := off; rowPitch := pitch |} mapped
  = dumpImage_file {| width := w; height := h |}
      {| layoutOffset := off; rowPitch := pitch |} mapped'.
Proof.
  intros Hw Hh Hpitch Hoff Hin Hin' Hsame.
  rewrite !dumpImage_file_run by (auto; lia).
  f_equal. f_equal.
  assert (Hlen : forall m,
    off + (h - 1) * pitch + 4 * w <= Z.of_nat (length m) ->
    length (image_bytes m off pitch (Z.to_nat w) (Z.to_nat h))
    = (3 * Z.to_nat w * Z.to_nat h)%nat).
  { intros m Hm. apply image_bytes_length; [lia|lia|].
    right; right. rewrite !Z2Nat.id by lia. exact Hm. }
  apply list_eq. intros k.
  destruct (Nat.lt_ge_cases k (3 * Z.to_nat w * Z.to_nat h)) as [Hk|Hk].
  - assert (Hwpos : (0 < Z.to_nat w)%nat) by nia.
    set (W := Z.to_nat w) in *.
    assert (Hk3 : (k = 3 * W * (k / (3 * W))
                     + (3 * ((k mod (3 * W)) / 3) + (k mod (3 * W)) mod 3))%nat).
    { rewrite <- (Nat.div_mod_eq (k mod (3 * W)) 3).
      apply Nat.div_mod_eq. }
    assert (Hy : (k / (3 * W) < Z.to_nat h)%nat)
      by (apply Nat.Div0.div_lt_upper_bound; nia).
    assert (Hx : ((k mod (3 * W)) / 3 < W)%nat).
    { apply Nat.Div0.div_lt_upper_bound.
      apply Nat.mod_upper_bound. lia. }
    assert (Hc : ((k mod (3 * W)) mod 3 < 3)%nat)
      by (apply Nat.mod_upper_bound; lia).
    rewrite Hk3.
    generalize dependent (k / (3 * W))%nat. intros y _ Hy.
    generalize dependent ((k mod (3 * W)) / 3)%nat. intros x Hx.
    generalize dependent ((k mod (3 * W)) mod 3)%nat. intros c Hc.
    rewrite !image_bytes_lookup;
      try lia; try (unfold W; rewrite !Z2Nat.id by lia; assumption).
    rewrite !row_bytes_lookup; try lia; try (unfold W; nia).
    replace (off + Z.of_nat y * pitch + 4 * Z.of_nat x + (2 - Z.of_nat c))
      with (off + Z.of_nat y * pitch + 4 * Z.of_nat x + Z.of_nat (2 - c))
      by lia.
    apply Hsame; unfold W in *; lia.
  - rewrite !lookup_ge_None_2; [reflexivity| |]; rewrite Hlen; auto.
Qed.

(** X11, on two mappings that differ in the fourth byte of the pixel. *)
Lemma dumpImage_file_reads_color_bytes_only_witness :
  dumpImage_file {| width := 1; height := 1 |}
    {| layoutOffset := 0; rowPitch := 4 |} [x01; x02; x03; x04]
  = dumpImage_file {| width := 1; height := 1 |}
      {| layoutOffset := 0; rowPitch := 4 |} [x01; x02; x03; xff].
Proof.
  apply dumpImage_file_reads_color_bytes_only; try (cbn; lia).
  intros x y c Hx Hy Hc. assert (x = 0) as -> by lia.
  assert (y = 0) as -> by lia.
  assert (c = 0 \/ c = 1 \/ c = 2) as [-> | [-> | ->]] by lia; reflexivity.
Defined.

End ExportReads.

(** ** The frame read-back *)

Ltac run_dump :=
  cbv beta iota zeta delta
    [mbind M_bind mret M_ret get put modify fail when exec
     on_device on_base fresh
     vkCreateImage vkDestroyImage vkGetImageMemoryRequirements
     vkAllocateMemory vkFreeMemory vkBindImageMemory
     vkAllocateCommandBuffers vkBeginCommandBuffer
     vkEndCommandBuffer vkCmd vkFreeCommandBuffers vkCreateFence vkDestroyFence
     vkQueueSubmit vkWaitForFences LOGI
     vkGetImageSubresourceLayout vkMapMemory insertImageMemoryBarrier
     vkCmdCopyImage submitWork getMemoryType
     record bump with_images with_memories
     with_views with_fences with_cmdbufs submit drain
     set_device
     m_instance m_device m_physicalDevice m_queue m_graphicsQueueIndex
     m_cmdPool m_colorImage m_colorMemory m_colorView m_depthImage
     m_depthMemory m_depthView m_size m_pipelineCache m_colorFormat
     m_depthFormat
     next_handle images memories views fences cmdbufs pending completed
     calls
     set_base
     base m_pRender m_rndMethod m_renderRegion m_rtxState m_maxFrames
     m_descaling m_descalingLevel log
     fst snd andb].

Section FrameReadback.

Variable host : VkHost.

Lemma dumpImage_run (st : SampleExample) (idx : Z) :
  host_visible_type (base st) = Some idx ->
  dumpImage host st
  = match dumpImage_file (m_size (base st))
            (imageSubresourceLayout host (dstImageInfo (base st)))
            (dump_mapping host (m_device (base st))) with
    | Ok bytes => Ok (bytes, dumped st idx)
    | Err e => Err e
    end.
Proof.
  intros Hidx.
  destruct st as [b pr rm rr rs mf ds dl lg].
  destruct b as [i0 d p q g c ci cm cv di dm dv sz pc cf df].
  destruct d as [h im me vw fe cb pe co ca].
  unfold host_visible_type in Hidx.
  cbv [base m_size m_physicalDevice dstImageInfo] in Hidx.
  unfold dumpImage, dumped, dumped_device, dump_calls, dump_commands,
    dump_mapping, dstImageInfo.
  run_dump.
  rewrite lookup_insert_eq. run_dump.
  rewrite Hidx. run_dump.
  rewrite !in_dom_insert. run_dump.
  rewrite Z.eqb_refl. run_dump.
  rewrite lookup_insert_eq. run_dump.
  rewrite !in_dom_insert. run_dump.
  tidy. change (1 + 3) with 4.
  destruct (dumpImage_file _ _ _) as [bytes|e]; [|reflexivity].
  run_dump. tidy. reflexivity.
Qed.

Lemma for_i32_fault {S} (P : Fault -> Prop) (bound : Z) (body : Z -> M S unit) :
  P OutOfFuel ->
  (forall i s e, body i s = Err e -> P e) ->
  forall fuel i s e, for_i32 fuel i bound body s = Err e -> P e.
Proof.
  intros Hfuel Hbody. induction fuel as [|k IH]; intros i s e He.
  - cbv in He. now inversion He.
  - cbn [for_i32] in He. destruct (to_u32 i <? bound); [|now inversion He].
    cbv beta delta [mbind M_bind] in He.
    destruct (body i s) as [[u s']|e'] eqn:Hb.
    + now apply (IH _ _ _ He).
    + inversion He; subst. now apply (Hbody _ _ _ Hb).
Qed.

Lemma file_write_fault (mapped : list byte) (p : Z) (n : nat) (s : Dump)
    (e : Fault) :
  file_write mapped p n s = Err e -> read_fault e.
Proof.
  unfold file_write.
  destruct ((0 <=? p) && (p + Z.of_nat n <=? Z.of_nat (length mapped))).
  - discriminate.
  - intros He. inversion He. exact I.
Qed.

Lemma dumpImage_file_fault (sz : VkExtent2D) (layout : VkSubresourceLayout)
    (mapped : list byte) (e : Fault) :
  dumpImage_file sz layout mapped = Err e -> read_fault e.
Proof.
  unfold dumpImage_file, dumpImage_write.
  cbv beta iota zeta delta [mbind M_bind get modify file_put].
  match goal with
  | |- context [for_i32 ?fuel ?i ?b ?body ?s] =>
      destruct (for_i32 fuel i b body s) as [[u s']|e'] eqn:Hrun
  end; [discriminate|].
  intros He. inversion He; subst e'. clear He.
  revert Hrun. apply for_i32_fault; [exact I|].
  intros y s e0. cbv beta iota zeta delta [mbind M_bind get modify set_row].
  match goal with
  | |- context [for_i32 ?fuel ?i ?b ?body ?s] =>
      destruct (for_i32 fuel i b body s) as [[u s']|e'] eqn:Hrow
  end; [discriminate|].
  intros He. inversion He; subst e'. clear He.
  revert Hrow. apply for_i32_fault; [exact I|].
  intros x0 s0 e1. cbv beta iota zeta delta [mbind M_bind get modify].
  destruct (file_write mapped (row s0 + 2) 1 s0) as [[u1 s1]|e'] eqn:H1;
    [|intros He; inversion He; subst; exact (file_write_fault _ _ _ _ _ H1)].
  destruct (file_write mapped (row s0 + 1) 1 s1) as [[u2 s2]|e'] eqn:H2;
    [|intros He; inversion He; subst; exact (file_write_fault _ _ _ _ _ H2)].
  destruct (file_write mapped (row s0) 1 s2) as [[u3 s3]|e'] eqn:H3;
    [|intros He; inversion He; subst; exact (file_write_fault _ _ _ _ _ H3)].
  discriminate.
Qed.

Lemma dumpImage_abort (st : SampleExample) :
  host_visible_type (base st) = None ->
  dumpImage host st = Err (Abort ("Unable to find memory type " ++ to_string 6)).
Proof.
  intros Hidx.
  destruct st as [b pr rm rr rs mf ds dl lg].
  destruct b as [i0 d p q g c ci cm cv di dm dv sz pc cf df].
  destruct d as [h im me vw fe cb pe co ca].
  unfold host_visible_type in Hidx.
  cbv [base m_size m_physicalDevice dstImageInfo] in Hidx.
  unfold dumpImage, dstImageInfo.
  run_dump.
  rewrite lookup_insert_eq. run_dump.
  rewrite Hidx. reflexivity.
Qed.

Lemma dumped_device_neutral (this : HeadlessAppVK) (idx : Z) :
  handles_below (m_device this) ->
  let d := m_device this in
  let d' := dumped_device this idx in
  images d' = images d /\ memories d' = memories d /\ views d' = views d
  /\ fences d' = fences d /\ cmdbufs d' = cmdbufs d
  /\ next_handle d' = next_handle d + 4 /\ handles_below d'.
Proof.
  intros Hbelow. cbv zeta.
  assert (Himg : images (dumped_device this idx) = images (m_device this)).
  { cbn [dumped_device images]. rewrite delete_insert_eq. apply delete_id.
    apply not_elem_of_dom. apply (Hbelow (next_handle (m_device this))). lia. }
  assert (Hmem : memories (dumped_device this idx) = memories (m_device this)).
  { cbn [dumped_device memories]. rewrite delete_insert_eq. apply delete_id.
    apply not_elem_of_dom.
    apply (Hbelow (next_handle (m_device this) + 1)). lia. }
  assert (Hfen : fences (dumped_device this idx) = fences (m_device this)).
  { cbn [dumped_device fences].
    pose proof (Hbelow (next_handle (m_device this) + 3)) as H.
    assert (next_handle (m_device this) + 3 ∉ fences (m_device this))
      by (apply H; lia).
    set_solver. }
  assert (Hcmd : cmdbufs (dumped_device this idx) = cmdbufs (m_device this)).
  { cbn [dumped_device cmdbufs].
    pose proof (Hbelow (next_handle (m_device this) + 2)) as H.
    assert (next_handle (m_device this) + 2 ∉ cmdbufs (m_device this))
      by (apply H; lia).
    set_solver. }
  split; [exact Himg|]. split; [exact Hmem|]. split; [reflexivity|].
  split; [exact Hfen|]. split; [exact Hcmd|]. split; [reflexivity|].
  intros k Hk. rewrite Himg, Hmem, Hfen, Hcmd.
  cbn [dumped_device next_handle views] in *. apply Hbelow. lia.
Qed.

(** X12.  With a host-visible memory type and an image that lies inside the
    mapping, [dumpImage] returns, and headless.ppm holds the packed image
    read from the destination memory as it is once everything submitted
    before and the copy itself have finished; nothing is left pending, and
    the line on the saved file is logged. *)
Theorem dumpImage_writes_finished_copy (st : SampleExample) (idx : Z) :
  let this := base st in
  let d := m_device this in
  let w := width (m_size this) in
  let h := height (m_size this) in
  let layout := imageSubresourceLayout host (dstImageInfo this) in
  let mapped :=
    memoryContents host (completed d ++ pending d ++ [next_handle d + 2])
      (next_handle d + 1) in
  host_visible_type this = Some idx ->
  0 <= w < 2 ^ 32 -> 0 <= h < 2 ^ 32 ->
  0 <= rowPitch layout -> 0 <= layoutOffset layout ->
  h = 0 \/ w = 0
  \/ layoutOffset layout + (h - 1) * rowPitch layout + 4 * w - 1
     <= Z.of_nat (length mapped) ->
  exists st',
    dumpImage host st
    = Ok (ppm_header w h
          ++ image_bytes mapped (layoutOffset layout) (rowPitch layout)
               (Z.to_nat w) (Z.to_nat h), st')
    /\ pending (m_device (base st')) = []
    /\ completed (m_device (base st'))
       = completed d ++ pending d ++ [next_handle d + 2]
    /\ calls (m_device (base st')) = calls d ++ dump_calls this idx
    /\ log st' = log st ++ [saved_line].
Proof.
  cbv zeta. intros Hidx Hw Hh Hpitch Hoff Hfits.
  exists (dumped st idx). split.
  - rewrite (dumpImage_run st idx Hidx). unfold dump_mapping.
    destruct (m_size (base st)) as [w h].
    destruct (imageSubresourceLayout host (dstImageInfo (base st)))
      as [off pitch].
    cbn [width height layoutOffset rowPitch] in *.
    now rewrite dumpImage_file_fits.
  - split; [reflexivity|]. split; [reflexivity|]. split; reflexivity.
Qed.

(** X13.  When the file can be written, [dumpImage] leaves the device with
    the objects it had: the destination image, its memory, the command
    buffer and the fence are gone again, four handles are used up, and no
    member of the sample but the log has changed. *)
Theorem dumpImage_keeps_no_object (st : SampleExample) (idx : Z)
    (bytes : list byte) :
  let this := base st in
  let d := m_device this in
  host_visible_type this = Some idx ->
  handles_below d ->
  dumpImage_file (m_size this)
    (imageSubresourceLayout host (dstImageInfo this)) (dump_mapping host d)
  = Ok bytes ->
  exists st',
    dumpImage host st = Ok (bytes, st')
    /\ (let d' := m_device (base st') in
        images d' = images d /\ memories d' = memories d
        /\ views d' = views d /\ fences d' = fences d
        /\ cmdbufs d' = cmdbufs d /\ next_handle d' = next_handle d + 4
        /\ handles_below d')
    /\ set_device d (base st') = set_device d this
    /\ (m_pRender st', m_rndMethod st', m_renderRegion st', m_rtxState st',
        m_maxFrames st', m_descaling st', m_descalingLevel st')
       = (m_pRender st, m_rndMethod st, m_renderRegion st, m_rtxState st,
          m_maxFrames st, m_descaling st, m_descalingLevel st).
Proof.
  cbv zeta. intros Hidx Hbelow Hfile.
  exists (dumped st idx). split.
  - rewrite (dumpImage_run st idx Hidx). now rewrite Hfile.
  - split; [|split; reflexivity].
    cbn [dumped base set_device m_device].
    now apply dumped_device_neutral.
Qed.


End FrameReadback.

(** X12, on the example sample and driver: 4 by 2 pixels, rows 16 bytes
    apart in a mapping of 32 bytes. *)
Lemma dumpImage_writes_finished_copy_witness :
  host_visible_type (base example_sample_rtx) = Some 0
  /\ exists st',
       dumpImage example_host example_sample_rtx
       = Ok (ppm_header 4 2
             ++ image_bytes (example_mapping ++ example_mapping) 0 16 4 2, st')
       /\ pending (m_device (base st')) = [].
Proof.
  split; [reflexivity|].
  destruct (dumpImage_writes_finished_copy example_host example_sample_rtx 0)
    as (st' & Hrun & Hpending & _);
    [reflexivity|vm_compute; split; [discriminate|reflexivity]
    |vm_compute; split; [discriminate|reflexivity]
    |vm_compute; discriminate|vm_compute; discriminate
    |right; right; vm_compute; discriminate|].
  exists st'. split; [exact Hrun|exact Hpending].
Defined.

Lemma example_sample_rtx_handles_below :
  handles_below (m_device (base example_sample_rtx)).
Proof.
  intros k _.
  change (images (m_device (base example_sample_rtx))) with (∅ : gmap Z VkImageCreateInfo).
  change (memories (m_device (base example_sample_rtx))) with (∅ : gmap Z VkMemoryAllocateInfo).
  change (views (m_device (base example_sample_rtx))) with (∅ : gmap Z VkImageViewCreateInfo).
  change (fences (m_device (base example_sample_rtx))) with (∅ : gset Z).
  change (cmdbufs (m_device (base example_sample_rtx))) with (∅ : gset Z).
  rewrite !dom_empty_L. set_solver.
Qed.

(** X13, on the example sample and driver. *)
Lemma dumpImage_keeps_no_object_witness :
  handles_below (m_device (base example_sample_rtx))
  /\ exists bytes st',
       dumpImage example_host example_sample_rtx = Ok (bytes, st')
       /\ images (m_device (base st'))
          = images (m_device (base example_sample_rtx))
       /\ cmdbufs (m_device (base st'))
          = cmdbufs (m_device (base example_sample_rtx)).
Proof.
  split; [exact example_sample_rtx_handles_below|].
  assert (Hfile :
    dumpImage_file (m_size (base example_sample_rtx))
      (imageSubresourceLayout example_host
         (dstImageInfo (base example_sample_rtx)))
      (dump_mapping example_host (m_device (base example_sample_rtx)))
    = Ok (ppm_header 4 2
          ++ image_bytes (example_mapping ++ example_mapping) 0 16 4 2))
    by (vm_compute; reflexivity).
  destruct (dumpImage_keeps_no_object example_host example_sample_rtx 0 _
              eq_refl example_sample_rtx_handles_below Hfile)
    as (st' & Hrun & Hsame & _).
  destruct Hsame as (Himg & _ & _ & _ & Hcmd & _).
  exists (ppm_header 4 2
          ++ image_bytes (example_mapping ++ example_mapping) 0 16 4 2), st'.
  split; [exact Hrun|]. split; [exact Himg|exact Hcmd].
Defined.

(** ** The rest of the life cycle *)

Ltac run_app :=
  cbv beta iota zeta delta
    [mbind M_bind mret M_ret get put modify fail when exec
     on_device on_base on_sample on_app_device fresh
     vkGetDeviceQueue vkCreateCommandPool vkCreatePipelineCache
     vkCreateImage vkDestroyImage vkGetImageMemoryRequirements
     vkAllocateMemory vkFreeMemory vkBindImageMemory vkCreateImageView
     vkDestroyImageView vkAllocateCommandBuffers vkBeginCommandBuffer
     vkEndCommandBuffer vkCmd vkFreeCommandBuffers vkCreateFence vkDestroyFence
     vkQueueSubmit vkWaitForFences vkQueueWaitIdle vkDeviceWaitIdle LOGI
     vkGetImageSubresourceLayout vkMapMemory insertImageMemoryBarrier
     vkCmdCopyImage submitWork getMemoryType
     record_more vkCreateRenderPass vkDestroyRenderPass vkCreateFramebuffer
     vkDestroyFramebuffer vkCreateDescriptorPool vkDestroyDescriptorPool
     vkCreateDescriptorSetLayout vkDestroyDescriptorSetLayout
     vkDestroyPipelineCache vkDestroyCommandPool
     record bump with_images with_memories
     with_views with_fences with_cmdbufs submit drain
     set_device set_queue set_cmdPool set_pipelineCache set_depthFormat
     set_colorImage set_colorMemory set_colorView
     set_depthImage set_depthMemory set_depthView
     m_instance m_device m_physicalDevice m_queue m_graphicsQueueIndex
     m_cmdPool m_colorImage m_colorMemory m_colorView m_depthImage
     m_depthMemory m_depthView m_size m_pipelineCache m_colorFormat
     m_depthFormat
     next_handle images memories views fences cmdbufs pending completed
     calls
     set_base set_pRender set_rndMethod set_renderRegion set_rtxState
     base m_pRender m_rndMethod m_renderRegion m_rtxState m_maxFrames
     m_descaling m_descalingLevel log frame rtx_size
     set_sample set_framebuffer set_commandBuffer set_renderPass
     set_descPool set_descSetLayout with_renderPasses with_framebuffers
     with_descriptors
     sample m_imguiDescPool m_framebuffer m_commandBuffer m_waitFence
     m_renderPass m_useDynamicRendering m_descPool m_descSetLayout
     renderPasses framebuffers descriptors more_calls
     device_of on_other_device made_now renderPassInfo framebufferInfo
     renderPass attachments framebufferExtent layers
     width height
     fst snd andb negb map length].

(** Take a whole object apart, down to the fields of its device. *)
Ltac split_app app :=
  let s := fresh "s" in
  let b := fresh "b" in
  let d := fresh "d" in
  destruct app as [s ip fb cb wf rp dyn dp dl rps fbs dss mc];
  destruct s as [b pr rm rr rs mf ds dlv lg];
  destruct b as [i0 d p q g c ci cm cv di dm dv sz pc cf df];
  destruct d as [h im me vw fe cbs pe co ca].

Lemma exec_ok {S A} (m : M S A) (s s' : S) (a : A) :
  m s = Ok (a, s') -> exec m s = Ok s'.
Proof. intros H. unfold exec. now rewrite H. Qed.

Section Commands.

Lemma createCommandBuffer_run (app : App) :
  exec createCommandBuffer app = Ok (commanded app).
Proof.
  split_app app. unfold createCommandBuffer, commanded, when_set.
  run_app. destruct (is_set cb); run_app; tidy; reflexivity.
Qed.

Lemma commanded_owns (app : App) :
  owns_cmdbufs app ->
  owns_cmdbufs (commanded app)
  /\ cmdbufs (device_of (commanded app)) = {[m_commandBuffer (commanded app)]}.
Proof.
  intros (Hsub & Hbelow & Hpos). split_app app.
  unfold owns_cmdbufs, commanded, device_of, when_set, hset in *.
  cbn [set_commandBuffer on_other_device set_sample set_base set_device sample
       base m_device m_commandBuffer cmdbufs next_handle device_of] in *.
  assert (Hnew : is_set h = true) by now apply is_set_positive.
  split; [split; [|split]|].
  - rewrite Hnew. destruct (is_set cb); set_solver.
  - intros k Hk. destruct (is_set cb).
    + apply elem_of_union in Hk as [Hk|Hk];
        [apply elem_of_singleton in Hk; lia|].
      assert (Hin : k ∈ cbs) by set_solver. specialize (Hbelow k Hin). lia.
    + apply elem_of_union in Hk as [Hk|Hk];
        [apply elem_of_singleton in Hk; lia|].
      cbn [id] in Hk. specialize (Hbelow k Hk). lia.
  - lia.
  - destruct (is_set cb); cbn [id]; set_solver.
Qed.


End Commands.


(** ** Render pass and framebuffer *)

Section Framebuffers.

Lemma createFrameBuffer_run (app : App) :
  m_useDynamicRendering app = false ->
  m_renderPass app ∈ dom (renderPasses app) ->
  m_colorView (base (sample app)) ∈ dom (views (device_of app)) ->
  m_depthView (base (sample app)) ∈ dom (views (device_of app)) ->
  exec createFrameBuffer app = Ok (with_framebuffer app).
Proof.
  intros Hdyn Hrp Hcv Hdv. split_app app.
  cbn [m_useDynamicRendering] in Hdyn. subst dyn.
  cbn [m_renderPass renderPasses device_of sample base m_device views
       m_colorView m_depthView] in Hrp, Hcv, Hdv.
  unfold createFrameBuffer, with_framebuffer. run_app.
  rewrite (bool_decide_eq_true_2 _ Hrp). run_app. cbn [find].
  rewrite (bool_decide_eq_true_2 _ Hcv), (bool_decide_eq_true_2 _ Hdv).
  run_app. tidy. reflexivity.
Qed.

Lemma createFrameBuffer_dead_pass (app : App) :
  m_useDynamicRendering app = false ->
  m_renderPass app ∉ dom (renderPasses app) ->
  exec createFrameBuffer app = Err (InvalidHandle (m_renderPass app)).
Proof.
  intros Hdyn Hrp. split_app app.
  cbn [m_useDynamicRendering] in Hdyn. subst dyn.
  cbn [m_renderPass renderPasses] in Hrp.
  unfold createFrameBuffer. run_app.
  rewrite (bool_decide_eq_false_2 _ Hrp). reflexivity.
Qed.

Lemma createFrameBuffer_dead_color (app : App) :
  m_useDynamicRendering app = false ->
  m_renderPass app ∈ dom (renderPasses app) ->
  m_colorView (base (sample app)) ∉ dom (views (device_of app)) ->
  exec createFrameBuffer app
  = Err (InvalidHandle (m_colorView (base (sample app)))).
Proof.
  intros Hdyn Hrp Hcv. split_app app.
  cbn [m_useDynamicRendering] in Hdyn. subst dyn.
  cbn [m_renderPass renderPasses device_of sample base m_device views
       m_colorView] in Hrp, Hcv.
  unfold createFrameBuffer. run_app.
  rewrite (bool_decide_eq_true_2 _ Hrp). run_app. cbn [find].
  rewrite (bool_decide_eq_false_2 _ Hcv). reflexivity.
Qed.

Lemma createFrameBuffer_dead_depth (app : App) :
  m_useDynamicRendering app = false ->
  m_renderPass app ∈ dom (renderPasses app) ->
  m_colorView (base (sample app)) ∈ dom (views (device_of app)) ->
  m_depthView (base (sample app)) ∉ dom (views (device_of app)) ->
  exec createFrameBuffer app
  = Err (InvalidHandle (m_depthView (base (sample app)))).
Proof.
  intros Hdyn Hrp Hcv Hdv. split_app app.
  cbn [m_useDynamicRendering] in Hdyn. subst dyn.
  cbn [m_renderPass renderPasses device_of sample base m_device views
       m_colorView m_depthView] in Hrp, Hcv, Hdv.
  unfold createFrameBuffer. run_app.
  rewrite (bool_decide_eq_true_2 _ Hrp). run_app. cbn [find].
  rewrite (bool_decide_eq_true_2 _ Hcv), (bool_decide_eq_false_2 _ Hdv).
  reflexivity.
Qed.

Lemma with_framebuffer_usable (app : App) :
  m_renderPass app ∈ dom (renderPasses app) ->
  m_colorView (base (sample app)) ∈ dom (views (device_of app)) ->
  m_depthView (base (sample app)) ∈ dom (views (device_of app)) ->
  framebuffer_usable (with_framebuffer app).
Proof.
  intros Hrp Hcv Hdv. split_app app. eexists.
  cbn in *. split; [apply lookup_insert_eq|]. split; [exact Hrp|].
  repeat constructor; assumption.
Qed.


End Framebuffers.


(** ** A framebuffer and the views it was made of *)

Section StaleFramebuffer.

Lemma exec_on_sample_base (m : M HeadlessAppVK unit) (app : App)
    (b' : HeadlessAppVK) :
  exec m (base (sample app)) = Ok b' ->
  exec (on_sample (on_base m)) app
  = Ok (set_sample (set_base b' (sample app)) app).
Proof.
  unfold exec, on_sample, on_base.
  destruct (m (base (sample app))) as [[[] b1]|e]; [|discriminate].
  now intros [= ->].
Qed.

Lemma targets_own_bump (this : HeadlessAppVK) :
  targets_own this -> targets_own (set_device (bump (m_device this)) this).
Proof.
  intros (H1 & H2 & H3 & H4 & H5 & H6 & H7 & H8).
  destruct this as [i0 d p q g c ci cm cv di dm dv sz pc cf df].
  destruct d as [h im me vw fe cbs pe co ca].
  unfold targets_own in *. cbn in *.
  repeat split; try assumption; try lia.
  intros k Hk. specialize (H7 k Hk). lia.
Qed.


End StaleFramebuffer.

Lemma example_object_ready_owns :
  targets_own (base (sample example_object_ready)).
Proof.
  assert (Hb : base (sample example_object_ready)
               = set_device
                   (bump (m_device
                            (recreated_depth (recreated_color example_app 1) 1)))
                   (recreated_depth (recreated_color example_app 1) 1))
    by (vm_compute; reflexivity).
  rewrite Hb.
  apply targets_own_bump, recreated_depth_owns, recreated_color_owns,
    example_app_owns.
Qed.


(** ** Teardown *)

Section Teardown.

Lemma destroy_slot_ok (slot : nat) (r : Renderer) (st : SampleExample) :
  exists st',
    (this ← get;
     modify (set_pRender
       (alter (fmap Renderer_destroy) slot (m_pRender this))) ;;
     on_base (on_device
       (modify (record (RendererDestroy (Z.of_nat slot)))))) st
    = Ok (tt, st').
Proof. eexists. reflexivity. Qed.

Lemma destroyResources_loop_null (ps : list (option Renderer)) :
  In None ps ->
  forall slot st, destroyResources_loop slot ps st = Err NullPointer.
Proof.
  induction ps as [|p rest IH]; intros Hin slot st; [destruct Hin|].
  cbn [destroyResources_loop]. destruct p as [r|].
  - destruct Hin as [Hin|Hin]; [discriminate|].
    destruct (destroy_slot_ok slot r st) as (st' & Hst).
    unfold mbind at 1, M_bind at 1. rewrite Hst. now apply IH.
  - reflexivity.
Qed.

Lemma destroyResources_null (app : App) :
  In None (m_pRender (sample app)) ->
  exec destroyResources app = Err NullPointer.
Proof.
  intros Hin. unfold destroyResources, exec.
  cbv beta iota delta [mbind M_bind get modify vkDestroyDescriptorPool
    vkDestroyDescriptorSetLayout record_more on_sample].
  rewrite destroyResources_loop_null; [reflexivity|].
  destruct app as [s ip fb cb wf rp dyn dp dl rps fbs dss mc]. exact Hin.
Qed.

Lemma destroyResources_run (app : App) (r0 r1 : Renderer) :
  m_pRender (sample app) = [Some r0; Some r1] ->
  exists app',
    exec destroyResources app = Ok app'
    /\ m_pRender (sample app')
       = [Some {| constructed := false |}; Some {| constructed := false |}]
    /\ m_rndMethod (sample app') = m_rndMethod (sample app)
    /\ calls (device_of app')
       = calls (device_of app) ++ [RendererDestroy 0; RendererDestroy 1]
    /\ descriptors app'
       = descriptors app ∖ {[m_descPool app]} ∖ {[m_descSetLayout app]}
    /\ exec (on_sample (createRender (m_rndMethod (sample app)))) app'
       = Ok app'.
Proof.
  intros Hready. split_app app. cbn [m_pRender sample] in Hready. subst pr.
  eexists. split.
  { unfold destroyResources. run_app.
    cbv beta iota zeta delta [destroyResources_loop mbind M_bind get modify
      on_base on_device set_pRender m_pRender base m_device set_base
      set_device record Renderer_destroy Z.of_nat Pos.of_succ_nat Pos.succ].
    cbn [alter list_alter fmap option_fmap option_map m_rndMethod
         m_renderRegion m_rtxState m_maxFrames m_descaling m_descalingLevel
         log m_instance m_physicalDevice m_queue m_graphicsQueueIndex
         m_cmdPool m_colorImage m_colorMemory m_colorView m_depthImage
         m_depthMemory m_depthView m_size m_pipelineCache m_colorFormat
         m_depthFormat next_handle images memories views fences cmdbufs
         pending completed calls].
    reflexivity. }
  cbn [sample m_pRender m_rndMethod device_of base m_device calls descriptors
       m_descPool m_descSetLayout].
  split; [reflexivity|]. split; [reflexivity|].
  split; [now rewrite <- app_assoc|]. split; [reflexivity|].
  unfold createRender. run_app.
  rewrite bool_decide_eq_true_2 by reflexivity. reflexivity.
Qed.

(** X18.  [destroyResources] destroys the backend of every slot, constructed
    or not, and stops at a slot that holds no backend.  It leaves the
    pointers and the selected method as they are, so that a later
    [createRender] of the selected method does nothing: the backend it names
    stays destroyed. *)
Theorem destroyResources_destroys_every_backend (app : App) :
  (renderers_ready (sample app) ->
   exists app',
     exec destroyResources app = Ok app'
     /\ m_pRender (sample app')
        = [Some {| constructed := false |}; Some {| constructed := false |}]
     /\ m_rndMethod (sample app') = m_rndMethod (sample app)
     /\ calls (device_of app')
        = calls (device_of app) ++ [RendererDestroy 0; RendererDestroy 1]
     /\ exec (on_sample (createRender (m_rndMethod (sample app)))) app'
        = Ok app')
  /\ (In None (m_pRender (sample app)) ->
      exec destroyResources app = Err NullPointer).
Proof.
  split.
  - intros (r0 & r1 & Hready).
    destruct (destroyResources_run app r0 r1 Hready)
      as (app' & H1 & H2 & H3 & H4 & _ & H6).
    exists app'. auto.
  - apply destroyResources_null.
Qed.

Lemma destroy_run (app : App) :
  m_useDynamicRendering app = false ->
  owns_all app ->
  exists app',
    exec destroy app = Ok app'
    /\ nothing_alive app'
    /\ handles_held app' = handles_held app
    /\ sample app' = set_base
         (set_device (device_of app') (base (sample app))) (sample app).
Proof.
  intros Hdyn (Hown & Hrp & Hfb & Hcb & Hfe & Hds).
  destruct Hown as (Hi & Hm & Hv & _).
  split_app app. cbn [m_useDynamicRendering] in Hdyn. subst dyn.
  unfold device_of in *.
  cbn [base sample m_device images memories views fences cmdbufs
       m_colorImage m_colorMemory m_colorView m_depthImage m_depthMemory
       m_depthView m_renderPass m_framebuffer m_commandBuffer m_waitFence
       m_imguiDescPool renderPasses framebuffers descriptors] in *.
  eexists. split; [unfold destroy; run_app; reflexivity|].
  split; [|split; reflexivity].
  unfold nothing_alive, device_of.
  cbn [base sample m_device images memories views fences cmdbufs pending
       renderPasses framebuffers descriptors].
  unfold hset in *.
  repeat split.
  - apply dom_empty_inv_L. rewrite !dom_delete_L, Hi.
    destruct (is_set ci), (is_set di); set_solver.
  - apply dom_empty_inv_L. rewrite !dom_delete_L, Hm.
    destruct (is_set cm), (is_set dm); set_solver.
  - apply dom_empty_inv_L. rewrite !dom_delete_L, Hv.
    destruct (is_set cv), (is_set dv); set_solver.
  - set_solver.
  - set_solver.
  - apply dom_empty_inv_L. rewrite !dom_delete_L. set_solver.
  - apply dom_empty_inv_L. rewrite !dom_delete_L. set_solver.
  - set_solver.
Qed.


End Teardown.

(** ** The run of main *)

Lemma bind_step {S A B} (m : M S A) (k : A -> M S B) (s s1 : S) (a : A)
    (r : Outcome (B * S)) :
  m s = Ok (a, s1) -> k a s1 = r -> (m ≫= k) s = r.
Proof. intros Hm Hk. unfold mbind, M_bind. now rewrite Hm. Qed.

Lemma device_local_index_spec (p : VkPhysicalDevice) (info : VkImageCreateInfo) :
  device_local_for_all p ->
  getMemoryType_loop (memoryTypeBits (imageMemoryRequirements p info))
    VK_MEMORY_PROPERTY_DEVICE_LOCAL_BIT 0 (memoryTypes p)
  = Some (device_local_index p info).
Proof.
  intros H. unfold device_local_index. destruct (H info) as [i ->]. reflexivity.
Qed.

Lemma host_visible_index_spec (p : VkPhysicalDevice) (info : VkImageCreateInfo) :
  host_visible_for_all p ->
  getMemoryType_loop (memoryTypeBits (imageMemoryRequirements p info))
    (Z.lor VK_MEMORY_PROPERTY_HOST_VISIBLE_BIT
           VK_MEMORY_PROPERTY_HOST_COHERENT_BIT) 0 (memoryTypes p)
  = Some (host_visible_index p info).
Proof.
  intros H. unfold host_visible_index. destruct (H info) as [i ->]. reflexivity.
Qed.

Lemma dumpImage_file_shown (host : VkHost) (sz : VkExtent2D)
    (info : VkImageCreateInfo) (finished : list Z) (mem : Z) :
  host_shows host (width sz) (height sz) ->
  0 <= width sz < 2 ^ 32 -> 0 <= height sz < 2 ^ 32 ->
  dumpImage_file sz (imageSubresourceLayout host info)
    (memoryContents host finished mem)
  = Ok (ppm_header (width sz) (height sz)
        ++ image_bytes (memoryContents host finished mem)
             (layoutOffset (imageSubresourceLayout host info))
             (rowPitch (imageSubresourceLayout host info))
             (Z.to_nat (width sz)) (Z.to_nat (height sz))).
Proof.
  intros Hshows Hw Hh. destruct (Hshows info finished mem) as (Ho & Hp & Hin).
  destruct sz as [w h].
  destruct (imageSubresourceLayout host info) as [off pitch].
  cbn [width height layoutOffset rowPitch] in *.
  apply dumpImage_file_fits; auto.
Qed.

(** One call on a state given field by field. *)
Ltac run_call :=
  cbv beta iota zeta delta
    [mbind M_bind mret M_ret get put modify fail when exec
     on_device on_base on_sample on_app_device fresh
     vkGetDeviceQueue vkCreateCommandPool vkCreatePipelineCache
     vkCreateImage vkDestroyImage vkGetImageMemoryRequirements
     vkAllocateMemory vkFreeMemory vkBindImageMemory vkCreateImageView
     vkDestroyImageView vkAllocateCommandBuffers vkBeginCommandBuffer
     vkEndCommandBuffer vkCmd vkFreeCommandBuffers vkCreateFence vkDestroyFence
     vkQueueSubmit vkWaitForFences vkQueueWaitIdle vkDeviceWaitIdle LOGI
     vkGetImageSubresourceLayout vkMapMemory insertImageMemoryBarrier
     vkCmdCopyImage submitWork getMemoryType
     record_more vkCreateRenderPass vkDestroyRenderPass vkCreateFramebuffer
     vkDestroyFramebuffer vkCreateDescriptorPool vkDestroyDescriptorPool
     vkCreateDescriptorSetLayout vkDestroyDescriptorSetLayout
     vkDestroyPipelineCache vkDestroyCommandPool
     record bump with_images with_memories
     with_views with_fences with_cmdbufs submit drain
     set_device set_queue set_cmdPool set_pipelineCache set_depthFormat
     set_colorImage set_colorMemory set_colorView
     set_depthImage set_depthMemory set_depthView
     m_instance m_device m_physicalDevice m_queue m_graphicsQueueIndex
     m_cmdPool m_colorImage m_colorMemory m_colorView m_depthImage
     m_depthMemory m_depthView m_size m_pipelineCache m_colorFormat
     m_depthFormat
     next_handle images memories views fences cmdbufs pending completed
     calls
     set_base set_pRender set_rndMethod set_renderRegion set_rtxState
     base m_pRender m_rndMethod m_renderRegion m_rtxState m_maxFrames
     m_descaling m_descalingLevel log frame rtx_size
     set_sample set_framebuffer set_commandBuffer set_renderPass
     set_descPool set_descSetLayout with_renderPasses with_framebuffers
     with_descriptors
     sample m_imguiDescPool m_framebuffer m_commandBuffer m_waitFence
     m_renderPass m_useDynamicRendering m_descPool m_descSetLayout
     renderPasses framebuffers descriptors more_calls
     renderPass attachments framebufferExtent layers
     Sample.setup queues_at after_setup
     createColorBuffer createDepthBuffer colorImageInfo colorViewInfo
     depthImageInfo depthViewInfo dstImageInfo
     createRenderPass createFrameBuffer createDescriptorSetLayout
     createRender resetFrame setRenderRegion createCommandBuffer
     updateUniformBuffer renderScene drawPost dumpImage destroyResources
     destroyResources_loop destroy pRender_call
     App_default SampleExample_default HeadlessAppVK_default
     Renderer_create Renderer_destroy constructed
     Queues_value RndMethod_value Z.to_nat Pos.to_nat Pos.iter_op Init.Nat.add
     Z.of_nat Pos.of_succ_nat Pos.succ
     offset extent width height x y image
     fst snd andb negb id];
  cbn [lookup list_lookup insert list_insert alter list_alter fmap option_fmap
       option_map find].

(** The tests a call can stop at, settled one at a time. *)
Ltac settle :=
  first
    [ progress change (is_set VK_NULL_HANDLE) with false
    | rewrite lookup_insert_eq
    | rewrite in_dom_insert
    | rewrite Z.eqb_refl
    | rewrite device_local_index_spec by assumption
    | rewrite host_visible_index_spec by assumption
    | rewrite dumpImage_file_shown
        by first [assumption
                 | cbn [width height]; unfold SAMPLE_WIDTH, SAMPLE_HEIGHT; lia]
    | match goal with
      | H : is_set ?h = _ |- context [is_set ?h] => rewrite H
      end
    | match goal with
      | |- context [bool_decide (?a = ?b :> RndMethod)] =>
          let v := eval vm_compute in (bool_decide (a = b)) in
          change (bool_decide (a = b)) with v
      end
    | match goal with
      | |- context [memcmp ?a ?b ?n =? 0] =>
          let v := eval vm_compute in (memcmp a b n =? 0) in
          change (memcmp a b n =? 0) with v
      end
    | match goal with
      | |- context [?a <=? ?b] =>
          let v := eval vm_compute in (a <=? b) in
          match v with
          | true => change (a <=? b) with true
          | false => change (a <=? b) with false
          end
      end
    | match goal with
      | |- context [bool_decide (?k ∈ dom ?m)] =>
          rewrite (bool_decide_eq_true_2 (k ∈ dom m))
            by (rewrite ?dom_insert_L; set_solver)
      end ].

(** A call among the calls on record, looked for from the last one back. *)
Ltac find_call :=
  repeat first
    [ apply in_or_app; right; left; reflexivity
    | apply in_or_app; left ].

Ltac no_object :=
  first
    [ reflexivity
    | apply dom_empty_inv_L;
      rewrite ?dom_delete_L, ?dom_insert_L, ?dom_delete_L, ?dom_empty_L;
      set_solver
    | set_solver ].

Ltac step :=
  eapply bind_step;
  [ run_call; repeat (settle; run_call); reflexivity | cbv beta ].

Section MainRun.

Variables (instance : Z) (physicalDevice : VkPhysicalDevice) (host : VkHost).

Lemma main_run (device : VkDevice) (queues : list Z)
    (framebuffer commandBuffer waitFence : Z) :
  unused_device device ->
  device_local_for_all physicalDevice ->
  host_visible_for_all physicalDevice ->
  (4 <= length queues)%nat ->
  host_shows host SAMPLE_WIDTH SAMPLE_HEIGHT ->
  exists written app' copyCmd mem,
    main instance device physicalDevice queues host
      (App_default framebuffer commandBuffer waitFence)
    = Ok (written, app')
    /\ nothing_alive app'
    /\ completed (device_of app')
       = completed device ++ pending device
         ++ [m_commandBuffer app'; copyCmd]
    /\ written
       = ppm_header SAMPLE_WIDTH SAMPLE_HEIGHT
         ++ image_bytes (memoryContents host (completed (device_of app')) mem)
              (layoutOffset (imageSubresourceLayout host
                               (dstImageInfo (base (sample app')))))
              (rowPitch (imageSubresourceLayout host
                           (dstImageInfo (base (sample app')))))
              (Z.to_nat SAMPLE_WIDTH) (Z.to_nat SAMPLE_HEIGHT)
    /\ m_pRender (sample app')
       = [Some {| constructed := false |}; Some {| constructed := false |}]
    /\ m_rndMethod (sample app') = eRtxPipeline
    /\ In (DestroyFence waitFence) (calls (device_of app'))
    /\ (exists n, In (n, DestroyFramebuffer framebuffer) (more_calls app'))
    /\ (commandBuffer <> VK_NULL_HANDLE ->
        In (FreeCommandBuffers (m_cmdPool (base (sample app'))) commandBuffer)
           (calls (device_of app')))
    /\ m_waitFence app' = waitFence.
Proof.
  intros (Him & Hme & Hvw & Hfe & Hcb & Hh) Hlocal Hhost Hlen Hshows.
  destruct device as [h im me vw fe cbs pe co ca].
  cbn [images memories views fences cmdbufs next_handle] in *. subst.
  destruct queues as [|q0 [|q1 [|q2 [|q3 rest]]]]; cbn [length] in Hlen;
    try lia.
  destruct (is_set commandBuffer) eqn:Hset.
  all: eexists _, _, _, _; split;
    [ unfold main;
      eapply bind_step;
      [ run_call; rewrite (exec_unit _ _ _ (setup_run _ _ _ _ _ _ _ _ _));
        run_call; rewrite Z.eqb_refl;
        fold (probed_depth_format physicalDevice); reflexivity
      | cbv beta ];
      repeat step; run_call; reflexivity
    | ].
  all: unfold nothing_alive, device_of;
    cbn [sample base m_device images memories views fences cmdbufs pending
         renderPasses framebuffers descriptors completed calls more_calls
         m_pRender m_rndMethod m_cmdPool dstImageInfo m_size
         m_commandBuffer m_waitFence].
  all: repeat apply conj.
  all: lazymatch goal with
       | |- In _ _ => find_call
       | |- ex _ => eexists; find_call
       | |- _ <> _ -> _ =>
           intros Hne;
           first [ solve [find_call]
                 | exfalso; unfold is_set in Hset;
                   apply negb_false_iff in Hset; apply Z.eqb_eq in Hset;
                   contradiction ]
       | |- @eq (list Z) _ _ =>
           rewrite ?app_nil_r; cbn [app]; rewrite <- ?app_assoc; cbn [app];
           reflexivity
       | |- @eq (list byte) _ _ => rewrite ?app_nil_r; reflexivity
       | |- _ => no_object
       end.
Qed.




End MainRun.

(** ** The life cycle on the examples *)

Lemma example_object_ready_owns_all :
  m_useDynamicRendering example_object_ready = false
  /\ owns_all example_object_ready.
Proof.
  split; [reflexivity|].
  assert (Hrp : renderPasses example_object_ready
                = <[m_renderPass example_object_ready
                    := renderPassInfo example_object_ready]> ∅)
    by (vm_compute; reflexivity).
  assert (Hfb : framebuffers example_object_ready = ∅)
    by (vm_compute; reflexivity).
  assert (Hcb : cmdbufs (device_of example_object_ready) = ∅)
    by (vm_compute; reflexivity).
  assert (Hfe : fences (device_of example_object_ready) = ∅)
    by (vm_compute; reflexivity).
  assert (Hds : descriptors example_object_ready = ∅)
    by (vm_compute; reflexivity).
  split; [exact example_object_ready_owns|].
  rewrite Hrp, Hfb, Hcb, Hfe, Hds, dom_insert_L, !dom_empty_L.
  generalize (m_renderPass example_object_ready) as rp.
  generalize (m_framebuffer example_object_ready) as fb.
  generalize (m_commandBuffer example_object_ready) as cb.
  generalize (m_waitFence example_object_ready) as wf.
  generalize (m_imguiDescPool example_object_ready) as ip.
  intros ip wf cb fb rp. clear Hrp Hfb Hcb Hfe Hds.
  split; [set_solver|]. split; [set_solver|]. split; [set_solver|].
  split; set_solver.
Qed.


Lemma example_main_conditions :
  unused_device new_device
  /\ device_local_for_all example_gpu
  /\ host_visible_for_all example_gpu
  /\ (4 <= length [0; 0; 1; 2])%nat
  /\ host_shows example_frame_host SAMPLE_WIDTH SAMPLE_HEIGHT.
Proof.
  split; [repeat split|]. split; [|split; [|split]].
  - intros info. exists 1. reflexivity.
  - intros info. exists 0. reflexivity.
  - cbn [length]. lia.
  - intros info finished mem.
    cbv beta iota zeta delta [example_frame_host imageSubresourceLayout
      memoryContents layoutOffset rowPitch SAMPLE_WIDTH SAMPLE_HEIGHT].
    rewrite repeat_length, Z2Nat.id by lia. lia.
Qed.




(** ** Render pass and framebuffer, made anew *)

Section PassAndFramebuffer.

Lemma createRenderPass_run (app : App) :
  m_useDynamicRendering app = false ->
  exec createRenderPass app = Ok (with_pass app).
Proof.
  intros Hdyn. split_app app. cbn [m_useDynamicRendering] in Hdyn. subst dyn.
  unfold createRenderPass, with_pass, when_set. run_app.
  destruct (is_set rp); run_app; tidy; reflexivity.
Qed.

Lemma dynamic_rendering_skips (app : App) :
  m_useDynamicRendering app = true ->
  exec createPassAndFramebuffer app = Ok app.
Proof.
  intros Hdyn. split_app app. cbn [m_useDynamicRendering] in Hdyn. subst dyn.
  unfold createPassAndFramebuffer, createRenderPass, createFrameBuffer.
  run_app. reflexivity.
Qed.

Lemma createPassAndFramebuffer_run (app : App) :
  m_useDynamicRendering app = false ->
  owns_pass_and_framebuffer app ->
  let app' := with_framebuffer (with_pass app) in
  exec createPassAndFramebuffer app = Ok app'
  /\ owns_pass_and_framebuffer app'
  /\ dom (renderPasses app') = {[m_renderPass app']}
  /\ dom (framebuffers app') = {[m_framebuffer app']}
  /\ framebuffer_usable app'
  /\ m_framebuffer app' = next_handle (device_of app) + 1
  /\ next_handle (device_of app') = next_handle (device_of app) + 2
  /\ m_useDynamicRendering app' = false.
Proof.
  intros Hdyn (Hrp & Hfb & Hbelow & Hpos & Hcv & Hdv). cbv zeta.
  assert (Hdyn1 : m_useDynamicRendering (with_pass app) = false)
    by (split_app app; exact Hdyn).
  assert (Hrp1 : m_renderPass (with_pass app)
                 ∈ dom (renderPasses (with_pass app))).
  { split_app app. cbn. rewrite dom_insert_L. set_solver. }
  assert (Hcv1 : m_colorView (base (sample (with_pass app)))
                 ∈ dom (views (device_of (with_pass app))))
    by (split_app app; exact Hcv).
  assert (Hdv1 : m_depthView (base (sample (with_pass app)))
                 ∈ dom (views (device_of (with_pass app))))
    by (split_app app; exact Hdv).
  assert (Hrun : exec createPassAndFramebuffer app
                 = Ok (with_framebuffer (with_pass app))).
  { unfold createPassAndFramebuffer.
    rewrite exec_bind, (createRenderPass_run _ Hdyn).
    now apply createFrameBuffer_run. }
  assert (Hpasses : dom (renderPasses (with_framebuffer (with_pass app)))
                    = {[next_handle (device_of app)]}).
  { split_app app. unfold device_of, hset in *. cbn in *.
    rewrite dom_replaced. unfold hset. destruct (is_set rp); set_solver. }
  assert (Hframes : dom (framebuffers (with_framebuffer (with_pass app)))
                    = {[next_handle (device_of app) + 1]}).
  { split_app app. unfold device_of in *. cbn in *.
    rewrite dom_insert_L, dom_delete_L. set_solver. }
  split; [exact Hrun|]. split.
  { split; [|split; [|split; [|split; [|split]]]].
    - rewrite Hpasses. split_app app. unfold device_of, hset in *. cbn in *.
      rewrite is_set_positive by lia. set_solver.
    - rewrite Hframes. split_app app. cbn. set_solver.
    - intros k. rewrite Hpasses, Hframes. split_app app.
      unfold device_of in *. cbn in *. intros Hk.
      apply elem_of_union in Hk as [Hk|Hk]; apply elem_of_singleton in Hk;
        lia.
    - split_app app. unfold device_of in *. cbn in *. lia.
    - split_app app. exact Hcv.
    - split_app app. exact Hdv. }
  split; [rewrite Hpasses; split_app app; reflexivity|].
  split; [rewrite Hframes; split_app app; reflexivity|].
  split; [now apply with_framebuffer_usable|].
  split; [split_app app; reflexivity|].
  split; [split_app app; cbn; lia|].
  split_app app. exact Hdyn.
Qed.


End PassAndFramebuffer.

Lemma example_object_ready_owns_pass :
  owns_pass_and_framebuffer example_object_ready.
Proof.
  assert (Hrp : renderPasses example_object_ready
                = <[m_renderPass example_object_ready
                    := renderPassInfo example_object_ready]> ∅)
    by (vm_compute; reflexivity).
  assert (Hfb : framebuffers example_object_ready = ∅)
    by (vm_compute; reflexivity).
  assert (Hlt : m_renderPass example_object_ready
                < next_handle (device_of example_object_ready))
    by (vm_compute; reflexivity).
  assert (Hset : hset (m_renderPass example_object_ready)
                 = {[m_renderPass example_object_ready]})
    by (apply hset_positive; vm_compute; reflexivity).
  assert (Hpos : 0 < next_handle (device_of example_object_ready))
    by (vm_compute; reflexivity).
  assert (Hcv : m_colorView (base (sample example_object_ready))
                ∈ dom (views (device_of example_object_ready)))
    by (apply elem_of_dom; eexists; vm_compute; reflexivity).
  assert (Hdv : m_depthView (base (sample example_object_ready))
                ∈ dom (views (device_of example_object_ready)))
    by (apply elem_of_dom; eexists; vm_compute; reflexivity).
  unfold owns_pass_and_framebuffer. cbv zeta.
  rewrite Hrp, Hfb, Hset, dom_insert_L, !dom_empty_L.
  split; [|split; [|split; [|split; [exact Hpos|split; assumption]]]].
  - clear. generalize (m_renderPass example_object_ready). intros rp.
    set_solver.
  - clear. generalize (m_framebuffer example_object_ready). intros fb.
    set_solver.
  - intros k Hk. assert (k = m_renderPass example_object_ready) as ->.
    { clear - Hk. revert Hk.
      generalize (m_renderPass example_object_ready). intros rp Hk.
      set_solver. }
    exact Hlt.
Qed.

